(** * 3D inspector: measurement and linking geometry

    A shallow embedding of the measurement engine of the inspector and the
    properties of its geometry kernel, measurement store, annotation
    linker, screen projection and point-editing state machine.

    The modules follow the classes of the program:
    - [Utils], js/utils.js (the class [Utils] at the end of js/reference.js);
    - [MeasurementSystem], js/measurement.js (the class in js/scene.js);
    - [AnnotationSystem], js/annotation.js;
    - [ControlsManager], js/controls.js;
    - [ReferenceSystem] and [HIMPSystem], js/reference.js and js/himp.js;
    - [THREE], the part of three.js the program calls.

    JavaScript numbers are IEEE 754 binary64 values, so they are embedded
    as Rocq's primitive floats: every arithmetic operation and comparison
    below rounds and orders exactly as the program does.  Arrays are lists;
    an index that the program compares with 0 or -1 is an integer.  A read
    [arr[i]] inside a loop bounded by [arr.length] is a total lookup (its
    default is never reached); a read that can miss returns an option and
    the exception the program raises on [undefined] is a [Throw]. *)

From Stdlib Require Import Floats ZArith List Bool String Lia Sorted.
From stdpp Require Import base list.
Import ListNotations.

(** ** Control flow *)

(** [for (let i = lo; i < hi; i++) s = body(i, s)] *)
Definition for_loop {S : Type} (lo hi : nat) (body : nat -> S -> S) (s : S) : S :=
  fold_left (fun acc i => body i acc) (seq lo (hi - lo)) s.

(** A JavaScript completion: a value, or an exception thrown on the way. *)
Inductive JsError : Type :=
| TypeError (what : string).

Inductive Completion (A : Type) : Type :=
| Normal (a : A)
| Throw (e : JsError).
Arguments Normal {A} a.
Arguments Throw {A} e.

Definition bind {A B : Type} (c : Completion A) (k : A -> Completion B) : Completion B :=
  match c with
  | Normal a => k a
  | Throw e => Throw e
  end.

Notation "'let!' x ':=' c 'in' k" := (bind c (fun x => k))
  (at level 10, x name, c at level 100, k at level 200).

(** The same loop when the body may throw: the first exception ends it. *)
Definition for_loop_throwing {S : Type} (lo hi : nat)
    (body : nat -> S -> Completion S) (s : S) : Completion S :=
  fold_left (fun acc i => let! a := acc in body i a) (seq lo (hi - lo)) (Normal s).

(** An array length or index used as a number. *)
Definition number_of_nat (n : nat) : float :=
  PrimFloat.of_uint63 (Uint63.of_Z (Z.of_nat n)).

(** [Math.min(a, b)]: NaN if either argument is NaN, and -0 below +0. *)
Definition Math_min (a b : float) : float :=
  if PrimFloat.is_nan a || PrimFloat.is_nan b then PrimFloat.nan
  else if (a <? b)%float then a
  else if (b <? a)%float then b
  else if PrimFloat.get_sign a then a else b.

Definition is_positive_zero (a : float) : bool :=
  match PrimFloat.classify a with PZero => true | _ => false end.

Definition is_negative_zero (a : float) : bool :=
  match PrimFloat.classify a with NZero => true | _ => false end.

(** [Math.max(...values)], as the language defines it: the highest value
    starts at -Infinity; a NaN among the arguments is returned at once;
    +0 replaces a highest value of -0; a larger argument replaces the
    highest value. *)
Fixpoint Math_max_from (highest : float) (values : list float) : float :=
  match values with
  | [] => highest
  | number :: rest =>
      if PrimFloat.is_nan number then PrimFloat.nan
      else
        let highest :=
          if is_positive_zero number && is_negative_zero highest then number
          else highest in
        let highest := if (highest <? number)%float then number else highest in
        Math_max_from highest rest
  end.

Definition Math_max (values : list float) : float :=
  Math_max_from PrimFloat.neg_infinity values.

(** The bitwise operators, on integers.  [ToInt32] takes an operand modulo
    2^32 into the signed 32-bit range; a shift count is taken modulo 32;
    the result of [<<] is taken back into that range. *)
Definition ToInt32 (n : Z) : Z := ((n + 2 ^ 31) mod 2 ^ 32 - 2 ^ 31)%Z.

Definition js_shr (a k : Z) : Z := Z.shiftr (ToInt32 a) (k mod 32).

Definition js_shl (a k : Z) : Z := ToInt32 (Z.shiftl (ToInt32 a) (k mod 32)).

Definition js_and (a b : Z) : Z := Z.land (ToInt32 a) (ToInt32 b).

Definition js_or (a b : Z) : Z := Z.lor (ToInt32 a) (ToInt32 b).

(** ** three.js vectors

    [THREE.Vector3] is the library type every point of the program is an
    instance of.  The methods the program calls are given with the
    arithmetic three.js performs, in its order of evaluation. *)
Module THREE.

Record Vector3 : Type := mkVector3 { x : float; y : float; z : float }.

Definition subVectors (a b : Vector3) : Vector3 :=
  mkVector3 (x a - x b) (y a - y b) (z a - z b).

Definition addVectors (a b : Vector3) : Vector3 :=
  mkVector3 (x a + x b) (y a + y b) (z a + z b).

Definition multiplyScalar (v : Vector3) (s : float) : Vector3 :=
  mkVector3 (x v * s) (y v * s) (z v * s).

Definition divideScalar (v : Vector3) (s : float) : Vector3 :=
  multiplyScalar v (1 / s).

Definition crossVectors (a b : Vector3) : Vector3 :=
  mkVector3 (y a * z b - z a * y b)
            (z a * x b - x a * z b)
            (x a * y b - y a * x b).

Definition length (v : Vector3) : float :=
  PrimFloat.sqrt (x v * x v + y v * y v + z v * z v).

Definition distanceToSquared (a b : Vector3) : float :=
  let dx := (x a - x b)%float in
  let dy := (y a - y b)%float in
  let dz := (z a - z b)%float in
  (dx * dx + dy * dy + dz * dz)%float.

Definition distanceTo (a b : Vector3) : float :=
  PrimFloat.sqrt (distanceToSquared a b).

(** [v.clone()] and [v.copy(w)] on immutable values. *)
Definition clone (v : Vector3) : Vector3 := v.
Definition copy (_ w : Vector3) : Vector3 := w.

Definition origin : Vector3 := mkVector3 0 0 0.

(** A camera, as far as the program uses one: its world position and the
    map [v.project(camera)] from a point to normalized device coordinates
    (the view transform, the projection and the perspective divide). *)
Record Camera : Type := mkCamera {
  position : Vector3;
  ndc : Vector3 -> Vector3
}.

Definition project (v : Vector3) (camera : Camera) : Vector3 := ndc camera v.

End THREE.

Abbreviation Vector3 := THREE.Vector3.

#[global] Instance Vector3_inhabited : Inhabited Vector3 := populate THREE.origin.

(** ** Values the program hands to the page *)

(** An object literal with number or boolean fields; a property that was
    never written reads [undefined]. *)
Inductive JsValue : Type :=
| JsUndefined
| JsNumber (n : float)
| JsBoolean (b : bool).

Definition JsObject : Type := list (string * JsValue).

Fixpoint get_property (o : JsObject) (key : string) : JsValue :=
  match o with
  | [] => JsUndefined
  | (k, v) :: o' => if String.eqb k key then v else get_property o' key
  end.

(** [renderer.domElement] and [window], as sources of the viewport size. *)
Record Renderer : Type := mkRenderer { clientWidth : float; clientHeight : float }.
Record Window : Type := mkWindow { innerWidth : float; innerHeight : float }.

(** ** Utils: the geometry kernel (js/utils.js) *)
Module Utils.

(** The static members the class declares, in source order.  A call
    [Utils.m(...)] of a name that is not in this list reads [undefined]
    and throws a TypeError. *)
Definition static_members : list string :=
  [ "meshUnits"; "UNIT_CONVERSIONS"; "setMeshUnits"; "getMeshUnits";
    "convertToMeters"; "convertFromMeters"; "toFeetInches"; "formatDistance";
    "formatArea"; "calculatePolygonArea"; "calculatePolygonCenter";
    "isPointInPolygon"; "calculateDistance"; "calculateMidpoint";
    "projectToScreen"; "screenToNDC"; "generateRandomColor"; "hexToRgb";
    "rgbToHex"; "generateId"; "clamp"; "lerp"; "mapRange"; "roundTo";
    "pointsEqual"; "createSphereGeometry"; "createTubeGeometry";
    "disposeObject"; "disposeHierarchy"; "formatTimestamp"; "formatFilesize";
    "debounce"; "throttle"; "deepClone"; "isValidNumber"; "sanitizeFilename";
    "now"; "logTiming" ]%string.

Definition has_member (name : string) : bool :=
  existsb (String.eqb name) static_members.

Definition calculatePolygonArea (points : list Vector3) : float :=
  if (List.length points <? 3)%nat then 0%float
  else
    let n := List.length points in
    let basePoint := points !!! 0%nat in
    for_loop 1 (n - 1)
      (fun i totalArea =>
         let point1 := points !!! i in
         let point2 := points !!! (i + 1)%nat in
         let v1 := THREE.subVectors point1 basePoint in
         let v2 := THREE.subVectors point2 basePoint in
         let cross := THREE.crossVectors v1 v2 in
         (totalArea + THREE.length cross / 2)%float)
      0%float.

Definition calculatePolygonCenter (points : list Vector3) : Vector3 :=
  if (List.length points =? 0)%nat then THREE.mkVector3 0 0 0
  else
    let center :=
      for_loop 0 (List.length points)
        (fun i center => THREE.addVectors center (points !!! i))
        (THREE.mkVector3 0 0 0) in
    THREE.divideScalar center (number_of_nat (List.length points)).

(** The loop state of [isPointInPolygon] is the parity flag and the index
    [j] of the previous vertex ([j = i++] in the loop header). *)
Definition isPointInPolygon (point : Vector3) (polygonPoints : list Vector3) : bool :=
  if (List.length polygonPoints <? 3)%nat then false
  else
    let x := THREE.x point in
    let z := THREE.z point in
    fst (for_loop 0 (List.length polygonPoints)
           (fun i '(inside, j) =>
              let xi := THREE.x (polygonPoints !!! i) in
              let zi := THREE.z (polygonPoints !!! i) in
              let xj := THREE.x (polygonPoints !!! j) in
              let zj := THREE.z (polygonPoints !!! j) in
              (if xorb (z <? zi)%float (z <? zj)%float
                  && (x <? (xj - xi) * (z - zi) / (zj - zi) + xi)%float
               then negb inside else inside, i))
           (false, (List.length polygonPoints - 1)%nat)).

Definition calculateDistance (point1 point2 : Vector3) : float :=
  THREE.distanceTo point1 point2.

Definition calculateMidpoint (point1 point2 : Vector3) : Vector3 :=
  THREE.multiplyScalar (THREE.addVectors point1 point2) 0.5.

(** [renderer] defaults to null, and then the window gives the size. *)
Definition projectToScreen (window : Window) (point : Vector3) (camera : THREE.Camera)
    (renderer : option Renderer) : JsObject :=
  let screenPos := THREE.project (THREE.clone point) camera in
  let width :=
    match renderer with Some r => clientWidth r | None => innerWidth window end in
  let height :=
    match renderer with Some r => clientHeight r | None => innerHeight window end in
  let x := ((THREE.x screenPos * 0.5 + 0.5) * width)%float in
  let y := ((- THREE.y screenPos * 0.5 + 0.5) * height)%float in
  [("x"%string, JsNumber x); ("y"%string, JsNumber y)].

(** The property read [Utils.distancePointToLine]: the class declares no
    member of that name (see [static_members]), so the read gives
    [undefined], here [None]. *)
Definition distancePointToLine : option (Vector3 -> Vector3 -> Vector3 -> float) :=
  None.

(** Colours are integers 0xRRGGBB. *)
Record RGB : Type := mkRGB { r : Z; g : Z; b : Z }.

Definition hexToRgb (hex : Z) : RGB :=
  mkRGB (js_and (js_shr hex 16) 255) (js_and (js_shr hex 8) 255) (js_and hex 255).

Definition rgbToHex (r g b : Z) : Z :=
  js_or (js_or (js_shl r 16) (js_shl g 8)) b.

(** [Math.min(Math.max(value, min), max)]. *)
Definition clamp (value min max : float) : float :=
  Math_min (Math_max [value; min]) max.

End Utils.


(** ** Measurement entities (js/measurement.js) *)

(** What the program writes to the console.  Template literals keep their
    fixed text; the pictographs and interpolated values are left out. *)
Inductive ConsoleEntry : Type :=
| console_warn (message : string)
| console_log (message : string).

(** The visual objects a measurement owns.  The scene graph and the DOM
    they are attached to belong to the renderer and are not modelled. *)
Record Sphere : Type := mkSphere {
  sphere_position : Vector3;
  sphere_measurementId : Z;
  sphere_pointIndex : Z
}.

Record Line : Type := mkLine {
  line_fromIndex : nat;
  line_toIndex : nat;
  line_isClosingLine : bool
}.

Inductive Label : Type :=
| DistanceLabel (position : Vector3) (distance : float) (fromIndex toIndex : nat)
| AreaLabel (position : Vector3) (area : float).

(** The object literal of [createNewMeasurement]; [measurementId] is the
    number [n] of the id string [M<n>], [createdAt] the clock reading. *)
Record Measurement : Type := mkMeasurement {
  measurementId : Z;
  points : list Vector3;
  spheres : list Sphere;
  lines : list Line;
  labels : list Label;
  color : Z;
  isClosed : bool;
  isLocked : bool;
  createdAt : Z;
  totalDistance : float;
  area : float
}.

Definition set_points (m : Measurement) (v : list Vector3) : Measurement :=
  mkMeasurement (measurementId m) v (spheres m) (lines m) (labels m) (color m)
    (isClosed m) (isLocked m) (createdAt m) (totalDistance m) (area m).

Definition set_spheres (m : Measurement) (v : list Sphere) : Measurement :=
  mkMeasurement (measurementId m) (points m) v (lines m) (labels m) (color m)
    (isClosed m) (isLocked m) (createdAt m) (totalDistance m) (area m).

Definition set_lines (m : Measurement) (v : list Line) : Measurement :=
  mkMeasurement (measurementId m) (points m) (spheres m) v (labels m) (color m)
    (isClosed m) (isLocked m) (createdAt m) (totalDistance m) (area m).

Definition set_labels (m : Measurement) (v : list Label) : Measurement :=
  mkMeasurement (measurementId m) (points m) (spheres m) (lines m) v (color m)
    (isClosed m) (isLocked m) (createdAt m) (totalDistance m) (area m).

Definition set_isClosed (m : Measurement) (v : bool) : Measurement :=
  mkMeasurement (measurementId m) (points m) (spheres m) (lines m) (labels m) (color m)
    v (isLocked m) (createdAt m) (totalDistance m) (area m).

Definition set_totalDistance (m : Measurement) (v : float) : Measurement :=
  mkMeasurement (measurementId m) (points m) (spheres m) (lines m) (labels m) (color m)
    (isClosed m) (isLocked m) (createdAt m) v (area m).

Definition set_area (m : Measurement) (v : float) : Measurement :=
  mkMeasurement (measurementId m) (points m) (spheres m) (lines m) (labels m) (color m)
    (isClosed m) (isLocked m) (createdAt m) (totalDistance m) v.

(** ** Camera controls (js/controls.js)

    [OrbitControls] is the three.js add-on; only its [enabled] switch is
    touched by the program.  [controls] is null until [init] has run. *)
Module ControlsManager.

Record OrbitControls : Type := mkOrbitControls { orbit_enabled : bool }.

Record t : Type := mk {
  enabled : bool;
  controls : option OrbitControls
}.

(** The constructor, and [init], which creates the [OrbitControls]
    (enabled when created). *)
Definition new : t := mk true None.

Definition init (c : t) : t := mk (enabled c) (Some (mkOrbitControls true)).

Definition setEnabled (c : t) (value : bool) : t * list ConsoleEntry :=
  let c :=
    mk value (match controls c with
              | Some _ => Some (mkOrbitControls value)
              | None => None
              end) in
  (c, [console_log (if value then "Controls enabled" else "Controls disabled")]).

End ControlsManager.

(** ** The measurement store and its pointer handlers (js/measurement.js)

    First the methods of [MeasurementSystem] that work on one measurement
    object.  The object is mutated in place by the program; here each
    method returns the object after the call, and what it printed where it
    prints.  The read-out panel, the label elements and the scene graph are
    the page's and the renderer's: calls that only touch them
    ([updateMeasurementReadout], [showMeasurementReadout], [scene.add], ...)
    leave no trace here. *)
Module MeasurementSystem.

Definition createDistanceLabel (m : Measurement) (position : Vector3)
    (distance : float) (fromIndex toIndex : nat) : Measurement :=
  set_labels m (labels m ++ [DistanceLabel (THREE.clone position) distance fromIndex toIndex]).

Definition createMeasurementLine (m : Measurement) (fromIndex toIndex : nat)
    (isClosingLine : bool) : Measurement :=
  let fromPoint := points m !!! fromIndex in
  let toPoint := points m !!! toIndex in
  let m := set_lines m (lines m ++ [mkLine fromIndex toIndex isClosingLine]) in
  if negb isClosingLine then
    let midPoint := Utils.calculateMidpoint fromPoint toPoint in
    let distance := Utils.calculateDistance fromPoint toPoint in
    createDistanceLabel m midPoint distance fromIndex toIndex
  else m.

Definition createAreaLabel (m : Measurement) : Measurement :=
  if (area m <=? 0)%float then m
  else
    let center := Utils.calculatePolygonCenter (points m) in
    set_labels m (labels m ++ [AreaLabel center (area m)]).

Definition clearMeasurementLines (m : Measurement) : Measurement := set_lines m [].

Definition clearMeasurementLabels (m : Measurement) : Measurement := set_labels m [].

Definition updateMeasurementDistance (m : Measurement) : Measurement :=
  let n := List.length (points m) in
  let totalDistance :=
    for_loop 1 n
      (fun i totalDistance =>
         (totalDistance
          + Utils.calculateDistance (points m !!! (i - 1)%nat) (points m !!! i))%float)
      0%float in
  let totalDistance :=
    if isClosed m && (3 <=? n)%nat then
      (totalDistance
       + Utils.calculateDistance (points m !!! (n - 1)%nat) (points m !!! 0%nat))%float
    else totalDistance in
  set_totalDistance m totalDistance.

Definition updateMeasurementVisuals (m : Measurement) : Measurement :=
  let m := clearMeasurementLines m in
  let m := clearMeasurementLabels m in
  let n := List.length (points m) in
  if (n <? 2)%nat then m
  else
    let m := for_loop 1 n (fun i m => createMeasurementLine m (i - 1) i false) m in
    let m :=
      if isClosed m && (3 <=? n)%nat then
        let m := createMeasurementLine m (n - 1) 0 true in
        let m := set_area m (Utils.calculatePolygonArea (points m)) in
        createAreaLabel m
      else m in
    updateMeasurementDistance m.

Definition addPointToMeasurement (m : Measurement) (point : Vector3)
    : Measurement * list ConsoleEntry :=
  if isLocked m then (m, [console_warn "Cannot add point to locked measurement"])
  else
    let m := set_points m (points m ++ [THREE.clone point]) in
    let sphere :=
      mkSphere point (measurementId m) (Z.of_nat (List.length (points m)) - 1) in
    let m := set_spheres m (spheres m ++ [sphere]) in
    (m, [console_log "Added point to measurement"]).

(** [pointIndex] is an integer index; [splice(pointIndex, 1)] is reached
    only with [0 <= pointIndex < points.length]. *)
Definition deletePointFromMeasurement (m : Measurement) (pointIndex : Z)
    : Measurement * list ConsoleEntry :=
  if isLocked m then (m, [console_warn "Cannot delete point from locked measurement"])
  else if (pointIndex <? 0)%Z || (pointIndex >=? Z.of_nat (List.length (points m)))%Z
  then (m, [])
  else
    let i := Z.to_nat pointIndex in
    let m := set_points m (delete i (points m)) in
    let m :=
      match spheres m !! i with
      | Some _ => set_spheres m (delete i (spheres m))
      | None => m
      end in
    let m := updateMeasurementVisuals m in
    (m, [console_log "Deleted point from measurement"]).

(** The fields of a [MeasurementSystem] instance.  The scene, camera,
    renderer, raycaster and label timer are the renderer's. *)
Record State : Type := mkState {
  active : bool;
  measurements : list Measurement;
  currentMeasurementIndex : Z;
  measurementIdCounter : Z;
  labelsVisible : bool;
  isEditing : bool;
  editingPointIndex : Z;
  editingMeasurementIndex : Z
}.

Definition MEASUREMENT_COLORS : list Z :=
  [ 0xff4444; 0x44ff44; 0x4444ff; 0xffff44; 0xff44ff;
    0x44ffff; 0xff8844; 0x88ff44; 0x4488ff; 0xff4488 ]%Z.

(** The constructor. *)
Definition new : State := mkState false [] (-1) 1 true false (-1) (-1).

Definition set_active (s : State) (v : bool) : State :=
  mkState v (measurements s) (currentMeasurementIndex s) (measurementIdCounter s)
    (labelsVisible s) (isEditing s) (editingPointIndex s) (editingMeasurementIndex s).

Definition set_measurements (s : State) (v : list Measurement) : State :=
  mkState (active s) v (currentMeasurementIndex s) (measurementIdCounter s)
    (labelsVisible s) (isEditing s) (editingPointIndex s) (editingMeasurementIndex s).

Definition set_currentMeasurementIndex (s : State) (v : Z) : State :=
  mkState (active s) (measurements s) v (measurementIdCounter s)
    (labelsVisible s) (isEditing s) (editingPointIndex s) (editingMeasurementIndex s).

Definition set_measurementIdCounter (s : State) (v : Z) : State :=
  mkState (active s) (measurements s) (currentMeasurementIndex s) v
    (labelsVisible s) (isEditing s) (editingPointIndex s) (editingMeasurementIndex s).

Definition set_labelsVisible (s : State) (v : bool) : State :=
  mkState (active s) (measurements s) (currentMeasurementIndex s) (measurementIdCounter s)
    v (isEditing s) (editingPointIndex s) (editingMeasurementIndex s).

Definition set_editing (s : State) (editing : bool) (pointIndex measurementIndex : Z) : State :=
  mkState (active s) (measurements s) (currentMeasurementIndex s) (measurementIdCounter s)
    (labelsVisible s) editing pointIndex measurementIndex.

(** What a handler can reach: the instance itself ([this]), the controls
    manager registered on the global application object
    ([window.inspector3D.controls], absent when either is missing), and the
    console. *)
Record World : Type := mkWorld {
  this : State;
  inspector3D_controls : option ControlsManager.t;
  console : list ConsoleEntry
}.

Definition set_this (w : World) (s : State) : World :=
  mkWorld s (inspector3D_controls w) (console w).

Definition print (w : World) (out : list ConsoleEntry) : World :=
  mkWorld (this w) (inspector3D_controls w) (console w ++ out).

Definition controls_setEnabled (w : World) (value : bool) : World :=
  match inspector3D_controls w with
  | Some c =>
      let '(c, out) := ControlsManager.setEnabled c value in
      print (mkWorld (this w) (Some c) (console w)) out
  | None => w
  end.

(** [arr[i]] for an integer [i]: undefined outside [0 .. length-1]. *)
Definition array_get {A : Type} (arr : list A) (i : Z) : option A :=
  if (i <? 0)%Z then None else arr !! Z.to_nat i.

(** A method call on the measurement object stored at position [mi] of
    [this.measurements]: the object is shared, so the array sees the
    mutation. *)
Definition on_measurement (w : World) (mi : nat)
    (method : Measurement -> Measurement * list ConsoleEntry) : World :=
  match measurements (this w) !! mi with
  | Some m =>
      let '(m, out) := method m in
      print (set_this w (set_measurements (this w) (<[mi := m]> (measurements (this w))))) out
  | None => w
  end.

(** A pointer event as the handlers read it: the modifier keys, the clock,
    and the surface point [getIntersectionPoint] finds under the pointer
    (the closest ray hit on a visible model, or null). *)
Record MouseEvent : Type := mkMouseEvent {
  ctrlKey : bool;
  shiftKey : bool;
  intersection : option Vector3;
  timeStamp : Z
}.

Definition getIntersectionPoint (e : MouseEvent) : option Vector3 :=
  match intersection e with
  | Some p => Some (THREE.clone p)
  | None => None
  end.

Record ClosestPoint : Type := mkClosestPoint {
  closest_measurement : option nat;
  closest_pointIndex : Z;
  closest_distance : float
}.

(** The default of [maxDistance], the double written 0.1. *)
Definition default_maxDistance : float := 0x1.999999999999ap-4%float.

(** The measurement object returned is named by its position in
    [this.measurements]. *)
Definition findClosestPoint (s : State) (position : Vector3) (maxDistance : float)
    : ClosestPoint :=
  for_loop 0 (List.length (measurements s))
    (fun i acc =>
       match measurements s !! i with
       | Some measurement =>
           for_loop 0 (List.length (points measurement))
             (fun j acc =>
                let distance := THREE.distanceTo position (points measurement !!! j) in
                if (distance <? closest_distance acc)%float
                then mkClosestPoint (Some i) (Z.of_nat j) distance
                else acc)
             acc
       | None => acc
       end)
    (mkClosestPoint None (-1) maxDistance).

(** [this.measurements.indexOf(measurement)] is the position the object
    was found at. *)
Definition startEditing (w : World) (mi : nat) (pointIndex : Z) : World :=
  let w := set_this w (set_editing (this w) true pointIndex (Z.of_nat mi)) in
  let w := controls_setEnabled w false in
  print w [console_log "Started editing point"].

Definition stopEditing (w : World) : World :=
  let w := set_this w (set_editing (this w) false (-1) (-1)) in
  let w := controls_setEnabled w true in
  print w [console_log "Stopped editing"].

Definition createNewMeasurement (w : World) (now : Z) : World * nat :=
  let s := this w in
  let measurement :=
    mkMeasurement (measurementIdCounter s) [] [] [] []
      (nth (List.length (measurements s) mod List.length MEASUREMENT_COLORS)
           MEASUREMENT_COLORS 0%Z)
      false false now 0%float 0%float in
  let s := set_measurementIdCounter s (measurementIdCounter s + 1) in
  let s := set_measurements s (measurements s ++ [measurement]) in
  let s := set_currentMeasurementIndex s (Z.of_nat (List.length (measurements s)) - 1) in
  (print (set_this w s) [console_log "Created new measurement"],
   (List.length (measurements s) - 1)%nat).

Definition getCurrentMeasurement (s : State) : option (nat * Measurement) :=
  if (0 <=? currentMeasurementIndex s)%Z
     && (currentMeasurementIndex s <? Z.of_nat (List.length (measurements s)))%Z
  then
    match measurements s !! Z.to_nat (currentMeasurementIndex s) with
    | Some m => Some (Z.to_nat (currentMeasurementIndex s), m)
    | None => None
    end
  else None.

Definition handleDeletePoint (w : World) (e : MouseEvent) : World :=
  match getIntersectionPoint e with
  | None => w
  | Some intersectionPoint =>
      let found := findClosestPoint (this w) intersectionPoint default_maxDistance in
      match closest_measurement found with
      | Some mi =>
          if negb (closest_pointIndex found =? -1)%Z
          then on_measurement w mi
                 (fun m => deletePointFromMeasurement m (closest_pointIndex found))
          else w
      | None => w
      end
  end.

Definition handleClick (w : World) (e : MouseEvent) : World :=
  if isEditing (this w) then w
  else if shiftKey e then handleDeletePoint w e
  else
    match getIntersectionPoint e with
    | None => w
    | Some intersectionPoint =>
        let '(w, mi) :=
          match getCurrentMeasurement (this w) with
          | Some (mi, _) => (w, mi)
          | None => createNewMeasurement w (timeStamp e)
          end in
        let w := on_measurement w mi (fun m => addPointToMeasurement m intersectionPoint) in
        on_measurement w mi (fun m => (updateMeasurementVisuals m, []))
    end.

Definition handleMouseDown (w : World) (e : MouseEvent) : World :=
  if negb (ctrlKey e) then w
  else
    match getIntersectionPoint e with
    | None => w
    | Some intersectionPoint =>
        let found := findClosestPoint (this w) intersectionPoint default_maxDistance in
        match closest_measurement found with
        | Some mi =>
            if negb (closest_pointIndex found =? -1)%Z
            then startEditing w mi (closest_pointIndex found)
            else w
        | None => w
        end
    end.

(** Reading [points] of an undefined measurement, or calling [copy] on an
    undefined point, throws before anything is written. *)
Definition handleMouseMove (w : World) (e : MouseEvent) : Completion World :=
  if negb (isEditing (this w)) then Normal w
  else
    match getIntersectionPoint e with
    | None => Normal w
    | Some intersectionPoint =>
        match array_get (measurements (this w)) (editingMeasurementIndex (this w)) with
        | None => Throw (TypeError "measurement is undefined")
        | Some measurement =>
            match array_get (points measurement) (editingPointIndex (this w)) with
            | None => Throw (TypeError "measurement.points[...] is undefined")
            | Some point =>
                let mi := Z.to_nat (editingMeasurementIndex (this w)) in
                let pi := Z.to_nat (editingPointIndex (this w)) in
                Normal
                  (on_measurement w mi
                     (fun m =>
                        let m :=
                          set_points m
                            (<[pi := THREE.copy point intersectionPoint]> (points m)) in
                        (updateMeasurementVisuals m, [])))
            end
        end
    end.

Definition handleMouseUp (w : World) (e : MouseEvent) : World :=
  if isEditing (this w) then stopEditing w else w.

Definition activate (w : World) : World :=
  print (set_this w (set_active (this w) true)) [console_log "Measurement mode activated"].

Definition deactivate (w : World) : World :=
  let w := set_this w (set_active (this w) false) in
  let w := stopEditing w in
  print w [console_log "Measurement mode deactivated"].

Definition closeMeasurement (w : World) : World :=
  match getCurrentMeasurement (this w) with
  | None => print w [console_warn "Need at least 3 points to close measurement"]
  | Some (mi, measurement) =>
      if (List.length (points measurement) <? 3)%nat
      then print w [console_warn "Need at least 3 points to close measurement"]
      else if isLocked measurement
      then print w [console_warn "Cannot close locked measurement"]
      else
        on_measurement w mi
          (fun m =>
             (updateMeasurementVisuals (set_isClosed m true),
              [console_log "Closed measurement"]))
  end.

Definition switchToMeasurement (w : World) (index : Z) : World :=
  if (0 <=? index)%Z && (index <? Z.of_nat (List.length (measurements (this w))))%Z
  then print (set_this w (set_currentMeasurementIndex (this w) index))
         [console_log "Switched to measurement"]
  else w.

Definition toggleLabels (w : World) : World :=
  print (set_this w (set_labelsVisible (this w) (negb (labelsVisible (this w)))))
    [console_log (if negb (labelsVisible (this w))
                  then "Measurement labels shown" else "Measurement labels hidden")].

(** The measurement leaves the array; its spheres, lines and labels leave
    the scene and the page with it. *)
Definition clearMeasurement (w : World) (mi : nat) (measurement : Measurement) : World :=
  if isLocked measurement then print w [console_warn "Cannot clear locked measurement"]
  else
    let s := this w in
    let s := set_measurements s (delete mi (measurements s)) in
    let s :=
      if (currentMeasurementIndex s >=? Z.of_nat mi)%Z
      then set_currentMeasurementIndex s (currentMeasurementIndex s - 1)
      else s in
    print (set_this w s) [console_log "Cleared measurement"].

Definition clearCurrent (w : World) : World :=
  match getCurrentMeasurement (this w) with
  | Some (mi, measurement) =>
      if negb (isLocked measurement) then clearMeasurement w mi measurement else w
  | None => w
  end.

(** *** The listeners of [setupEventListeners] and the calls the
    application makes on the instance *)
Inductive Event : Type :=
| click (e : MouseEvent)
| mousedown (e : MouseEvent)
| mousemove (e : MouseEvent)
| mouseup (e : MouseEvent)
| call_activate
| call_deactivate
| call_closeMeasurement
| call_createNewMeasurement (now : Z)
| call_switchToMeasurement (index : Z)
| call_toggleLabels
| call_clearCurrent.

(** An exception that leaves a listener is reported by the browser; the
    objects stay as the handler left them. *)
Definition step (w : World) (ev : Event) : World :=
  match ev with
  | click e => if active (this w) then handleClick w e else w
  | mousedown e => if active (this w) && ctrlKey e then handleMouseDown w e else w
  | mousemove e =>
      if active (this w) && isEditing (this w) then
        match handleMouseMove w e with
        | Normal w' => w'
        | Throw _ => w
        end
      else w
  | mouseup e => if active (this w) && isEditing (this w) then handleMouseUp w e else w
  | call_activate => activate w
  | call_deactivate => deactivate w
  | call_closeMeasurement => closeMeasurement w
  | call_createNewMeasurement now => fst (createNewMeasurement w now)
  | call_switchToMeasurement index => switchToMeasurement w index
  | call_toggleLabels => toggleLabels w
  | call_clearCurrent => clearCurrent w
  end.

Definition run (evs : list Event) (w : World) : World := fold_left step evs w.

(** The application after start-up: a fresh measurement system, and the
    controls manager it registered, if any. *)
Definition initial (c : option ControlsManager.t) : World := mkWorld new c [].

(** [dispose]: [this.measurements.forEach(m => this.clearMeasurement(m))].
    [forEach] fixes the number of rounds when it starts, and in round [k]
    visits the element that is at position [k] then, if there still is
    one; [clearMeasurement] splices the visited measurement out of the very
    array being walked ([indexOf] finds it at [k]).  The timer, scene,
    camera and renderer that [dispose] also drops are the renderer's. *)
Fixpoint dispose_rounds (rounds k : nat) (w : World) : World :=
  match rounds with
  | O => w
  | Datatypes.S rounds' =>
      match measurements (this w) !! k with
      | Some m => dispose_rounds rounds' (Datatypes.S k) (clearMeasurement w k m)
      | None => dispose_rounds rounds' (Datatypes.S k) w
      end
  end.

Definition dispose (w : World) : World :=
  let w := print w [console_log "Disposing measurement system"] in
  let w := dispose_rounds (List.length (measurements (this w))) 0 w in
  print w [console_log "Measurement system disposed"].

(** *** What the read-out panel and the export are given

    [updateMeasurementReadout] writes the panel from the current
    measurement, and nothing while the tool is off.  The text is put
    together from the parts below, in this order; the numbers are
    formatted by [Utils.formatDistance] and [Utils.formatArea], and a part
    carries the number itself. *)
Inductive ReadoutPart : Type :=
| mode_help
| header (id : Z) (pointCount : nat)
| next_point_help
| distance_line (distance : float)
| area_line (area : float)
| close_hint
| keys_help.

Definition updateMeasurementReadout (s : State) : option (list ReadoutPart) :=
  if negb (active s) then None
  else
    match getCurrentMeasurement s with
    | None => Some [mode_help]
    | Some (_, measurement) =>
        let pointCount := List.length (points measurement) in
        if (pointCount =? 0)%nat then Some [mode_help]
        else
          let distance := totalDistance measurement in
          let area := area measurement in
          Some
            (header (measurementId measurement) pointCount
             :: (if (pointCount =? 1)%nat then [next_point_help]
                 else
                   distance_line distance
                   :: (if isClosed measurement && (0 <? area)%float
                       then [area_line area] else [])
                   ++ (if (3 <=? pointCount)%nat && negb (isClosed measurement)
                       then [close_hint] else [])
                   ++ [keys_help]))
    end.

(** [getExportData]: one object per measurement.  The colour and the date
    as text and the units of the mesh are left out. *)
Record ExportData : Type := mkExportData {
  export_id : Z;
  export_points : list Vector3;
  export_totalDistance : float;
  export_area : float;
  export_isClosed : bool;
  export_isLocked : bool
}.

Definition getExportData (s : State) : list ExportData :=
  map (fun measurement =>
         mkExportData (measurementId measurement)
           (map (fun p => THREE.mkVector3 (THREE.x p) (THREE.y p) (THREE.z p))
              (points measurement))
           (totalDistance measurement) (area measurement)
           (isClosed measurement) (isLocked measurement))
    (measurements s).

End MeasurementSystem.

(** ** Linking an annotation to a measurement (js/annotation.js) *)
Module AnnotationSystem.

Inductive Relationship : Type := inside | near_line.

(** The link record; the measurement object it refers to is named by its
    position in the measurement system's array. *)
Record Link : Type := mkLink {
  measurement : nat;
  relationship : Relationship;
  distance : float
}.

Section Linker.

(** What the property read [Utils.distancePointToLine] yields. *)
Variable distancePointToLine : option (Vector3 -> Vector3 -> Vector3 -> float).

Definition call_distancePointToLine (point a b : Vector3) : Completion float :=
  match distancePointToLine with
  | Some f => Normal (f point a b)
  | None => Throw (TypeError "Utils.distancePointToLine is not a function")
  end.

Definition getDistanceToMeasurementLines_with (point : Vector3) (m : Measurement)
    : Completion float :=
  let n := List.length (points m) in
  if (n <? 2)%nat then Normal infinity
  else
    let! minDistance :=
      for_loop_throwing 1 n
        (fun i minDistance =>
           let! distance :=
             call_distancePointToLine point (points m !!! (i - 1)%nat) (points m !!! i) in
           Normal (Math_min minDistance distance))
        infinity in
    if isClosed m && (3 <=? n)%nat then
      let! distance :=
        call_distancePointToLine point (points m !!! (n - 1)%nat) (points m !!! 0%nat) in
      Normal (Math_min minDistance distance)
    else Normal minDistance.

(** The [for ... of] loop over the measurements from position [i] on, with
    its two variables [bestMatch] and [bestDistance]. *)
Fixpoint findEnclosing_loop (point : Vector3) (ms : list Measurement) (i : nat)
    (bestMatch : option Link) (bestDistance : float) : Completion (option Link) :=
  match ms with
  | [] => Normal bestMatch
  | m :: rest =>
      if isClosed m && (3 <=? List.length (points m))%nat
         && Utils.isPointInPolygon point (points m)
      then Normal (Some (mkLink i inside 0))
      else
        match getDistanceToMeasurementLines_with point m with
        | Throw e => Throw e
        | Normal lineDistance =>
            if (lineDistance <? 0.5)%float && (lineDistance <? bestDistance)%float
            then findEnclosing_loop point rest (S i)
                   (Some (mkLink i near_line lineDistance)) lineDistance
            else findEnclosing_loop point rest (S i) bestMatch bestDistance
        end
  end.

(** [app] is [window.inspector3D.measurement.measurements], absent when
    the application object or its measurement system is. *)
Definition findEnclosingMeasurement_with (app : option (list Measurement))
    (point : Vector3) : Completion (option Link) :=
  match app with
  | None => Normal None
  | Some measurements => findEnclosing_loop point measurements 0 None infinity
  end.

End Linker.

Definition getDistanceToMeasurementLines : Vector3 -> Measurement -> Completion float :=
  getDistanceToMeasurementLines_with Utils.distancePointToLine.

Definition findEnclosingMeasurement
    : option (list Measurement) -> Vector3 -> Completion (option Link) :=
  findEnclosingMeasurement_with Utils.distancePointToLine.

(** *** The discrepancy form and the stored annotations *)

(** The options of the severity select of the page (viewer100.html). *)
Inductive SeverityOption : Type :=
| option_low | option_medium | option_high | option_critical.

Definition option_value (o : SeverityOption) : string :=
  match o with
  | option_low => "low"
  | option_medium => "medium"
  | option_high => "high"
  | option_critical => "critical"
  end.

(** [select.value]: the value of the selected option, and the empty
    string when no option is selected. *)
Definition select_value (selected : option SeverityOption) : string :=
  match selected with
  | Some o => option_value o
  | None => ""
  end.

(** The fields of the modal when a button of it is pressed. *)
Record Form : Type := mkForm {
  annotation_id : string;
  annotation_title : string;
  annotation_type : string;
  annotation_severity : option SeverityOption;
  annotation_description : string;
  ndt_required : bool;
  abs_required : bool
}.

(** What [collectModalData] returns. *)
Record ModalData : Type := mkModalData {
  data_id : string;
  data_title : string;
  data_type : string;
  data_severity : string;
  data_description : string;
  data_ndtRequired : bool;
  data_absRequired : bool
}.

(** [value || fallback] on strings. *)
Definition or_string (value fallback : string) : string :=
  if String.eqb value "" then fallback else value.

Definition collectModalData (f : Form) : ModalData :=
  mkModalData (or_string (annotation_id f) "") (or_string (annotation_title f) "")
    (or_string (annotation_type f) "corrosion")
    (or_string (select_value (annotation_severity f)) "Low")
    (or_string (annotation_description f) "")
    (ndt_required f) (abs_required f).

(** An annotation; the colour, the dates, the dot and the label are left
    out. *)
Record Annotation : Type := mkAnnotation {
  id : string;
  title : string;
  type : string;
  severity : string;
  description : string;
  ndtRequired : bool;
  absRequired : bool;
  position : Vector3;
  linkedMeasurement : option Link
}.

Record State : Type := mkState {
  active : bool;
  annotations : list Annotation;
  annotationIdCounter : Z;
  pendingAnnotationPoint : option Vector3;
  editingAnnotationId : option string;
  currentMeasurementLink : option Link
}.

Definition new : State := mkState false [] 1 None None None.

Definition set_active (s : State) (value : bool) : State :=
  mkState value (annotations s) (annotationIdCounter s) (pendingAnnotationPoint s)
    (editingAnnotationId s) (currentMeasurementLink s).

Definition set_annotations (s : State) (l : list Annotation) : State :=
  mkState (active s) l (annotationIdCounter s) (pendingAnnotationPoint s)
    (editingAnnotationId s) (currentMeasurementLink s).

Definition set_annotationIdCounter (s : State) (n : Z) : State :=
  mkState (active s) (annotations s) n (pendingAnnotationPoint s)
    (editingAnnotationId s) (currentMeasurementLink s).

Definition set_pendingAnnotationPoint (s : State) (p : option Vector3) : State :=
  mkState (active s) (annotations s) (annotationIdCounter s) p
    (editingAnnotationId s) (currentMeasurementLink s).

Definition set_editingAnnotationId (s : State) (annotationId : option string) : State :=
  mkState (active s) (annotations s) (annotationIdCounter s) (pendingAnnotationPoint s)
    annotationId (currentMeasurementLink s).

Definition set_currentMeasurementLink (s : State) (link : option Link) : State :=
  mkState (active s) (annotations s) (annotationIdCounter s) (pendingAnnotationPoint s)
    (editingAnnotationId s) link.

(** [this.annotations.find(a => a.id === annotationId)], with the position
    the annotation was found at. *)
Fixpoint find_from (annotationId : string) (l : list Annotation) (index : nat)
    : option (nat * Annotation) :=
  match l with
  | [] => None
  | a :: rest =>
      if String.eqb (id a) annotationId then Some (index, a)
      else find_from annotationId rest (S index)
  end.

Definition find_by_id (s : State) (annotationId : string) : option (nat * Annotation) :=
  find_from annotationId (annotations s) 0.

(** [if (this.editingAnnotationId)]: null and the empty string are not. *)
Definition editing (s : State) : option string :=
  match editingAnnotationId s with
  | Some annotationId => if String.eqb annotationId "" then None else Some annotationId
  | None => None
  end.

(** [measurements] is [window.inspector3D.measurement.measurements] at the
    time.  When [findEnclosingMeasurement] throws, the listener ends
    there, with the link as it was; nothing but the display of the modal
    follows this call in any listener. *)
Definition updateMeasurementLinkInfo (s : State) (measurements : option (list Measurement))
    : State :=
  let existing :=
    match editing s with
    | Some annotationId =>
        match find_by_id s annotationId with
        | Some (_, annotation) => linkedMeasurement annotation
        | None => None
        end
    | None => None
    end in
  let found :=
    match existing, pendingAnnotationPoint s with
    | None, Some point => findEnclosingMeasurement measurements point
    | _, _ => Normal existing
    end in
  match found with
  | Normal link => set_currentMeasurementLink s link
  | Throw _ => s
  end.

Definition showAnnotationModal (s : State) (annotation : option Annotation)
    (measurements : option (list Measurement)) : State :=
  let s :=
    match annotation with
    | Some a => set_editingAnnotationId s (Some (id a))
    | None => set_editingAnnotationId s None
    end in
  updateMeasurementLinkInfo s measurements.

Definition editAnnotation (s : State) (annotation : Annotation)
    (measurements : option (list Measurement)) : State :=
  showAnnotationModal s (Some annotation) measurements.

(** [clicked] is the position of the annotation whose label is under the
    pointer, if any. *)
Definition handleClick (s : State) (clicked : option nat) (intersection : option Vector3)
    (measurements : option (list Measurement)) : State :=
  match clicked ≫= (fun index => annotations s !! index) with
  | Some annotation => editAnnotation s annotation measurements
  | None =>
      match intersection with
      | None => s
      | Some point =>
          showAnnotationModal (set_pendingAnnotationPoint s (Some (THREE.clone point)))
            None measurements
      end
  end.

Definition closeModal (s : State) : State :=
  set_editingAnnotationId (set_pendingAnnotationPoint s None) None.

Definition cancelAnnotation (s : State) : State :=
  closeModal (set_editingAnnotationId (set_pendingAnnotationPoint s None) None).

Definition clearCurrent (s : State) : State := closeModal s.

Definition activate (s : State) : State := set_active s true.

Definition deactivate (s : State) : State := closeModal (set_active s false).

Definition createAnnotation (s : State) (data : ModalData) : State :=
  match pendingAnnotationPoint s with
  | None => s
  | Some point =>
      let annotation :=
        mkAnnotation (data_id data) (data_title data) (data_type data)
          (data_severity data) (data_description data) (data_ndtRequired data)
          (data_absRequired data) (THREE.clone point) (currentMeasurementLink s) in
      let s := set_annotations s (annotations s ++ [annotation]) in
      let s := set_annotationIdCounter s (annotationIdCounter s + 1) in
      set_currentMeasurementLink (set_pendingAnnotationPoint s None) None
  end.

Definition updateAnnotation (s : State) (annotationId : string) (data : ModalData)
    : State :=
  match find_by_id s annotationId with
  | None => s
  | Some (index, a) =>
      let annotation :=
        mkAnnotation (id a) (data_title data) (data_type data) (data_severity data)
          (data_description data) (data_ndtRequired data) (data_absRequired data)
          (position a) (linkedMeasurement a) in
      set_annotations s (<[index := annotation]> (annotations s))
  end.

Definition deleteAnnotation (s : State) (confirmed : bool) : State :=
  match editing s with
  | None => s
  | Some annotationId =>
      if negb confirmed then s
      else
        let s :=
          match find_by_id s annotationId with
          | Some (index, _) => set_annotations s (delete index (annotations s))
          | None => s
          end in
        closeModal s
  end.

Definition removeMeasurementLink (s : State) (measurements : option (list Measurement))
    : State :=
  updateMeasurementLinkInfo (set_currentMeasurementLink s None) measurements.

Section Modal.

(** [String.prototype.trim] on the texts of the form. *)
Variable trim : string -> string.

Definition validateAnnotationData (data : ModalData) : bool :=
  negb (String.eqb (trim (data_id data)) "")
  && negb (String.eqb (trim (data_title data)) "")
  && negb (String.eqb (trim (data_description data)) "").

Definition saveAnnotation (s : State) (f : Form) : State :=
  let annotationData := collectModalData f in
  if negb (validateAnnotationData annotationData) then s
  else
    let s :=
      match editing s with
      | Some annotationId => updateAnnotation s annotationId annotationData
      | None => createAnnotation s annotationData
      end in
    closeModal s.

(** The listeners of [setupEventListeners] and [setupModalHandlers], the
    click on the label of an annotation, the calls of the application, and
    the hand-over from the HIMP system, which sets the pending point and
    shows the modal. *)
Inductive Event : Type :=
| canvas_click (clicked : option nat) (intersection : option Vector3)
    (measurements : option (list Measurement))
| label_click (index : nat) (measurements : option (list Measurement))
| saveBtn (f : Form)
| cancelBtn
| deleteBtn (confirmed : bool)
| removeLinkBtn (measurements : option (list Measurement))
| call_activate
| call_deactivate
| call_clearCurrent
| discrepancy_from_himp (point : Vector3) (measurements : option (list Measurement)).

Definition step (s : State) (ev : Event) : State :=
  match ev with
  | canvas_click clicked intersection measurements =>
      if active s then handleClick s clicked intersection measurements else s
  | label_click index measurements =>
      match annotations s !! index with
      | Some annotation => editAnnotation s annotation measurements
      | None => s
      end
  | saveBtn f => saveAnnotation s f
  | cancelBtn => cancelAnnotation s
  | deleteBtn confirmed => deleteAnnotation s confirmed
  | removeLinkBtn measurements => removeMeasurementLink s measurements
  | call_activate => activate s
  | call_deactivate => deactivate s
  | call_clearCurrent => clearCurrent s
  | discrepancy_from_himp point measurements =>
      showAnnotationModal (set_pendingAnnotationPoint s (Some (THREE.clone point)))
        None measurements
  end.

Definition run (evs : list Event) (s : State) : State := fold_left step evs s.

End Modal.

End AnnotationSystem.

(** ** js/export.js: the summary of the report *)

Module ExportManager.

(** An annotation as the report has it: the export data of the
    annotation system with [requiresAction] added.  The position, the
    colour, the dates, and the criticality and cost looked up by severity
    are left out; of the link, whether there is one. *)
Record AnnotationData : Type := mkAnnotationData {
  id : string;
  title : string;
  type : string;
  severity : string;
  description : string;
  ndtRequired : bool;
  absRequired : bool;
  linkedMeasurement : bool;
  requiresAction : bool
}.

Definition getAnnotationData (annotationSystem : option AnnotationSystem.State)
    : list AnnotationData :=
  match annotationSystem with
  | None => []
  | Some s =>
      map (fun a =>
             mkAnnotationData (AnnotationSystem.id a) (AnnotationSystem.title a)
               (AnnotationSystem.type a) (AnnotationSystem.severity a)
               (AnnotationSystem.description a) (AnnotationSystem.ndtRequired a)
               (AnnotationSystem.absRequired a)
               (match AnnotationSystem.linkedMeasurement a with
                | Some _ => true
                | None => false
                end)
               (AnnotationSystem.ndtRequired a || AnnotationSystem.absRequired a))
        (AnnotationSystem.annotations s)
  end.

(** [annotations.filter(a => a.severity === level).length]. *)
Definition count_severity (level : string) (annotations : list AnnotationData) : nat :=
  List.length (List.filter (fun a => String.eqb (severity a) level) annotations).

Definition calculateRiskLevel (annotations : list AnnotationData) : string :=
  let critical := count_severity "Critical" annotations in
  let high := count_severity "High" annotations in
  let medium := count_severity "Medium" annotations in
  if (0 <? critical)%nat then "Critical"
  else if (2 <? high)%nat then "High"
  else if (0 <? high)%nat || (5 <? medium)%nat then "Medium"
  else if (0 <? medium)%nat then "Low"
  else "Very Low".

(** The counts and the risk level of [generateSummaryStatistics]; the
    percentages, the inspection score and the rest of the summary are
    left out. *)
Record Summary : Type := mkSummary {
  totalAnnotations : nat;
  criticalIssues : nat;
  highPriorityIssues : nat;
  linkedIssues : nat;
  riskLevel : string
}.

Definition generateSummaryStatistics (annotations : list AnnotationData) : Summary :=
  let totalIssues := List.length annotations in
  let criticalIssues := count_severity "Critical" annotations in
  let highIssues := count_severity "High" annotations in
  let linkedIssues := List.length (List.filter linkedMeasurement annotations) in
  mkSummary totalIssues criticalIssues (criticalIssues + highIssues) linkedIssues
    (calculateRiskLevel annotations).

(** A measurement as the report has it: the export data of the
    measurement system with the fields [getMeasurementData] adds.  The
    annotations linked to the measurement are left out. *)
Record MeasurementData : Type := mkMeasurementData {
  exported : MeasurementSystem.ExportData;
  pointCount : nat;
  perimeter : float;
  isComplete : bool;
  measurementType : string
}.

Definition getMeasurementData (measurementSystem : option MeasurementSystem.State)
    : list MeasurementData :=
  match measurementSystem with
  | None => []
  | Some s =>
      map (fun measurement =>
             mkMeasurementData measurement
               (List.length (MeasurementSystem.export_points measurement))
               (MeasurementSystem.export_totalDistance measurement)
               (MeasurementSystem.export_isClosed measurement)
               (if MeasurementSystem.export_isClosed measurement then "area" else "linear"))
        (MeasurementSystem.getExportData s)
  end.

End ExportManager.

(** ** Label placement of the reference and HIMP systems
    (js/reference.js, js/himp.js): the body of the [forEach] callback of
    [updateLabelPositions] for one entity that has a label and a position. *)
Record LabelStyle : Type := mkLabelStyle {
  style_left : float;
  style_top : float;
  style_display_block : bool
}.

Module ReferenceSystem.

Definition updateLabelPosition (window : Window) (camera : THREE.Camera)
    (position : Vector3) : LabelStyle :=
  let vector := THREE.project (THREE.clone position) camera in
  let x := ((THREE.x vector * 0.5 + 0.5) * innerWidth window)%float in
  let y := ((- THREE.y vector * 0.5 + 0.5) * innerHeight window)%float in
  let distance := THREE.distanceTo (THREE.position camera) position in
  let isVisible := (THREE.z vector <? 1)%float && (distance <? 100)%float in
  mkLabelStyle (x + 20) (y - 10) isVisible.

End ReferenceSystem.

(** [array.sort(comparefn)].  The sort is in place and stable: of two
    elements neither of which [comparefn] puts first, the one that was
    first stays first; a result of [comparefn] that is NaN counts as 0.
    For a [comparefn] that orders the elements consistently, as a
    difference of numbers does, this fixes the result: each element, from
    the last to the first, is put in front of the elements sorted so far
    and moved behind those [comparefn] puts before it. *)
Fixpoint sort_insert {A : Type} (comparefn : A -> A -> float) (x : A)
    (sorted : list A) : list A :=
  match sorted with
  | [] => [x]
  | y :: rest =>
      if (0 <? comparefn x y)%float then y :: sort_insert comparefn x rest
      else x :: y :: rest
  end.

Definition Array_sort {A : Type} (comparefn : A -> A -> float) (array : list A) : list A :=
  fold_right (sort_insert comparefn) [] array.

Module HIMPSystem.

Definition updateLabelPosition (window : Window) (camera : THREE.Camera)
    (position : Vector3) : LabelStyle :=
  let vector := THREE.project (THREE.clone position) camera in
  let x := ((THREE.x vector * 0.5 + 0.5) * innerWidth window)%float in
  let y := ((- THREE.y vector * 0.5 + 0.5) * innerHeight window)%float in
  let distance := THREE.distanceTo (THREE.position camera) position in
  let isVisible := (THREE.z vector <? 1)%float && (distance <? 100)%float in
  mkLabelStyle (x + 25) (y - 15) isVisible.

Definition ZONE_COLORS_safe : Z := 0x4CAF50%Z.
Definition ZONE_COLORS_caution : Z := 0xFF9800%Z.
Definition ZONE_COLORS_warning : Z := 0xF44336%Z.

(** The keys of [this.himpCategories], in the order they are written. *)
Definition himpCategories : list string :=
  ["coating_condition"; "general_corrosion"; "pitting_grooving";
   "deformation"; "fracture"; "cleanliness"]%string.

(** An assessment.  [id] is the text HIMP followed by the value the
    counter had, and is represented by that value: ids are only compared
    and passed around.  The scores are an object keyed by category, in the
    order the keys were written.  The dates, the photo and the three.js
    group and label of an assessment are left out. *)
Record Assessment : Type := mkAssessment {
  id : Z;
  surfaceId : string;
  himpScores : list (string * float);
  recommendRecoat : bool;
  maxScore : float;
  averageScore : float;
  notes : string;
  position : Vector3
}.

(** [this.himpScores] is the array of assessments. *)
Record State : Type := mkState {
  active : bool;
  this_himpScores : list Assessment;
  himpIdCounter : Z;
  pendingSurfacePoint : option Vector3;
  editingHimpId : option Z
}.

Definition new : State := mkState false [] 1 None None.

Definition set_active (s : State) (value : bool) : State :=
  mkState value (this_himpScores s) (himpIdCounter s) (pendingSurfacePoint s)
    (editingHimpId s).

Definition set_himpScores (s : State) (l : list Assessment) : State :=
  mkState (active s) l (himpIdCounter s) (pendingSurfacePoint s) (editingHimpId s).

Definition set_himpIdCounter (s : State) (n : Z) : State :=
  mkState (active s) (this_himpScores s) n (pendingSurfacePoint s) (editingHimpId s).

Definition set_pendingSurfacePoint (s : State) (p : option Vector3) : State :=
  mkState (active s) (this_himpScores s) (himpIdCounter s) p (editingHimpId s).

Definition set_editingHimpId (s : State) (himpId : option Z) : State :=
  mkState (active s) (this_himpScores s) (himpIdCounter s) (pendingSurfacePoint s) himpId.

Definition cancelPendingHimp (s : State) : State :=
  set_editingHimpId (set_pendingSurfacePoint s None) None.

Definition hideHimpModal (s : State) : State := cancelPendingHimp s.

(** [updateHimpManager] writes the statistics and the list of the manager
    window.  Of the system it changes the order of [this.himpScores]: to
    write the list it sorts the array itself, the highest [maxScore]
    first.  With no assessment it returns before the sort.  The list
    element it looks up is part of the manager window, which the system
    adds to the page when it is set up. *)
Definition updateHimpManager (s : State) : State :=
  if (List.length (this_himpScores s) =? 0)%nat then s
  else
    set_himpScores s
      (Array_sort (fun a b => (maxScore b - maxScore a)%float) (this_himpScores s)).

Definition showHimpManager (s : State) : State := updateHimpManager s.

Definition activate (s : State) : State := set_active s true.

Definition deactivate (s : State) : State := cancelPendingHimp (set_active s false).

Definition handleSurfaceClick (s : State) (intersection : option Vector3) : State :=
  match intersection with
  | None => s
  | Some point => set_pendingSurfacePoint s (Some (THREE.clone point))
  end.

(** [this.himpScores.find(himp => himp.id === himpId)], with the position
    the assessment was found at. *)
Definition find_by_id (s : State) (himpId : Z) : option (nat * Assessment) :=
  list_find (fun himp => id himp = himpId) (this_himpScores s).

Definition editHimpAssessment (s : State) (himpId : Z) : State :=
  match find_by_id s himpId with
  | None => s
  | Some (_, assessment) =>
      set_pendingSurfacePoint (set_editingHimpId s (Some himpId))
        (Some (THREE.clone (position assessment)))
  end.

(** The options of the select of a category, besides the empty one the
    select starts with. *)
Inductive ScoreOption : Type :=
| score_0 | score_1 | score_2 | score_3 | score_4 | score_5 | score_6.

(** The [value] of an option. *)
Definition option_value (o : ScoreOption) : string :=
  match o with
  | score_0 => "0" | score_1 => "1" | score_2 => "2" | score_3 => "3"
  | score_4 => "4" | score_5 => "5" | score_6 => "6"
  end.

(** [parseInt(select.value)] when the select holds the option. *)
Definition parseInt_value (o : ScoreOption) : float :=
  match o with
  | score_0 => 0 | score_1 => 1 | score_2 => 2 | score_3 => 3
  | score_4 => 4 | score_5 => 5 | score_6 => 6
  end.

(** The form when Save is pressed: the surface id and the notes, trimmed,
    and for each category the option its select holds, if it holds one
    other than the empty one.  The value of a select is the value of one
    of its options. *)
Record Form : Type := mkForm {
  form_surfaceId : string;
  form_select : string -> option ScoreOption;
  form_notes : string
}.

Definition getCurrentScores (f : Form) : list (string * float) :=
  omap (fun key =>
          match form_select f key with
          | Some o => Some (key, parseInt_value o)
          | None => None
          end) himpCategories.

Definition Object_values (scores : list (string * float)) : list float :=
  map snd scores.

(** [key in scores]. *)
Definition has_key (scores : list (string * float)) (key : string) : bool :=
  existsb (String.eqb key) (map fst scores).

(** The three expressions [createHimpAssessment] and [updateHimpAssessment]
    both start with. *)
Definition recommendRecoat_of (scores : list (string * float)) : bool :=
  existsb (fun score => (2 <=? score)%float) (Object_values scores).

Definition maxScore_of (scores : list (string * float)) : float :=
  Math_max (Object_values scores).

Definition averageScore_of (scores : list (string * float)) : float :=
  (fold_left (fun a b => (a + b)%float) (Object_values scores) 0%float
   / number_of_nat (List.length scores))%float.

Definition createHimpAssessment (s : State) (surfaceId : string)
    (scores : list (string * float)) (notes : string) (position : Vector3) : State :=
  let assessment :=
    mkAssessment (himpIdCounter s) surfaceId scores (recommendRecoat_of scores)
      (maxScore_of scores) (averageScore_of scores) notes (THREE.clone position) in
  let s := set_himpIdCounter s (himpIdCounter s + 1) in
  let s := set_himpScores s (this_himpScores s ++ [assessment]) in
  updateHimpManager s.

Definition updateHimpAssessment (s : State) (himpId : Z) (surfaceId : string)
    (scores : list (string * float)) (notes : string) : State :=
  match find_by_id s himpId with
  | None => s
  | Some (index, assessment) =>
      let assessment :=
        mkAssessment (id assessment) surfaceId scores (recommendRecoat_of scores)
          (maxScore_of scores) (averageScore_of scores) notes (position assessment) in
      let s := set_himpScores s (<[index := assessment]> (this_himpScores s)) in
      let s := set_editingHimpId s None in
      updateHimpManager s
  end.

(** [himp.id !== this.editingHimpId]. *)
Definition other_than_edited (himp : Assessment) (editing : option Z) : bool :=
  match editing with
  | Some himpId => negb (id himp =? himpId)%Z
  | None => true
  end.

Definition saveHimpAssessment (s : State) (f : Form) : State :=
  match pendingSurfacePoint s with
  | None => s
  | Some position =>
      let surfaceId := form_surfaceId f in
      let notes := form_notes f in
      let scores := getCurrentScores f in
      if String.eqb surfaceId "" then s
      else
        let missingScores :=
          List.filter (fun key => negb (has_key scores key)) himpCategories in
        if (0 <? List.length missingScores)%nat then s
        else if existsb (fun himp =>
                           String.eqb (HIMPSystem.surfaceId himp) surfaceId
                           && other_than_edited himp (editingHimpId s))
                  (this_himpScores s)
        then s
        else
          let s :=
            match editingHimpId s with
            | Some himpId => updateHimpAssessment s himpId surfaceId scores notes
            | None => createHimpAssessment s surfaceId scores notes position
            end in
          hideHimpModal s
  end.

(** [confirmed] is the answer to the dialog. *)
Definition deleteHimpAssessment (s : State) (confirmed : bool) : State :=
  match editingHimpId s with
  | None => s
  | Some himpId =>
      match find_by_id s himpId with
      | None => s
      | Some (index, _) =>
          if confirmed
          then
            let s := set_himpScores s (delete index (this_himpScores s)) in
            let s := hideHimpModal s in
            updateHimpManager s
          else s
      end
  end.

Definition clearAllHimpAssessments (s : State) (confirmed : bool) : State :=
  if (List.length (this_himpScores s) =? 0)%nat then s
  else if confirmed
  then updateHimpManager (set_himpIdCounter (set_himpScores s []) 1)
  else s.

(** What [createDiscrepancyFromHimp] does to the HIMP system: the rest is
    written to the annotation system and its form. *)
Definition createDiscrepancyFromHimp (s : State) (annotation_available : bool) : State :=
  match editingHimpId s with
  | None => s
  | Some himpId =>
      match find_by_id s himpId with
      | None => s
      | Some _ => if annotation_available then hideHimpModal s else s
      end
  end.

(** The listeners of [setupEventListeners], [attachHimpModalEvents] and
    [attachHimpManagerEvents], the label of an assessment, and the calls
    of the application. *)
Inductive Event : Type :=
| canvas_click (shiftKey ctrlKey : bool) (intersection : option Vector3)
| keydown_escape
| edit (himpId : Z)
| saveBtn (f : Form)
| deleteBtn (confirmed : bool)
| closeBtn
| createDiscrepancyBtn (annotation_available : bool)
| clearAllBtn (confirmed : bool)
| call_activate
| call_deactivate
| keydown_h (ctrlKey : bool).

Definition step (s : State) (ev : Event) : State :=
  match ev with
  | canvas_click shiftKey ctrlKey intersection =>
      if active s && negb shiftKey && negb ctrlKey
      then handleSurfaceClick s intersection else s
  | keydown_escape => if active s then cancelPendingHimp s else s
  | edit himpId => editHimpAssessment s himpId
  | saveBtn f => saveHimpAssessment s f
  | deleteBtn confirmed => deleteHimpAssessment s confirmed
  | closeBtn => hideHimpModal s
  | createDiscrepancyBtn available => createDiscrepancyFromHimp s available
  | clearAllBtn confirmed => clearAllHimpAssessments s confirmed
  | call_activate => activate s
  | call_deactivate => deactivate s
  | keydown_h ctrlKey => if active s && ctrlKey then showHimpManager s else s
  end.

Definition run (evs : list Event) (s : State) : State := fold_left step evs s.

(** The colour [createHimpVisuals] and [updateHimpVisuals] give the zone
    marker and the score bar. *)
Definition createHimpVisuals_color (assessment : Assessment) : Z :=
  if (3 <=? maxScore assessment)%float then ZONE_COLORS_warning
  else if (2 <=? maxScore assessment)%float then ZONE_COLORS_caution
  else ZONE_COLORS_safe.

(** The background and the status text of the label. *)
Definition createHimpLabel_backgroundColor (assessment : Assessment) : string :=
  if recommendRecoat assessment then "#FF9800" else "#4CAF50".

Definition createHimpLabel_statusText (assessment : Assessment) : string :=
  if recommendRecoat assessment then "RECOAT" else "OK".

(** The severity [createDiscrepancyFromHimp] proposes for the annotation. *)
Definition createDiscrepancyFromHimp_severity (assessment : Assessment) : string :=
  if (5 <=? maxScore assessment)%float then "critical"
  else if (3 <=? maxScore assessment)%float then "high"
  else if (2 <=? maxScore assessment)%float then "medium"
  else "low".

End HIMPSystem.

(** ** The derived metrics, as the specification words them *)

(** The pairs of neighbours of a sequence, in order. *)
Fixpoint consecutive_pairs {A : Type} (l : list A) : list (A * A) :=
  match l with
  | a :: (b :: _) as tl => (a, b) :: consecutive_pairs tl
  | _ => []
  end.

(** A sum accumulated from 0 in sequence order, as every loop of the
    program accumulates (addition of doubles does not reassociate). *)
Definition sum_from_zero (l : list float) : float := fold_left PrimFloat.add l 0%float.

Definition segment_lengths (pts : list Vector3) : list float :=
  map (fun ab => THREE.distanceTo (fst ab) (snd ab)) (consecutive_pairs pts).

(** The closing segment joins the last point back to the first. *)
Definition closing_segment_length (pts : list Vector3) : float :=
  THREE.distanceTo (List.last pts THREE.origin) (List.hd THREE.origin pts).

(** Perimeter: the sum of the lengths of consecutive segments, plus the
    closing segment when [closing] holds. *)
Definition perimeter_spec (pts : list Vector3) (closing : bool) : float :=
  sum_from_zero
    (segment_lengths pts ++ (if closing then [closing_segment_length pts] else [])).

(** Half the magnitude of the cross product of [a - p0] and [b - p0]. *)
Definition triangle_area (p0 a b : Vector3) : float :=
  (THREE.length (THREE.crossVectors (THREE.subVectors a p0) (THREE.subVectors b p0)) / 2)%float.

(** Fan triangulation from the first point; 0 below three points. *)
Definition polygonArea_spec (pts : list Vector3) : float :=
  match pts with
  | p0 :: rest =>
      if (List.length pts <? 3)%nat then 0%float
      else sum_from_zero
             (map (fun ab => triangle_area p0 (fst ab) (snd ab)) (consecutive_pairs rest))
  | [] => 0%float
  end.

(** ** Concrete scenes used below *)

Definition pt (x y z : float) : Vector3 := THREE.mkVector3 x y z.

(** The right triangle with legs 3 and 4. *)
Definition right_triangle : list Vector3 := [pt 0 0 0; pt 3 0 0; pt 0 0 4].

(** The unit square of the (x, z) plane, at any heights. *)
Definition unit_square (y0 y1 y2 y3 : float) : list Vector3 :=
  [pt 0 y0 0; pt 1 y1 0; pt 1 y2 1; pt 0 y3 1].

Definition plain_click (p : Vector3) : MeasurementSystem.Event :=
  MeasurementSystem.click (MeasurementSystem.mkMouseEvent false false (Some p) 0).

Definition shift_click (p : Vector3) : MeasurementSystem.Event :=
  MeasurementSystem.click (MeasurementSystem.mkMouseEvent false true (Some p) 0).



Definition release : MeasurementSystem.Event :=
  MeasurementSystem.mouseup (MeasurementSystem.mkMouseEvent false false None 0).

(** The application with its controls initialised and the measure tool on. *)
Definition started : MeasurementSystem.World :=
  MeasurementSystem.run [MeasurementSystem.call_activate]
    (MeasurementSystem.initial (Some (ControlsManager.init ControlsManager.new))).

(** An open two-point measurement of length 5, drawn by two clicks. *)
Definition segment_drawn : MeasurementSystem.World :=
  MeasurementSystem.run [plain_click (pt 0 0 0); plain_click (pt 3 0 4)] started.

(** The right triangle drawn by three clicks and closed with the C key. *)
Definition triangle_closed : MeasurementSystem.World :=
  MeasurementSystem.run
    [plain_click (pt 0 0 0); plain_click (pt 3 0 0); plain_click (pt 0 0 4);
     MeasurementSystem.call_closeMeasurement]
    started.

(** The first measurement of a world. *)
Definition first_measurement (w : MeasurementSystem.World) : option Measurement :=
  MeasurementSystem.measurements (MeasurementSystem.this w) !! 0%nat.

(** A measurement as [createNewMeasurement] makes it, with given points
    and flags and no visuals yet. *)
Definition bare_measurement (pts : list Vector3) (closed locked : bool) : Measurement :=
  mkMeasurement 1 pts [] [] [] 0xff4444 closed locked 0 0 0.

(** Everything a measurement stores except its lines and labels. *)
Definition measurement_data (m : Measurement) :=
  (measurementId m, points m, spheres m, color m, isClosed m, isLocked m,
   createdAt m, totalDistance m, area m).

(** Whether the closing segment counts: the guard the drawing, the metrics
    and the annotation linker put in front of the closed flag. *)
Definition effectively_closed (m : Measurement) : bool :=
  isClosed m && (3 <=? List.length (points m))%nat.

(** The measurement drawn in a world, or an empty one if there is none. *)
Definition drawn (w : MeasurementSystem.World) : Measurement :=
  default (bare_measurement [] false false) (first_measurement w).



(** ** The point-editing sub-state and the camera input *)

(** The controls manager, and the orbit controls once created, agree that
    camera input is switched to [value]. *)
Definition camera_input_is (c : ControlsManager.t) (value : bool) : bool :=
  Bool.eqb (ControlsManager.enabled c) value
  && match ControlsManager.controls c with
     | Some o => Bool.eqb (ControlsManager.orbit_enabled o) value
     | None => true
     end.

(** The part of the world the editing sub-state machine lives in: the tool
    flag, the editing flag and the controls manager. *)
Definition editing_frame (w : MeasurementSystem.World)
    : bool * bool * option ControlsManager.t :=
  (MeasurementSystem.active (MeasurementSystem.this w),
   MeasurementSystem.isEditing (MeasurementSystem.this w),
   MeasurementSystem.inspector3D_controls w).

(** Editing happens only while the tool is active, and camera input is
    off exactly while editing. *)
Definition editing_invariant (f : bool * bool * option ControlsManager.t) : Prop :=
  let '(active, editing, controls) := f in
  (editing = true -> active = true)
  /\ exists c, controls = Some c /\ camera_input_is c (negb editing) = true.

(** The controls manager the application registers at start-up, before or
    after its [init] has created the orbit controls. *)
Definition registered_controls (initialised : bool) : ControlsManager.t :=
  if initialised then ControlsManager.init ControlsManager.new else ControlsManager.new.

(** ** Scenes for the linker and the projector *)

(** The inside test of [findEnclosingMeasurement] for one measurement. *)
Definition inside_match (point : Vector3) (m : Measurement) : bool :=
  isClosed m && (3 <=? List.length (points m))%nat
  && Utils.isPointInPolygon point (points m).

(** An open segment that passes a quarter unit from (0.5, 0, 0.5), and the
    closed unit square, which contains that point. *)
Definition near_segment : Measurement :=
  bare_measurement [pt 0 0 0.25; pt 1 0 0.25] false false.

Definition closed_square : Measurement :=
  bare_measurement (unit_square 0 0 0 0) true false.

(** A second closed square, [-1, 2] x [-1, 2], around the first. *)
Definition closed_big_square : Measurement :=
  bare_measurement [pt (-1) 0 (-1); pt 2 0 (-1); pt 2 0 2; pt (-1) 0 2] true false.

(** A camera at the origin whose view and projection are the identity,
    and an 800 x 600 window. *)
Definition identity_camera : THREE.Camera := THREE.mkCamera (pt 0 0 0) (fun v => v).

Definition window_800_600 : Window := mkWindow 800 600.

(** The visibility flag in the words of the specification. *)
Definition visible_spec (camera : THREE.Camera) (point : Vector3) : bool :=
  let depth := THREE.z (THREE.project point camera) in
  let distanceToCamera := THREE.distanceTo (THREE.position camera) point in
  (depth <? 1)%float && (distanceToCamera <? 100)%float.

(** ** The ray-casting test, edge by edge *)

(** The test of one edge, from the previous vertex [pj] to the vertex [pi]. *)
Definition edge_crossed (point pi pj : Vector3) : bool :=
  let x := THREE.x point in
  let z := THREE.z point in
  xorb (z <? THREE.z pi)%float (z <? THREE.z pj)%float
  && (x <? (THREE.x pj - THREE.x pi) * (z - THREE.z pi) / (THREE.z pj - THREE.z pi)
           + THREE.x pi)%float.

(** Every vertex paired with the one before it, the first with the last. *)
Definition cyclic_edges (poly : list Vector3) : list (Vector3 * Vector3) :=
  combine poly (List.last poly THREE.origin :: poly).

(** Whether an odd number of the flags is set. *)
Definition parity (flags : list bool) : bool := fold_left xorb flags false.

(** ** The ray-casting parity test, in the words of the specification

    The test is made on the (x, z) projection of the point and of the
    polygon.  A ray is cast from the projected point towards growing x.
    It crosses an edge when the two ends of the edge lie on different
    sides of the line of the ray, one with a z above the point's and the
    other not, and the edge meets that line at an x greater than the
    point's.  The edges join every vertex to the one before it and the
    first vertex to the last.  The point is inside a polygon of three or
    more vertices when the ray crosses an odd number of edges, and inside
    no polygon of fewer. *)
Definition project_xz (p : Vector3) : float * float := (THREE.x p, THREE.z p).

Definition ray_crosses_edge (q a b : float * float) : bool :=
  let above_a := (snd q <? snd a)%float in
  let above_b := (snd q <? snd b)%float in
  let meets_at := ((fst b - fst a) * (snd q - snd a) / (snd b - snd a) + fst a)%float in
  negb (Bool.eqb above_a above_b) && (fst q <? meets_at)%float.

Definition polygon_edges (poly : list (float * float)) :
    list ((float * float) * (float * float)) :=
  combine poly (List.last poly (0%float, 0%float) :: poly).

Definition crossings (q : float * float) (poly : list (float * float)) : nat :=
  List.length
    (List.filter (fun e => ray_crosses_edge q (fst e) (snd e)) (polygon_edges poly)).

Definition ray_casting_parity_spec (q : float * float) (poly : list (float * float)) : bool :=
  (3 <=? List.length poly)%nat && Nat.odd (crossings q poly).

(** ** What a link returned by the linker says *)

(** A link is sound for a list of measurements when it names one of them
    and, for an inside link, that one is the first inside match and the
    distance is 0; for a near-line link, no measurement is an inside match,
    the distance is the line distance of the named measurement (of two or
    more points) and lies below the threshold 0.5. *)
Definition link_sound (d : Vector3 -> Vector3 -> Vector3 -> float) (point : Vector3)
    (ms : list Measurement) (link : AnnotationSystem.Link) : Prop :=
  exists m,
    ms !! AnnotationSystem.measurement link = Some m
    /\ match AnnotationSystem.relationship link with
       | AnnotationSystem.inside =>
           AnnotationSystem.distance link = 0%float
           /\ inside_match point m = true
           /\ forall j m', (j < AnnotationSystem.measurement link)%nat ->
                ms !! j = Some m' -> inside_match point m' = false
       | AnnotationSystem.near_line =>
           AnnotationSystem.getDistanceToMeasurementLines_with (Some d) point m
           = Normal (AnnotationSystem.distance link)
           /\ (AnnotationSystem.distance link <? 0.5)%float = true
           /\ (2 <= List.length (points m))%nat
           /\ Forall (fun m' => inside_match point m' = false) ms
       end.

(** Modelled from the spec: [distancePointToSegment(point, segStart, segEnd)],
    the helper [Utils.distancePointToLine] that the program calls and does
    not define: the distance from the point to its clamped projection onto
    the segment. *)
Definition distancePointToSegment (point a b : Vector3) : float :=
  let ab := THREE.subVectors b a in
  let ap := THREE.subVectors point a in
  let dot (u v : Vector3) :=
    (THREE.x u * THREE.x v + THREE.y u * THREE.y v + THREE.z u * THREE.z v)%float in
  let t :=
    if (dot ab ab =? 0)%float then 0%float
    else
      let s := (dot ap ab / dot ab ab)%float in
      if (s <? 0)%float then 0%float else if (1 <? s)%float then 1%float else s in
  THREE.distanceTo point (THREE.addVectors a (THREE.multiplyScalar ab t)).

(** ** The visuals and metrics a measurement should carry *)

(** One line per pair of neighbouring points, then the closing line. *)
Definition expected_lines (n : nat) (closing : bool) : list Line :=
  map (fun i => mkLine (i - 1) i false) (seq 1 (n - 1))
  ++ (if closing then [mkLine (n - 1) 0 true] else []).

Definition distance_label_of (pts : list Vector3) (i : nat) : Label :=
  DistanceLabel (Utils.calculateMidpoint (pts !!! (i - 1)%nat) (pts !!! i))
    (Utils.calculateDistance (pts !!! (i - 1)%nat) (pts !!! i)) (i - 1) i.

(** One distance label per open segment, at its midpoint, then the area
    label at the vertex mean when the polygon is closed and its area is
    not below or at 0. *)
Definition expected_labels (pts : list Vector3) (closing : bool) (area : float)
    : list Label :=
  map (distance_label_of pts) (seq 1 (List.length pts - 1))
  ++ (if closing && negb (area <=? 0)%float
      then [AreaLabel (Utils.calculatePolygonCenter pts) area] else []).

Definition visuals_ok (m : Measurement) : Prop :=
  lines m = expected_lines (List.length (points m)) (effectively_closed m)
  /\ labels m = expected_labels (points m) (effectively_closed m) (area m).

Definition metrics_ok (m : Measurement) : Prop :=
  ((2 <= List.length (points m))%nat ->
   totalDistance m = perimeter_spec (points m) (effectively_closed m))
  /\ (effectively_closed m = true -> area m = Utils.calculatePolygonArea (points m)).

(** What holds of every measurement between two events. *)
Definition measurement_ok (m : Measurement) : Prop :=
  List.length (spheres m) = List.length (points m)
  /\ isLocked m = false
  /\ metrics_ok m
  /\ visuals_ok m.

(** What holds of the measurement system between two events: the current
    index is -1 or a position of the array; the ids are positive, grow
    along the array and stay below the counter; every measurement is in order; outside
    editing both editing indices are -1. *)
Definition store_ok (s : MeasurementSystem.State) : Prop :=
  (-1 <= MeasurementSystem.currentMeasurementIndex s
   < Z.of_nat (List.length (MeasurementSystem.measurements s)))%Z
  /\ (0 < MeasurementSystem.measurementIdCounter s)%Z
  /\ StronglySorted Z.lt (map measurementId (MeasurementSystem.measurements s))
  /\ Forall (fun m => (0 < measurementId m < MeasurementSystem.measurementIdCounter s)%Z)
       (MeasurementSystem.measurements s)
  /\ Forall measurement_ok (MeasurementSystem.measurements s)
  /\ (MeasurementSystem.isEditing s = false ->
      MeasurementSystem.editingPointIndex s = (-1)%Z
      /\ MeasurementSystem.editingMeasurementIndex s = (-1)%Z).

(** The events that draw and close the right triangle, from start-up. *)
Definition triangle_events : list MeasurementSystem.Event :=
  [MeasurementSystem.call_activate;
   plain_click (pt 0 0 0); plain_click (pt 3 0 0); plain_click (pt 0 0 4);
   MeasurementSystem.call_closeMeasurement].

(** Two measurements of one point each, the second opened with the N key. *)
Definition two_measurements_events : list MeasurementSystem.Event :=
  [MeasurementSystem.call_activate; plain_click (pt 0 0 0);
   MeasurementSystem.call_createNewMeasurement 0; plain_click (pt 1 0 0)].

(** What [findClosestPoint] may return: nothing, with index -1 and the
    distance still at [maxDistance]; or a measurement, the index of one of
    its points, and the distance from the position to that point. *)
Definition closest_wf (s : MeasurementSystem.State) (position : Vector3)
    (maxDistance : float) (r : MeasurementSystem.ClosestPoint) : Prop :=
  (MeasurementSystem.closest_measurement r = None
   /\ MeasurementSystem.closest_pointIndex r = (-1)%Z
   /\ MeasurementSystem.closest_distance r = maxDistance)
  \/ exists mi m pj p,
       MeasurementSystem.closest_measurement r = Some mi
       /\ MeasurementSystem.measurements s !! mi = Some m
       /\ MeasurementSystem.closest_pointIndex r = Z.of_nat pj
       /\ points m !! pj = Some p
       /\ MeasurementSystem.closest_distance r = THREE.distanceTo position p.

(** ** What [dispose] leaves behind *)

(** The elements at positions 1, 3, 5, ... of an array. *)
Fixpoint odd_positions {A : Type} (l : list A) : list A :=
  match l with
  | _ :: b :: l' => b :: odd_positions l'
  | _ => []
  end.

(** ** The UI manager: the toolbar buttons *)

Module UIManager.

(** Whether a button of the page carries the class 'selected'. *)
Record t : Type := mk { selected : string -> bool }.

(** The page as it is loaded: no button is selected. *)
Definition new : t := mk (fun _ => false).

(** [setButtonActive], for a button the page has. *)
Definition setButtonActive (ui : t) (buttonId : string) (active : bool) : t :=
  mk (fun button => if String.eqb button buttonId then active else selected ui button).

End UIManager.

(** ** js/modelLoader.js: the application and its tool modes *)

Module Inspector3D.

(** [currentMode] is one of five string literals; nothing else is ever
    assigned to it or compared with it. *)
Inductive Mode : Type := view | measure | annotate | reference | himp.

Definition Mode_eqb (a b : Mode) : bool :=
  match a, b with
  | view, view | measure, measure | annotate, annotate
  | reference, reference | himp, himp => true
  | _, _ => false
  end.

(** The application as far as its tools go.  The measurement system is the
    one above, with the controls manager it reaches through
    [window.inspector3D]; the annotation, reference and HIMP systems appear
    with their [active] flag, which their [activate] and [deactivate]
    write: beyond the flag these touch their own readout, modal and pending
    item only. *)
Record App : Type := mkApp {
  currentMode : Mode;
  measurement : MeasurementSystem.World;
  annotation_active : bool;
  reference_active : bool;
  himp_active : bool;
  ui : UIManager.t
}.

Definition set_measurement (app : App) (w : MeasurementSystem.World) : App :=
  mkApp (currentMode app) w (annotation_active app) (reference_active app)
    (himp_active app) (ui app).

(** The four calls of [setButtonActive] when a tool is switched on. *)
Definition select_only (ui : UIManager.t) (on off1 off2 off3 : string) : UIManager.t :=
  let ui := UIManager.setButtonActive ui on true in
  let ui := UIManager.setButtonActive ui off1 false in
  let ui := UIManager.setButtonActive ui off2 false in
  UIManager.setButtonActive ui off3 false.

Definition toggleMeasurementMode (app : App) : App :=
  if Mode_eqb (currentMode app) measure then
    mkApp view (MeasurementSystem.deactivate (measurement app))
      (annotation_active app) (reference_active app) (himp_active app)
      (UIManager.setButtonActive (ui app) "measureBtn" false)
  else
    mkApp measure (MeasurementSystem.activate (measurement app)) false false false
      (select_only (ui app) "measureBtn" "annotateBtn" "referenceBtn" "himpBtn").

Definition toggleAnnotationMode (app : App) : App :=
  if Mode_eqb (currentMode app) annotate then
    mkApp view (measurement app) false (reference_active app) (himp_active app)
      (UIManager.setButtonActive (ui app) "annotateBtn" false)
  else
    mkApp annotate (MeasurementSystem.deactivate (measurement app)) true false false
      (select_only (ui app) "annotateBtn" "measureBtn" "referenceBtn" "himpBtn").

Definition toggleReferenceMode (app : App) : App :=
  if Mode_eqb (currentMode app) reference then
    mkApp view (measurement app) (annotation_active app) false (himp_active app)
      (UIManager.setButtonActive (ui app) "referenceBtn" false)
  else
    mkApp reference (MeasurementSystem.deactivate (measurement app)) false true false
      (select_only (ui app) "referenceBtn" "measureBtn" "annotateBtn" "himpBtn").

Definition toggleHimpMode (app : App) : App :=
  if Mode_eqb (currentMode app) himp then
    mkApp view (measurement app) (annotation_active app) (reference_active app) false
      (UIManager.setButtonActive (ui app) "himpBtn" false)
  else
    mkApp himp (MeasurementSystem.deactivate (measurement app)) false false true
      (select_only (ui app) "himpBtn" "measureBtn" "annotateBtn" "referenceBtn").

(** In annotate mode Escape clears the annotation in progress, which is
    the annotation system's own. *)
Definition handleEscape (app : App) : App :=
  if Mode_eqb (currentMode app) measure
  then set_measurement app (MeasurementSystem.clearCurrent (measurement app))
  else app.

(** A key press: the key, the modifiers, whether the target is an INPUT or
    a TEXTAREA, and the clock [createNewMeasurement] reads. *)
Record KeyboardEvent : Type := mkKeyboardEvent {
  key : string;
  key_ctrlKey : bool;
  key_metaKey : bool;
  target_is_text_field : bool;
  key_now : Z
}.

Definition ascii_toLowerCase (c : Ascii.ascii) : Ascii.ascii :=
  let n := Ascii.nat_of_ascii c in
  if Nat.leb 65 n && Nat.leb n 90 then Ascii.ascii_of_nat (n + 32) else c.

(** [toLowerCase] on the letters A to Z.  No other character lowers to a
    letter of one of the case labels below. *)
Fixpoint toLowerCase (s : string) : string :=
  match s with
  | EmptyString => EmptyString
  | String c s' => String (ascii_toLowerCase c) (toLowerCase s')
  end.

(** [/^[1-9]$/.test(key)], with [parseInt(key)] when it holds. *)
Definition digit_1_9 (s : string) : option Z :=
  match s with
  | String c EmptyString =>
      let n := Ascii.nat_of_ascii c in
      if Nat.leb 49 n && Nat.leb n 57 then Some (Z.of_nat n - 48)%Z else None
  | _ => None
  end.

Definition in_measure_mode (app : App)
    (call : MeasurementSystem.World -> MeasurementSystem.World) : App :=
  if Mode_eqb (currentMode app) measure
  then set_measurement app (call (measurement app))
  else app.

(** The [keydown] listener of [setupKeyboardShortcuts].  Fullscreen, view
    reset, the reference manager, wireframe and help act on the page, the
    camera position and the model only. *)
Definition handleKeydown (app : App) (e : KeyboardEvent) : App :=
  if target_is_text_field e then app
  else
    let k := toLowerCase (key e) in
    if String.eqb k "f" then app
    else if String.eqb k "r" then app
    else if String.eqb k "w" then app
    else if String.eqb k "l" then in_measure_mode app MeasurementSystem.toggleLabels
    else if String.eqb k "c" then in_measure_mode app MeasurementSystem.closeMeasurement
    else if String.eqb k "n" then
      in_measure_mode app
        (fun w => fst (MeasurementSystem.createNewMeasurement w (key_now e)))
    else if String.eqb k "escape" then handleEscape app
    else if String.eqb k "h" || String.eqb k "?" then app
    else
      match digit_1_9 (key e) with
      | Some n =>
          in_measure_mode app (fun w => MeasurementSystem.switchToMeasurement w (n - 1))
      | None => app
      end.

(** What the user does: a click on one of the four tool buttons, a key
    press, or a pointer event on the canvas, which reaches the listeners
    of the measurement system. *)
Inductive Event : Type :=
| measureBtn
| annotateBtn
| referenceBtn
| himpBtn
| keydown (e : KeyboardEvent)
| canvas_click (e : MeasurementSystem.MouseEvent)
| canvas_mousedown (e : MeasurementSystem.MouseEvent)
| canvas_mousemove (e : MeasurementSystem.MouseEvent)
| canvas_mouseup (e : MeasurementSystem.MouseEvent).

Definition on_canvas (app : App) (ev : MeasurementSystem.Event) : App :=
  set_measurement app (MeasurementSystem.step (measurement app) ev).

Definition step (app : App) (ev : Event) : App :=
  match ev with
  | measureBtn => toggleMeasurementMode app
  | annotateBtn => toggleAnnotationMode app
  | referenceBtn => toggleReferenceMode app
  | himpBtn => toggleHimpMode app
  | keydown e => handleKeydown app e
  | canvas_click e => on_canvas app (MeasurementSystem.click e)
  | canvas_mousedown e => on_canvas app (MeasurementSystem.mousedown e)
  | canvas_mousemove e => on_canvas app (MeasurementSystem.mousemove e)
  | canvas_mouseup e => on_canvas app (MeasurementSystem.mouseup e)
  end.

Definition run (evs : list Event) (app : App) : App := fold_left step evs app.

(** After [init]: view mode, every tool inactive, no button selected. *)
Definition initial (c : option ControlsManager.t) : App :=
  mkApp view (MeasurementSystem.initial c) false false false UIManager.new.

End Inspector3D.

(** A drag interrupted by the annotate button: two points are drawn in
    measure mode, a Ctrl-press picks one up, then the tool is switched. *)
Definition interrupted_drag : list Inspector3D.Event :=
  [Inspector3D.measureBtn;
   Inspector3D.canvas_click (MeasurementSystem.mkMouseEvent false false (Some (pt 0 0 0)) 0);
   Inspector3D.canvas_click (MeasurementSystem.mkMouseEvent false false (Some (pt 3 0 4)) 0);
   Inspector3D.canvas_mousedown
     (MeasurementSystem.mkMouseEvent true false (Some (pt 3 0 4)) 0);
   Inspector3D.annotateBtn].

(** The tool flags say what [currentMode] says. *)
Definition tools_follow_mode (app : Inspector3D.App) : Prop :=
  MeasurementSystem.active (MeasurementSystem.this (Inspector3D.measurement app))
  = Inspector3D.Mode_eqb (Inspector3D.currentMode app) Inspector3D.measure
  /\ Inspector3D.annotation_active app
     = Inspector3D.Mode_eqb (Inspector3D.currentMode app) Inspector3D.annotate
  /\ Inspector3D.reference_active app
     = Inspector3D.Mode_eqb (Inspector3D.currentMode app) Inspector3D.reference
  /\ Inspector3D.himp_active app
     = Inspector3D.Mode_eqb (Inspector3D.currentMode app) Inspector3D.himp.

(** The toolbar shows what [currentMode] says. *)
Definition buttons_follow_mode (app : Inspector3D.App) : Prop :=
  UIManager.selected (Inspector3D.ui app) "measureBtn"
  = Inspector3D.Mode_eqb (Inspector3D.currentMode app) Inspector3D.measure
  /\ UIManager.selected (Inspector3D.ui app) "annotateBtn"
     = Inspector3D.Mode_eqb (Inspector3D.currentMode app) Inspector3D.annotate
  /\ UIManager.selected (Inspector3D.ui app) "referenceBtn"
     = Inspector3D.Mode_eqb (Inspector3D.currentMode app) Inspector3D.reference
  /\ UIManager.selected (Inspector3D.ui app) "himpBtn"
     = Inspector3D.Mode_eqb (Inspector3D.currentMode app) Inspector3D.himp.

(** The listeners and calls of the measurement system other than
    [activate] and [deactivate]. *)
Definition keeps_tool_flag (ev : MeasurementSystem.Event) : bool :=
  match ev with
  | MeasurementSystem.call_activate | MeasurementSystem.call_deactivate => false
  | _ => true
  end.

(** ** HIMP assessments *)

(** A form with a surface id and six scores, one per category. *)
Definition himp_form (surfaceId : string) (a b c d e f : HIMPSystem.ScoreOption) :
    HIMPSystem.Form :=
  HIMPSystem.mkForm surfaceId
    (fun key =>
       if String.eqb key "coating_condition" then Some a
       else if String.eqb key "general_corrosion" then Some b
       else if String.eqb key "pitting_grooving" then Some c
       else if String.eqb key "deformation" then Some d
       else if String.eqb key "fracture" then Some e
       else if String.eqb key "cleanliness" then Some f
       else None)
    "".

(** One assessment made: the tool is activated, a surface point is
    clicked, the form is filled in and saved. *)
Definition one_assessment_events : list HIMPSystem.Event :=
  [HIMPSystem.call_activate;
   HIMPSystem.canvas_click false false (Some (pt 1 2 3));
   HIMPSystem.saveBtn
     (himp_form "frame 12" HIMPSystem.score_0 HIMPSystem.score_1 HIMPSystem.score_3
        HIMPSystem.score_0 HIMPSystem.score_2 HIMPSystem.score_1)].

(** A second assessment with a higher score, and the manager opened. *)
Definition two_assessments_events : list HIMPSystem.Event :=
  [HIMPSystem.call_activate;
   HIMPSystem.canvas_click false false (Some (pt 1 2 3));
   HIMPSystem.saveBtn
     (himp_form "frame 12" HIMPSystem.score_0 HIMPSystem.score_1 HIMPSystem.score_1
        HIMPSystem.score_0 HIMPSystem.score_0 HIMPSystem.score_1);
   HIMPSystem.canvas_click false false (Some (pt 4 5 6));
   HIMPSystem.saveBtn
     (himp_form "frame 13" HIMPSystem.score_0 HIMPSystem.score_2 HIMPSystem.score_1
        HIMPSystem.score_0 HIMPSystem.score_0 HIMPSystem.score_1);
   HIMPSystem.keydown_h true].

(** What holds of every stored assessment: it has a surface id, a score
    for each category, each the number of an option, and the derived
    fields of its scores. *)
Definition assessment_ok (a : HIMPSystem.Assessment) : Prop :=
  HIMPSystem.surfaceId a <> ""%string
  /\ map fst (HIMPSystem.himpScores a) = HIMPSystem.himpCategories
  /\ Forall (fun score => exists o, score = HIMPSystem.parseInt_value o)
       (HIMPSystem.Object_values (HIMPSystem.himpScores a))
  /\ HIMPSystem.recommendRecoat a = HIMPSystem.recommendRecoat_of (HIMPSystem.himpScores a)
  /\ HIMPSystem.maxScore a = HIMPSystem.maxScore_of (HIMPSystem.himpScores a)
  /\ HIMPSystem.averageScore a = HIMPSystem.averageScore_of (HIMPSystem.himpScores a).

(** What holds of the HIMP system between two events. *)
Definition himp_store_ok (s : HIMPSystem.State) : Prop :=
  (0 < HIMPSystem.himpIdCounter s)%Z
  /\ NoDup (map HIMPSystem.id (HIMPSystem.this_himpScores s))
  /\ NoDup (map HIMPSystem.surfaceId (HIMPSystem.this_himpScores s))
  /\ Forall (fun a => (0 < HIMPSystem.id a < HIMPSystem.himpIdCounter s)%Z)
       (HIMPSystem.this_himpScores s)
  /\ Forall assessment_ok (HIMPSystem.this_himpScores s).

(** The assessment of [one_assessment_events]. *)
Definition one_assessment : HIMPSystem.Assessment :=
  default (HIMPSystem.mkAssessment 0 "" [] false 0 0 "" THREE.origin)
    (head (HIMPSystem.this_himpScores
             (HIMPSystem.run one_assessment_events HIMPSystem.new))).

(** ** Annotations and the report *)

(** The severities an annotation can get from the form: the values of the
    four options, and the fallback of [collectModalData]. *)
Definition form_severities : list string :=
  ["low"; "medium"; "high"; "critical"; "Low"]%string.

(** The risk levels of the report, from the lowest. *)
Definition risk_rank (level : string) : nat :=
  if String.eqb level "Very Low" then 0
  else if String.eqb level "Low" then 1
  else if String.eqb level "Medium" then 2
  else if String.eqb level "High" then 3
  else 4.

(** A discrepancy of critical severity is recorded: the tool is
    activated, a surface point is clicked, the form is filled in with the
    severity option 'critical' and saved. *)
Definition critical_discrepancy_events : list AnnotationSystem.Event :=
  [AnnotationSystem.call_activate;
   AnnotationSystem.canvas_click None (Some (pt 1 2 3)) (Some []);
   AnnotationSystem.saveBtn
     (AnnotationSystem.mkForm "D001" "hull plate" "crack"
        (Some AnnotationSystem.option_critical) "through crack" true true)].

(** Every stored annotation has a severity of the form. *)
Definition severities_ok (s : AnnotationSystem.State) : Prop :=
  Forall (fun a => In (AnnotationSystem.severity a) form_severities)
    (AnnotationSystem.annotations s).

(** * Properties *)

(** ** Loops over neighbouring array cells *)

Lemma fold_left_map_index {S A B : Type} (f : S -> B -> S) (g : A -> B)
    (l : list A) (s : S) :
  fold_left f (map g l) s = fold_left (fun acc a => f acc (g a)) l s.
Proof.
  revert s. induction l as [|a l IH]; intros s; simpl; [reflexivity | apply IH].
Qed.

Lemma fold_left_pointwise {S A : Type} (f g : S -> A -> S) (l : list A) (s : S) :
  (forall acc a, f acc a = g acc a) -> fold_left f l s = fold_left g l s.
Proof.
  intros Hfg. revert s.
  induction l as [|a l IH]; intros s; simpl; [reflexivity|].
  rewrite Hfg. apply IH.
Qed.

(** A loop that reads the cells [i] and [i+1] for [i] from 0 visits the
    neighbouring pairs of the array in order. *)
Lemma fold_neighbours {S : Type} (g : S -> Vector3 -> Vector3 -> S)
    (l : list Vector3) (s : S) :
  fold_left (fun acc i => g acc (l !!! i) (l !!! (Datatypes.S i)))
            (seq 0 (List.length l - 1)) s
  = fold_left (fun acc ab => g acc (fst ab) (snd ab)) (consecutive_pairs l) s.
Proof.
  revert s. induction l as [|a l IH]; intros s; [reflexivity|].
  destruct l as [|b tl]; [reflexivity|].
  replace (List.length (a :: b :: tl) - 1)%nat
    with (Datatypes.S (List.length (b :: tl) - 1)) by (cbn [List.length]; lia).
  rewrite <- cons_seq, <- seq_shift.
  cbn [fold_left consecutive_pairs fst snd].
  rewrite fold_left_map_index, <- IH.
  apply fold_left_pointwise. intros acc i. reflexivity.
Qed.

Lemma sum_from_zero_map {A : Type} (f : A -> float) (l : list A) (s : float) :
  fold_left PrimFloat.add (map f l) s = fold_left (fun acc a => (acc + f a)%float) l s.
Proof. apply fold_left_map_index. Qed.

Lemma lookup_total_last (l : list Vector3) :
  l !!! (List.length l - 1)%nat = List.last l THREE.origin.
Proof.
  induction l as [|a l IH]; [reflexivity|].
  destruct l as [|b tl]; [reflexivity|].
  replace (List.length (a :: b :: tl) - 1)%nat
    with (Datatypes.S (List.length (b :: tl) - 1)) by (cbn [List.length]; lia).
  change (List.last (a :: b :: tl) THREE.origin) with (List.last (b :: tl) THREE.origin).
  rewrite <- IH. reflexivity.
Qed.

Lemma lookup_total_head (l : list Vector3) : l !!! 0%nat = List.hd THREE.origin l.
Proof. destruct l; reflexivity. Qed.

(** ** The geometry kernel *)

(** [calculatePolygonArea] is the fan triangulation of the specification. *)
Lemma calculatePolygonArea_fan (pts : list Vector3) :
  Utils.calculatePolygonArea pts = polygonArea_spec pts.
Proof.
  unfold Utils.calculatePolygonArea, polygonArea_spec.
  destruct pts as [|p0 rest]; [reflexivity|].
  destruct (List.length (p0 :: rest) <? 3)%nat; [reflexivity|].
  unfold for_loop, sum_from_zero.
  cbn [List.length].
  replace (Datatypes.S (List.length rest) - 1 - 1)%nat with (List.length rest - 1)%nat by lia.
  rewrite <- seq_shift, fold_left_map_index, sum_from_zero_map.
  rewrite <- (fold_neighbours (fun acc a b => (acc + triangle_area p0 a b)%float)).
  apply fold_left_pointwise. intros acc i.
  replace (Datatypes.S i + 1)%nat with (Datatypes.S (Datatypes.S i)) by lia.
  reflexivity.
Qed.

Lemma calculatePolygonArea_short (pts : list Vector3) :
  (List.length pts < 3)%nat -> Utils.calculatePolygonArea pts = 0%float.
Proof.
  intros H. unfold Utils.calculatePolygonArea.
  destruct (Nat.ltb_spec (List.length pts) 3) as [_|Hge]; [reflexivity | lia].
Qed.

Lemma isPointInPolygon_short (p : Vector3) (poly : list Vector3) :
  (List.length poly < 3)%nat -> Utils.isPointInPolygon p poly = false.
Proof.
  intros H. unfold Utils.isPointInPolygon.
  destruct (Nat.ltb_spec (List.length poly) 3) as [_|Hge]; [reflexivity | lia].
Qed.

(** The test reads the x and z of the query point and nothing else. *)
Lemma isPointInPolygon_xz (p q : Vector3) (poly : list Vector3) :
  THREE.x p = THREE.x q -> THREE.z p = THREE.z q ->
  Utils.isPointInPolygon p poly = Utils.isPointInPolygon q poly.
Proof.
  intros Hx Hz. unfold Utils.isPointInPolygon. rewrite Hx, Hz. reflexivity.
Qed.

(** ** Derived metrics of one measurement *)

Lemma for_loop_invariant {S : Type} (P : S -> Prop) (lo hi : nat)
    (body : nat -> S -> S) (s : S) :
  (forall i s', P s' -> P (body i s')) -> P s -> P (for_loop lo hi body s).
Proof.
  intros Hbody. unfold for_loop. generalize (seq lo (hi - lo)) as l. intros l.
  revert s. induction l as [|i l IH]; intros s Hs; simpl; [exact Hs|].
  apply IH, Hbody, Hs.
Qed.

Lemma createMeasurementLine_data (m : Measurement) (a b : nat) (closing : bool) :
  measurement_data (MeasurementSystem.createMeasurementLine m a b closing)
  = measurement_data m.
Proof.
  unfold MeasurementSystem.createMeasurementLine. destruct closing; reflexivity.
Qed.

Lemma draw_lines_data (m : Measurement) (n : nat) :
  measurement_data
    (for_loop 1 n (fun i m' => MeasurementSystem.createMeasurementLine m' (i - 1) i false) m)
  = measurement_data m.
Proof.
  apply (for_loop_invariant (fun m' => measurement_data m' = measurement_data m));
    [|reflexivity].
  intros i m' H. rewrite createMeasurementLine_data. exact H.
Qed.

Lemma createAreaLabel_data (m : Measurement) :
  measurement_data (MeasurementSystem.createAreaLabel m) = measurement_data m.
Proof.
  unfold MeasurementSystem.createAreaLabel. destruct (area m <=? 0)%float; reflexivity.
Qed.

(** [updateMeasurementDistance] stores the perimeter of the current points. *)
Lemma updateMeasurementDistance_perimeter (m : Measurement) :
  totalDistance (MeasurementSystem.updateMeasurementDistance m)
  = perimeter_spec (points m) (effectively_closed m).
Proof.
  unfold MeasurementSystem.updateMeasurementDistance, perimeter_spec, effectively_closed.
  cbn [totalDistance set_totalDistance].
  assert (Hopen :
    for_loop 1 (List.length (points m))
      (fun i t =>
         (t + Utils.calculateDistance (points m !!! (i - 1)%nat) (points m !!! i))%float)
      0%float
    = sum_from_zero (segment_lengths (points m))).
  { unfold for_loop, sum_from_zero, segment_lengths.
    rewrite <- seq_shift, fold_left_map_index, sum_from_zero_map.
    rewrite <- (fold_neighbours (fun acc a b => (acc + THREE.distanceTo a b)%float)).
    apply fold_left_pointwise. intros acc i.
    replace (Datatypes.S i - 1)%nat with i by lia. reflexivity. }
  rewrite Hopen.
  destruct (isClosed m && (3 <=? List.length (points m))%nat).
  - unfold sum_from_zero. rewrite fold_left_app. cbn [fold_left].
    unfold closing_segment_length, Utils.calculateDistance.
    rewrite lookup_total_last, lookup_total_head. reflexivity.
  - rewrite app_nil_r. reflexivity.
Qed.

Lemma measurement_data_fields (m' m : Measurement) :
  measurement_data m' = measurement_data m ->
  measurementId m' = measurementId m /\ points m' = points m
  /\ spheres m' = spheres m /\ color m' = color m
  /\ isClosed m' = isClosed m /\ isLocked m' = isLocked m
  /\ createdAt m' = createdAt m /\ totalDistance m' = totalDistance m
  /\ area m' = area m.
Proof. unfold measurement_data. intros H. inversion H. repeat split; assumption. Qed.

Ltac data_fields H :=
  apply measurement_data_fields in H;
  destruct H as (? & ? & ? & ? & ? & ? & ? & ? & ?).

Lemma updateMeasurementDistance_data (m : Measurement) :
  measurement_data (MeasurementSystem.updateMeasurementDistance m)
  = (measurementId m, points m, spheres m, color m, isClosed m, isLocked m,
     createdAt m, perimeter_spec (points m) (effectively_closed m), area m).
Proof.
  unfold measurement_data. rewrite updateMeasurementDistance_perimeter. reflexivity.
Qed.

(** What [updateMeasurementVisuals] leaves in the measurement, lines and
    labels apart.  Below two points it returns before the metrics are
    reached; from two points on the perimeter is recomputed, and the area
    too when the closing guard holds. *)
Lemma updateMeasurementVisuals_data (m : Measurement) :
  measurement_data (MeasurementSystem.updateMeasurementVisuals m)
  = if (List.length (points m) <? 2)%nat then measurement_data m
    else (measurementId m, points m, spheres m, color m, isClosed m, isLocked m,
          createdAt m, perimeter_spec (points m) (effectively_closed m),
          if effectively_closed m then Utils.calculatePolygonArea (points m)
          else area m).
Proof.
  unfold MeasurementSystem.updateMeasurementVisuals.
  remember (MeasurementSystem.clearMeasurementLabels
              (MeasurementSystem.clearMeasurementLines m)) as m0 eqn:E0.
  assert (D0 : measurement_data m0 = measurement_data m) by (subst m0; reflexivity).
  clear E0. data_fields D0.
  replace (points m0) with (points m) by congruence.
  destruct (List.length (points m) <? 2)%nat.
  { unfold measurement_data. congruence. }
  remember (for_loop 1 (List.length (points m))
              (fun i m' => MeasurementSystem.createMeasurementLine m' (i - 1) i false) m0)
    as m1 eqn:E1.
  assert (D1 : measurement_data m1 = measurement_data m0)
    by (subst m1; apply draw_lines_data).
  clear E1. data_fields D1.
  replace (isClosed m1) with (isClosed m) by congruence.
  unfold effectively_closed.
  destruct (isClosed m && (3 <=? List.length (points m))%nat) eqn:Eclosed.
  - remember (MeasurementSystem.createMeasurementLine m1
                (List.length (points m) - 1) 0 true) as m2 eqn:E2.
    assert (D2 : measurement_data m2 = measurement_data m1)
      by (subst m2; apply createMeasurementLine_data).
    clear E2. data_fields D2.
    remember (MeasurementSystem.createAreaLabel
                (set_area m2 (Utils.calculatePolygonArea (points m2)))) as m3 eqn:E3.
    assert (D3 : measurement_data m3
                 = measurement_data (set_area m2 (Utils.calculatePolygonArea (points m2))))
      by (subst m3; apply createAreaLabel_data).
    clear E3. data_fields D3.
    cbn [measurementId points spheres color isClosed isLocked createdAt totalDistance
         area set_area] in *.
    rewrite updateMeasurementDistance_data. unfold effectively_closed.
    replace (points m3) with (points m) by congruence.
    replace (isClosed m3) with (isClosed m) by congruence.
    rewrite Eclosed.
    congruence.
  - rewrite updateMeasurementDistance_data. unfold effectively_closed.
    replace (points m1) with (points m) by congruence.
    replace (isClosed m1) with (isClosed m) by congruence.
    rewrite Eclosed.
    congruence.
Qed.

(** Below two points [updateMeasurementVisuals] returns before it reaches
    the metrics: only the lines and labels are cleared. *)
Lemma updateMeasurementVisuals_short (m : Measurement) :
  (List.length (points m) < 2)%nat ->
  MeasurementSystem.updateMeasurementVisuals m = set_labels (set_lines m []) [].
Proof.
  intros H. unfold MeasurementSystem.updateMeasurementVisuals.
  cbn [MeasurementSystem.clearMeasurementLabels MeasurementSystem.clearMeasurementLines
       points set_labels set_lines].
  destruct (Nat.ltb_spec (List.length (points m)) 2) as [_|Hge]; [reflexivity | lia].
Qed.

(** The points, the flags and the spheres are never written by it. *)
Lemma updateMeasurementVisuals_keeps (m : Measurement) :
  points (MeasurementSystem.updateMeasurementVisuals m) = points m
  /\ isClosed (MeasurementSystem.updateMeasurementVisuals m) = isClosed m
  /\ isLocked (MeasurementSystem.updateMeasurementVisuals m) = isLocked m.
Proof.
  pose proof (updateMeasurementVisuals_data m) as H.
  destruct (List.length (points m) <? 2)%nat.
  - data_fields H. auto.
  - unfold measurement_data in H. inversion H. auto.
Qed.

(** From two points on, the stored perimeter is the sum of the segment
    lengths, with the closing segment when the closing guard holds. *)
Lemma updateMeasurementVisuals_totalDistance (m : Measurement) :
  (2 <= List.length (points m))%nat ->
  totalDistance (MeasurementSystem.updateMeasurementVisuals m)
  = perimeter_spec (points m) (effectively_closed m).
Proof.
  intros H. pose proof (updateMeasurementVisuals_data m) as D.
  destruct (Nat.ltb_spec (List.length (points m)) 2) as [?|_]; [lia|].
  apply (f_equal (fun t => snd (fst t))) in D. exact D.
Qed.

(** Below two points the stored perimeter is not written. *)
Lemma updateMeasurementVisuals_stale (m : Measurement) :
  (List.length (points m) < 2)%nat ->
  totalDistance (MeasurementSystem.updateMeasurementVisuals m) = totalDistance m.
Proof.
  intros H. rewrite updateMeasurementVisuals_short by assumption. reflexivity.
Qed.

(** The stored area is written only under the closing guard. *)
Lemma updateMeasurementVisuals_area_kept (m : Measurement) :
  effectively_closed m = false ->
  area (MeasurementSystem.updateMeasurementVisuals m) = area m.
Proof.
  intros H. pose proof (updateMeasurementVisuals_data m) as D.
  rewrite H in D.
  apply (f_equal snd) in D.
  destruct (List.length (points m) <? 2)%nat; exact D.
Qed.

Lemma updateMeasurementVisuals_area (m : Measurement) :
  effectively_closed m = true ->
  area (MeasurementSystem.updateMeasurementVisuals m)
  = Utils.calculatePolygonArea (points m).
Proof.
  intros H. pose proof (updateMeasurementVisuals_data m) as D.
  rewrite H in D.
  unfold effectively_closed in H. apply andb_true_iff in H as [_ H].
  apply Nat.leb_le in H.
  destruct (Nat.ltb_spec (List.length (points m)) 2) as [?|_]; [lia|].
  apply (f_equal snd) in D. exact D.
Qed.

Lemma short_not_effectively_closed (m : Measurement) :
  (List.length (points m) < 3)%nat -> effectively_closed m = false.
Proof.
  intros H. unfold effectively_closed.
  destruct (Nat.leb_spec 3 (List.length (points m))) as [?|_]; [lia|].
  apply andb_false_r.
Qed.

(** ** Point deletion *)

Lemma deletePointFromMeasurement_locked (m : Measurement) (pointIndex : Z) :
  isLocked m = true ->
  MeasurementSystem.deletePointFromMeasurement m pointIndex
  = (m, [console_warn "Cannot delete point from locked measurement"]).
Proof.
  intros H. unfold MeasurementSystem.deletePointFromMeasurement. rewrite H. reflexivity.
Qed.

Lemma addPointToMeasurement_locked (m : Measurement) (p : Vector3) :
  isLocked m = true ->
  MeasurementSystem.addPointToMeasurement m p
  = (m, [console_warn "Cannot add point to locked measurement"]).
Proof.
  intros H. unfold MeasurementSystem.addPointToMeasurement. rewrite H. reflexivity.
Qed.

(** A deletion that passes both guards: the point leaves the array, its
    sphere too, and the visuals are rebuilt. *)
Lemma deletePointFromMeasurement_in_range (m : Measurement) (pointIndex : Z) :
  isLocked m = false ->
  (0 <= pointIndex < Z.of_nat (List.length (points m)))%Z ->
  exists sph,
    fst (MeasurementSystem.deletePointFromMeasurement m pointIndex)
    = MeasurementSystem.updateMeasurementVisuals
        (set_spheres (set_points m (delete (Z.to_nat pointIndex) (points m))) sph).
Proof.
  intros Hl Hr. unfold MeasurementSystem.deletePointFromMeasurement. rewrite Hl.
  destruct (Z.ltb_spec pointIndex 0) as [?|_]; [lia|].
  destruct (Z.geb_spec pointIndex (Z.of_nat (List.length (points m)))) as [?|_]; [lia|].
  cbn [orb fst spheres set_points].
  destruct (spheres m !! Z.to_nat pointIndex).
  - eexists. reflexivity.
  - exists (spheres m). destruct m; reflexivity.
Qed.

(** No path of [deletePointFromMeasurement] writes the closed flag. *)
Lemma deletePointFromMeasurement_isClosed (m : Measurement) (pointIndex : Z) :
  isClosed (fst (MeasurementSystem.deletePointFromMeasurement m pointIndex)) = isClosed m.
Proof.
  destruct (isLocked m) eqn:Hl.
  { rewrite deletePointFromMeasurement_locked by assumption. reflexivity. }
  destruct (Z.ltb_spec pointIndex 0) as [Hneg|Hpos].
  { unfold MeasurementSystem.deletePointFromMeasurement. rewrite Hl.
    destruct (Z.ltb_spec pointIndex 0); [reflexivity | lia]. }
  destruct (Z.geb_spec pointIndex (Z.of_nat (List.length (points m)))) as [Hbig|Hin].
  { unfold MeasurementSystem.deletePointFromMeasurement. rewrite Hl.
    destruct (Z.geb_spec pointIndex (Z.of_nat (List.length (points m)))); [|lia].
    rewrite orb_true_r. reflexivity. }
  destruct (deletePointFromMeasurement_in_range m pointIndex Hl) as [sph ->]; [lia|].
  destruct (updateMeasurementVisuals_keeps
              (set_spheres (set_points m (delete (Z.to_nat pointIndex) (points m))) sph))
    as (_ & Hc & _).
  exact Hc.
Qed.

(** While fewer than three points remain, a deletion leaves the stored
    area as it was. *)
Lemma deletePointFromMeasurement_area (m : Measurement) (pointIndex : Z) :
  (List.length (points (fst (MeasurementSystem.deletePointFromMeasurement m pointIndex))) < 3)%nat ->
  area (fst (MeasurementSystem.deletePointFromMeasurement m pointIndex)) = area m.
Proof.
  destruct (isLocked m) eqn:Hl.
  { rewrite deletePointFromMeasurement_locked by assumption. reflexivity. }
  destruct (Z.ltb_spec pointIndex 0) as [Hneg|Hpos].
  { unfold MeasurementSystem.deletePointFromMeasurement. rewrite Hl.
    destruct (Z.ltb_spec pointIndex 0); [reflexivity | lia]. }
  destruct (Z.geb_spec pointIndex (Z.of_nat (List.length (points m)))) as [Hbig|Hin].
  { unfold MeasurementSystem.deletePointFromMeasurement. rewrite Hl.
    destruct (Z.geb_spec pointIndex (Z.of_nat (List.length (points m)))); [|lia].
    rewrite orb_true_r. reflexivity. }
  destruct (deletePointFromMeasurement_in_range m pointIndex Hl) as [sph ->]; [lia|].
  set (m1 := set_spheres _ sph).
  pose proof (updateMeasurementVisuals_keeps m1) as (Hp & _ & _).
  rewrite Hp. intros Hlen.
  rewrite updateMeasurementVisuals_area_kept
    by (apply short_not_effectively_closed; exact Hlen).
  reflexivity.
Qed.

(** C10: for every measurement and every index that is negative or not
    below the number of points, [deletePointFromMeasurement] is a no-op:
    it returns the measurement as it was (points, flags, metrics and
    visuals), prints nothing but the lock warning of a locked measurement,
    and, being a total function, never throws. *)
Theorem deletePointFromMeasurement_out_of_range (m : Measurement) (pointIndex : Z) :
  (pointIndex < 0 \/ Z.of_nat (List.length (points m)) <= pointIndex)%Z ->
  MeasurementSystem.deletePointFromMeasurement m pointIndex
  = (m, if isLocked m
        then [console_warn "Cannot delete point from locked measurement"]
        else []).
Proof.
  intros Hout. unfold MeasurementSystem.deletePointFromMeasurement.
  destruct (isLocked m); [reflexivity|].
  destruct Hout as [Hneg|Hbig].
  - destruct (Z.ltb_spec pointIndex 0); [reflexivity | lia].
  - destruct (Z.geb_spec pointIndex (Z.of_nat (List.length (points m)))); [|lia].
    rewrite orb_true_r. reflexivity.
Qed.

Lemma deletePointFromMeasurement_out_of_range_witness :
  ((2 < 0 \/ Z.of_nat (List.length (points (drawn segment_drawn))) <= 2)%Z
   /\ MeasurementSystem.deletePointFromMeasurement (drawn segment_drawn) 2
      = (drawn segment_drawn, []))
  /\ ((-1 < 0 \/ Z.of_nat (List.length (points (drawn segment_drawn))) <= -1)%Z
      /\ MeasurementSystem.deletePointFromMeasurement (drawn segment_drawn) (-1)
         = (drawn segment_drawn, [])).
Proof.
  split.
  - assert (H : (2 < 0 \/ Z.of_nat (List.length (points (drawn segment_drawn))) <= 2)%Z)
      by (right; vm_compute; discriminate).
    split; [exact H|].
    exact (deletePointFromMeasurement_out_of_range (drawn segment_drawn) 2 H).
  - assert (H : (-1 < 0 \/ Z.of_nat (List.length (points (drawn segment_drawn))) <= -1)%Z)
      by (left; reflexivity).
    split; [exact H|].
    exact (deletePointFromMeasurement_out_of_range (drawn segment_drawn) (-1) H).
Defined.

(** A deletion never writes the closed flag, so a closed three-point
    measurement that loses a point keeps [isClosed = true] with two
    points.  The recomputation the deletion runs draws no closing segment
    for them, counts none in the perimeter, and does not write the stored
    area. *)
Lemma delete_keeps_closed_flag (m : Measurement) (pointIndex : Z) :
  let m' := fst (MeasurementSystem.deletePointFromMeasurement m pointIndex) in
  isClosed m' = isClosed m
  /\ ((List.length (points m') < 3)%nat ->
      effectively_closed m' = false /\ area m' = area m)
  /\ (isLocked m = false -> isClosed m = true ->
      List.length (points m) = 3%nat -> (0 <= pointIndex < 3)%Z ->
      List.length (points m') = 2%nat
      /\ isClosed m' = true
      /\ totalDistance m' = perimeter_spec (points m') false).
Proof.
  cbv zeta. split; [apply deletePointFromMeasurement_isClosed|]. split.
  - intros Hlen. split.
    + apply short_not_effectively_closed, Hlen.
    + apply deletePointFromMeasurement_area, Hlen.
  - intros Hl Hc Hn Hr.
    pose proof (deletePointFromMeasurement_isClosed m pointIndex) as Hflag.
    destruct (deletePointFromMeasurement_in_range m pointIndex Hl) as [sph E]; [lia|].
    rewrite E in *.
    set (m1 := set_spheres (set_points m (delete (Z.to_nat pointIndex) (points m))) sph) in *.
    assert (Hlen1 : List.length (points m1) = 2%nat).
    { subst m1. cbn [points set_spheres set_points].
      rewrite length_delete by (apply lookup_lt_is_Some_2; lia). lia. }
    destruct (updateMeasurementVisuals_keeps m1) as (Hp & _ & _).
    rewrite Hp. split; [exact Hlen1|]. split; [congruence|].
    rewrite updateMeasurementVisuals_totalDistance by lia.
    rewrite short_not_effectively_closed by lia. reflexivity.
Qed.

Lemma delete_keeps_closed_flag_witness :
  (isLocked (drawn triangle_closed) = false /\ isClosed (drawn triangle_closed) = true
   /\ List.length (points (drawn triangle_closed)) = 3%nat /\ (0 <= 0 < 3)%Z)
  /\ (let m' := fst (MeasurementSystem.deletePointFromMeasurement (drawn triangle_closed) 0) in
      List.length (points m') = 2%nat
      /\ isClosed m' = true
      /\ totalDistance m' = perimeter_spec (points m') false
      /\ effectively_closed m' = false /\ area m' = area (drawn triangle_closed)).
Proof.
  assert (H1 : isLocked (drawn triangle_closed) = false) by reflexivity.
  assert (H2 : isClosed (drawn triangle_closed) = true) by reflexivity.
  assert (H3 : List.length (points (drawn triangle_closed)) = 3%nat) by reflexivity.
  assert (H4 : (0 <= 0 < 3)%Z) by lia.
  split; [auto|].
  destruct (delete_keeps_closed_flag (drawn triangle_closed) 0) as (_ & Hshort & Htri).
  destruct (Htri H1 H2 H3 H4) as (Hlen & Hc & Ht).
  cbv zeta. repeat split; try assumption; apply Hshort; rewrite Hlen; lia.
Defined.

(** C3 at the failing input: the right triangle (0,0,0), (3,0,0), (0,0,4)
    is closed with the C key, and Shift+click deletes its vertex (0,0,0).
    Two points remain, of polygon area 0; the deletion leaves the closed
    flag set and the stored area at 6, where the claim has the flag forced
    to false and the area unset.  The flag is read without a look at the
    number of points: the read-out shows the area line with 6, the export
    reports a complete measurement of type area with two points, and the
    next click adds a third point to a measurement that is closed again,
    closing line and area label drawn, without C being pressed. *)
Theorem deleted_vertex_leaves_closed_two_point_area :
  let m := drawn triangle_closed in
  let w := MeasurementSystem.run [shift_click (pt 0 0 0)] triangle_closed in
  let m' := drawn w in
  let m'' := drawn (MeasurementSystem.run [plain_click (pt 0 0 1)] w) in
  (isClosed m = true /\ points m = right_triangle /\ area m = 6%float)
  /\ MeasurementSystem.deletePointFromMeasurement m 0
     = (m', [console_log "Deleted point from measurement"])
  /\ points m' = [pt 3 0 0; pt 0 0 4]
  /\ isClosed m' = true
  /\ area m' = 6%float
  /\ Utils.calculatePolygonArea (points m') = 0%float
  /\ MeasurementSystem.updateMeasurementReadout (MeasurementSystem.this w)
     = Some [MeasurementSystem.header 1 2; MeasurementSystem.distance_line 5;
             MeasurementSystem.area_line 6; MeasurementSystem.keys_help]
  /\ ExportManager.getMeasurementData (Some (MeasurementSystem.this w))
     = [ExportManager.mkMeasurementData
          (MeasurementSystem.mkExportData 1 [pt 3 0 0; pt 0 0 4] 5 6 true false)
          2 5 true "area"]
  /\ (points m'' = [pt 3 0 0; pt 0 0 4; pt 0 0 1]
      /\ isClosed m'' = true
      /\ List.length (lines m'') = 3%nat
      /\ area m'' = Utils.calculatePolygonArea (points m'')
      /\ area m'' = 4.5%float).
Proof.
  cbv zeta.
  repeat match goal with
         | |- _ /\ _ => split
         | |- _ = _ => vm_compute; reflexivity
         end.
Qed.

(** ** Perimeter after a mutation *)

(** After any change of the points that leaves at least two of them, the
    recomputation stores the perimeter of the current points, with the
    closing segment under the closing guard. *)
Lemma recomputed_perimeter (m : Measurement) (pts : list Vector3) :
  (2 <= List.length pts)%nat ->
  let m' := MeasurementSystem.updateMeasurementVisuals (set_points m pts) in
  points m' = pts
  /\ totalDistance m' = perimeter_spec (points m') (effectively_closed m').
Proof.
  intros H. cbv zeta.
  destruct (updateMeasurementVisuals_keeps (set_points m pts)) as (Hp & Hc & _).
  split; [exact Hp|].
  rewrite updateMeasurementVisuals_totalDistance by exact H.
  unfold effectively_closed. rewrite Hp, Hc. reflexivity.
Qed.

(** A click that adds a second or later point. *)
Lemma perimeter_after_add (m : Measurement) (p : Vector3) :
  isLocked m = false ->
  (1 <= List.length (points m))%nat ->
  let m' := MeasurementSystem.updateMeasurementVisuals
              (fst (MeasurementSystem.addPointToMeasurement m p)) in
  points m' = points m ++ [p]
  /\ totalDistance m' = perimeter_spec (points m') (effectively_closed m').
Proof.
  intros Hl Hn. cbv zeta. unfold MeasurementSystem.addPointToMeasurement.
  rewrite Hl. cbn [fst].
  set (m1 := set_spheres _ _).
  assert (Hpts : points m1 = points m ++ [p]) by reflexivity.
  destruct (updateMeasurementVisuals_keeps m1) as (Hp & Hc & _).
  split; [congruence|].
  rewrite updateMeasurementVisuals_totalDistance
    by (rewrite Hpts, length_app; cbn [List.length]; lia).
  unfold effectively_closed. rewrite Hp, Hc. reflexivity.
Qed.

(** A deletion that leaves two or more points. *)
Lemma perimeter_after_delete (m : Measurement) (pointIndex : Z) :
  isLocked m = false ->
  (0 <= pointIndex < Z.of_nat (List.length (points m)))%Z ->
  (3 <= List.length (points m))%nat ->
  let m' := fst (MeasurementSystem.deletePointFromMeasurement m pointIndex) in
  points m' = delete (Z.to_nat pointIndex) (points m)
  /\ totalDistance m' = perimeter_spec (points m') (effectively_closed m').
Proof.
  intros Hl Hr Hn. cbv zeta.
  destruct (deletePointFromMeasurement_in_range m pointIndex Hl Hr) as [sph ->].
  set (m1 := set_spheres _ sph).
  assert (Hpts : points m1 = delete (Z.to_nat pointIndex) (points m)) by reflexivity.
  destruct (updateMeasurementVisuals_keeps m1) as (Hp & Hc & _).
  split; [congruence|].
  rewrite updateMeasurementVisuals_totalDistance.
  - unfold effectively_closed. rewrite Hp, Hc. reflexivity.
  - rewrite Hpts, length_delete by (apply lookup_lt_is_Some_2; lia). lia.
Qed.

(** A drag step on a measurement of two or more points. *)
Lemma perimeter_after_move (m : Measurement) (pointIndex : nat) (p : Vector3) :
  (2 <= List.length (points m))%nat ->
  let m' := MeasurementSystem.updateMeasurementVisuals
              (set_points m (<[pointIndex := p]> (points m))) in
  points m' = <[pointIndex := p]> (points m)
  /\ totalDistance m' = perimeter_spec (points m') (effectively_closed m').
Proof.
  intros Hn. apply recomputed_perimeter. rewrite length_insert. exact Hn.
Qed.

(** C2 at the failing input: the open segment from (0,0,0) to (3,0,4) has
    stored perimeter 5; Shift+click deletes its second point and runs the
    recomputation, which returns before the perimeter is written.  One
    point remains, its perimeter is 0, and the stored value is still 5. *)
Theorem delete_to_one_point_keeps_stale_perimeter :
  let m := drawn segment_drawn in
  let m' := drawn (MeasurementSystem.run [shift_click (pt 3 0 4)] segment_drawn) in
  points m = [pt 0 0 0; pt 3 0 4]
  /\ totalDistance m = 5%float
  /\ MeasurementSystem.deletePointFromMeasurement m 1
     = (m', [console_log "Deleted point from measurement"])
  /\ points m' = [pt 0 0 0]
  /\ isClosed m' = false
  /\ perimeter_spec (points m') (isClosed m') = 0%float
  /\ totalDistance m' = 5%float.
Proof. vm_compute. repeat split. Qed.

(** ** Locked measurements *)

(** The guarded mutations leave a locked measurement alone and warn. *)
Lemma closeMeasurement_locked (w : MeasurementSystem.World) (mi : nat) (m : Measurement) :
  MeasurementSystem.getCurrentMeasurement (MeasurementSystem.this w) = Some (mi, m) ->
  (3 <= List.length (points m))%nat ->
  isLocked m = true ->
  MeasurementSystem.closeMeasurement w
  = MeasurementSystem.print w [console_warn "Cannot close locked measurement"].
Proof.
  intros Hcur Hlen Hl. unfold MeasurementSystem.closeMeasurement. rewrite Hcur.
  destruct (Nat.ltb_spec (List.length (points m)) 3) as [?|_]; [lia|].
  rewrite Hl. reflexivity.
Qed.

(** The drag handler has no such guard: whatever [isLocked] says, a move
    over a surface point overwrites the point being edited. *)
Lemma handleMouseMove_writes_point (w : MeasurementSystem.World)
    (e : MeasurementSystem.MouseEvent) (p old : Vector3) (m : Measurement) :
  MeasurementSystem.isEditing (MeasurementSystem.this w) = true ->
  MeasurementSystem.intersection e = Some p ->
  MeasurementSystem.array_get
    (MeasurementSystem.measurements (MeasurementSystem.this w))
    (MeasurementSystem.editingMeasurementIndex (MeasurementSystem.this w)) = Some m ->
  MeasurementSystem.array_get (points m)
    (MeasurementSystem.editingPointIndex (MeasurementSystem.this w)) = Some old ->
  exists w' m',
    MeasurementSystem.handleMouseMove w e = Normal w'
    /\ MeasurementSystem.array_get
         (MeasurementSystem.measurements (MeasurementSystem.this w'))
         (MeasurementSystem.editingMeasurementIndex (MeasurementSystem.this w)) = Some m'
    /\ points m'
       = <[Z.to_nat (MeasurementSystem.editingPointIndex (MeasurementSystem.this w)) := p]>
           (points m)
    /\ isLocked m' = isLocked m.
Proof.
  intros Hed Hp Hm Hold.
  unfold MeasurementSystem.handleMouseMove, MeasurementSystem.getIntersectionPoint.
  rewrite Hed, Hp, Hm, Hold. cbn [negb].
  unfold MeasurementSystem.array_get in Hm |- *.
  destruct (MeasurementSystem.editingMeasurementIndex (MeasurementSystem.this w) <? 0)%Z;
    [discriminate|].
  unfold MeasurementSystem.on_measurement. rewrite Hm.
  eexists _, _. split; [reflexivity|].
  cbn [MeasurementSystem.this MeasurementSystem.print MeasurementSystem.set_this
       MeasurementSystem.measurements MeasurementSystem.set_measurements].
  split.
  - apply list_lookup_insert_eq. eapply lookup_lt_Some, Hm.
  - set (m1 := set_points m _).
    destruct (updateMeasurementVisuals_keeps m1) as (Hpts & _ & Hlk).
    rewrite Hpts, Hlk. split; reflexivity.
Qed.


(** ** Area and point-in-polygon *)

(** Below three points [calculatePolygonArea] returns 0, and
    [closeMeasurement] prints a warning and writes nothing else, so the
    closed flag of the current measurement stays what it was, set or not;
    the area of the right triangle (0,0,0), (3,0,0), (0,0,4) is exactly 6;
    and the area is always the fan triangulation from the first point, the
    sum of half the magnitudes of the cross products. *)
Lemma polygonArea_and_close_need_three_points :
  (forall pts : list Vector3,
     (List.length pts < 3)%nat -> Utils.calculatePolygonArea pts = 0%float)
  /\ (forall (w : MeasurementSystem.World) (mi : nat) (m : Measurement),
        MeasurementSystem.getCurrentMeasurement (MeasurementSystem.this w) = Some (mi, m) ->
        (List.length (points m) < 3)%nat ->
        MeasurementSystem.closeMeasurement w
        = MeasurementSystem.print w
            [console_warn "Need at least 3 points to close measurement"])
  /\ Utils.calculatePolygonArea right_triangle = 6%float
  /\ (forall pts : list Vector3, Utils.calculatePolygonArea pts = polygonArea_spec pts).
Proof.
  split; [exact calculatePolygonArea_short|]. split.
  - intros w mi m Hcur Hlen. unfold MeasurementSystem.closeMeasurement. rewrite Hcur.
    destruct (Nat.ltb_spec (List.length (points m)) 3) as [_|?]; [reflexivity | lia].
  - split; [vm_compute; reflexivity | exact calculatePolygonArea_fan].
Qed.

Lemma polygonArea_and_close_need_three_points_witness :
  ((List.length [pt 0 0 0; pt 3 0 0] < 3)%nat
   /\ Utils.calculatePolygonArea [pt 0 0 0; pt 3 0 0] = 0%float)
  /\ (MeasurementSystem.getCurrentMeasurement (MeasurementSystem.this segment_drawn)
      = Some (0%nat, drawn segment_drawn)
      /\ (List.length (points (drawn segment_drawn)) < 3)%nat
      /\ MeasurementSystem.closeMeasurement segment_drawn
         = MeasurementSystem.print segment_drawn
             [console_warn "Need at least 3 points to close measurement"]
      /\ isClosed (drawn (MeasurementSystem.closeMeasurement segment_drawn)) = false).
Proof.
  destruct polygonArea_and_close_need_three_points as (Hshort & Hclose & _ & _).
  assert (H1 : (List.length [pt 0 0 0; pt 3 0 0] < 3)%nat) by (vm_compute; lia).
  assert (H2 : MeasurementSystem.getCurrentMeasurement (MeasurementSystem.this segment_drawn)
               = Some (0%nat, drawn segment_drawn)) by (vm_compute; reflexivity).
  assert (H3 : (List.length (points (drawn segment_drawn)) < 3)%nat) by (vm_compute; lia).
  split; [split; [exact H1 | exact (Hshort _ H1)]|].
  split; [exact H2|]. split; [exact H3|].
  split; [exact (Hclose _ _ _ H2 H3)|].
  vm_compute. reflexivity.
Defined.

(** C7 at the failing input: the closed right triangle has lost its
    vertex (0,0,0) to a Shift+click, and C is pressed on the two points
    left.  Their polygon area is 0 and [closeMeasurement] refuses with its
    warning; but the measurement is not left open: the refusal writes
    nothing, the closed flag the deletion left set stays set, and the
    stored area stays 6.  The area of the triangle itself is 6. *)
Theorem close_refused_on_closed_two_points :
  let w := MeasurementSystem.run [shift_click (pt 0 0 0)] triangle_closed in
  let w' := MeasurementSystem.run [MeasurementSystem.call_closeMeasurement] w in
  Utils.calculatePolygonArea right_triangle = 6%float
  /\ points (drawn w) = [pt 3 0 0; pt 0 0 4]
  /\ Utils.calculatePolygonArea (points (drawn w)) = 0%float
  /\ w' = MeasurementSystem.print w
            [console_warn "Need at least 3 points to close measurement"]
  /\ drawn w' = drawn w
  /\ isClosed (drawn w') = true
  /\ area (drawn w') = 6%float.
Proof.
  cbv zeta.
  repeat match goal with
         | |- _ /\ _ => split
         | |- _ = _ => vm_compute; reflexivity
         end.
Qed.

(** ** The editing sub-state machine *)

Lemma print_frame (w : MeasurementSystem.World) (out : list ConsoleEntry) :
  editing_frame (MeasurementSystem.print w out) = editing_frame w.
Proof. reflexivity. Qed.

Lemma on_measurement_frame (w : MeasurementSystem.World) (mi : nat)
    (method : Measurement -> Measurement * list ConsoleEntry) :
  editing_frame (MeasurementSystem.on_measurement w mi method) = editing_frame w.
Proof.
  unfold MeasurementSystem.on_measurement.
  destruct (MeasurementSystem.measurements (MeasurementSystem.this w) !! mi); [|reflexivity].
  destruct (method m). reflexivity.
Qed.

Lemma createNewMeasurement_frame (w : MeasurementSystem.World) (now : Z) :
  editing_frame (fst (MeasurementSystem.createNewMeasurement w now)) = editing_frame w.
Proof. reflexivity. Qed.

Lemma handleDeletePoint_frame (w : MeasurementSystem.World) (e : MeasurementSystem.MouseEvent) :
  editing_frame (MeasurementSystem.handleDeletePoint w e) = editing_frame w.
Proof.
  unfold MeasurementSystem.handleDeletePoint.
  repeat case_match; try reflexivity. apply on_measurement_frame.
Qed.

Lemma handleClick_frame (w : MeasurementSystem.World) (e : MeasurementSystem.MouseEvent) :
  editing_frame (MeasurementSystem.handleClick w e) = editing_frame w.
Proof.
  unfold MeasurementSystem.handleClick.
  destruct (MeasurementSystem.isEditing (MeasurementSystem.this w)); [reflexivity|].
  destruct (MeasurementSystem.shiftKey e); [apply handleDeletePoint_frame|].
  destruct (MeasurementSystem.getIntersectionPoint e) as [p|]; [|reflexivity].
  destruct (MeasurementSystem.getCurrentMeasurement (MeasurementSystem.this w))
    as [[mi m]|].
  - rewrite !on_measurement_frame. reflexivity.
  - pose proof (createNewMeasurement_frame w (MeasurementSystem.timeStamp e)) as Hnew.
    destruct (MeasurementSystem.createNewMeasurement w (MeasurementSystem.timeStamp e))
      as [w1 mi].
    rewrite !on_measurement_frame. exact Hnew.
Qed.

Lemma handleMouseMove_frame (w w' : MeasurementSystem.World)
    (e : MeasurementSystem.MouseEvent) :
  MeasurementSystem.handleMouseMove w e = Normal w' -> editing_frame w' = editing_frame w.
Proof.
  unfold MeasurementSystem.handleMouseMove. intros H.
  repeat case_match; try discriminate; inversion H; subst; try reflexivity.
  apply on_measurement_frame.
Qed.

Lemma closeMeasurement_frame (w : MeasurementSystem.World) :
  editing_frame (MeasurementSystem.closeMeasurement w) = editing_frame w.
Proof.
  unfold MeasurementSystem.closeMeasurement.
  repeat case_match; try reflexivity. apply on_measurement_frame.
Qed.

Lemma clearCurrent_frame (w : MeasurementSystem.World) :
  editing_frame (MeasurementSystem.clearCurrent w) = editing_frame w.
Proof.
  unfold MeasurementSystem.clearCurrent, MeasurementSystem.clearMeasurement.
  repeat case_match; reflexivity.
Qed.

Lemma switchToMeasurement_frame (w : MeasurementSystem.World) (index : Z) :
  editing_frame (MeasurementSystem.switchToMeasurement w index) = editing_frame w.
Proof.
  unfold MeasurementSystem.switchToMeasurement. case_match; reflexivity.
Qed.

(** [setEnabled] switches the manager and the orbit controls together. *)
Lemma setEnabled_camera_input (c : ControlsManager.t) (value : bool) :
  camera_input_is (fst (ControlsManager.setEnabled c value)) value = true.
Proof.
  unfold camera_input_is, ControlsManager.setEnabled.
  cbn [fst ControlsManager.enabled ControlsManager.controls].
  rewrite Bool.eqb_reflx.
  destruct (ControlsManager.controls c); [|reflexivity].
  cbn [ControlsManager.orbit_enabled]. rewrite Bool.eqb_reflx. reflexivity.
Qed.

Lemma startEditing_frame (w : MeasurementSystem.World) (mi : nat) (pointIndex : Z) :
  editing_frame (MeasurementSystem.startEditing w mi pointIndex)
  = (MeasurementSystem.active (MeasurementSystem.this w), true,
     match MeasurementSystem.inspector3D_controls w with
     | Some c => Some (fst (ControlsManager.setEnabled c false))
     | None => None
     end).
Proof.
  unfold MeasurementSystem.startEditing, MeasurementSystem.controls_setEnabled.
  destruct w as [s [c|] out]; reflexivity.
Qed.

Lemma stopEditing_frame (w : MeasurementSystem.World) :
  editing_frame (MeasurementSystem.stopEditing w)
  = (MeasurementSystem.active (MeasurementSystem.this w), false,
     match MeasurementSystem.inspector3D_controls w with
     | Some c => Some (fst (ControlsManager.setEnabled c true))
     | None => None
     end).
Proof.
  unfold MeasurementSystem.stopEditing, MeasurementSystem.controls_setEnabled.
  destruct w as [s [c|] out]; reflexivity.
Qed.

Lemma stopEditing_invariant (w : MeasurementSystem.World) (c : ControlsManager.t) :
  MeasurementSystem.inspector3D_controls w = Some c ->
  editing_invariant (editing_frame (MeasurementSystem.stopEditing w)).
Proof.
  intros Hc. rewrite stopEditing_frame, Hc. split; [discriminate|].
  eexists. split; [reflexivity | apply setEnabled_camera_input].
Qed.

(** Every listener and every call keeps the invariant. *)
Lemma step_invariant (w : MeasurementSystem.World) (ev : MeasurementSystem.Event) :
  editing_invariant (editing_frame w) ->
  editing_invariant (editing_frame (MeasurementSystem.step w ev)).
Proof.
  intros Inv.
  assert (Hc : exists c, MeasurementSystem.inspector3D_controls w = Some c).
  { destruct Inv as (_ & c & Hc & _). exists c. exact Hc. }
  destruct Hc as [c Hc].
  destruct ev as [e|e|e|e| | | |now|index| |]; cbn [MeasurementSystem.step].
  - destruct (MeasurementSystem.active (MeasurementSystem.this w)); [|exact Inv].
    rewrite handleClick_frame. exact Inv.
  - destruct (MeasurementSystem.active (MeasurementSystem.this w)) eqn:Hact;
      [|exact Inv].
    destruct (MeasurementSystem.ctrlKey e) eqn:Hctrl; [|exact Inv]. cbn [andb].
    unfold MeasurementSystem.handleMouseDown. rewrite Hctrl. cbn [negb].
    repeat case_match; try exact Inv.
    rewrite startEditing_frame, Hc, Hact. split; [reflexivity|].
    eexists. split; [reflexivity | apply setEnabled_camera_input].
  - destruct (MeasurementSystem.active (MeasurementSystem.this w)
              && MeasurementSystem.isEditing (MeasurementSystem.this w)); [|exact Inv].
    destruct (MeasurementSystem.handleMouseMove w e) as [w'|err] eqn:Hmove; [|exact Inv].
    rewrite (handleMouseMove_frame w w' e Hmove). exact Inv.
  - destruct (MeasurementSystem.active (MeasurementSystem.this w)
              && MeasurementSystem.isEditing (MeasurementSystem.this w)); [|exact Inv].
    unfold MeasurementSystem.handleMouseUp.
    destruct (MeasurementSystem.isEditing (MeasurementSystem.this w)); [|exact Inv].
    apply (stopEditing_invariant w c Hc).
  - unfold MeasurementSystem.activate. rewrite print_frame.
    destruct Inv as (_ & Hcam). split; [reflexivity | exact Hcam].
  - unfold MeasurementSystem.deactivate. rewrite print_frame.
    apply (stopEditing_invariant _ c). exact Hc.
  - rewrite closeMeasurement_frame. exact Inv.
  - rewrite createNewMeasurement_frame. exact Inv.
  - rewrite switchToMeasurement_frame. exact Inv.
  - exact Inv.
  - rewrite clearCurrent_frame. exact Inv.
Qed.

Lemma run_invariant (evs : list MeasurementSystem.Event) (w : MeasurementSystem.World) :
  editing_invariant (editing_frame w) ->
  editing_invariant (editing_frame (MeasurementSystem.run evs w)).
Proof.
  unfold MeasurementSystem.run. revert w.
  induction evs as [|ev evs IH]; intros w Inv; [exact Inv|].
  cbn [fold_left]. apply IH, step_invariant, Inv.
Qed.

Lemma initial_invariant (initialised : bool) :
  editing_invariant
    (editing_frame (MeasurementSystem.initial (Some (registered_controls initialised)))).
Proof.
  split; [discriminate|].
  eexists. split; [reflexivity|]. destruct initialised; reflexivity.
Qed.

(** C9: from start-up on, whatever pointer events and calls arrive, camera
    input is off exactly while a point is being edited: a Ctrl-press that
    enters editing leaves the controls disabled, a release always ends in
    the idle sub-state with the controls enabled (also when no move came
    in between), and the controls are never disabled outside editing. *)
Theorem editing_disables_camera_until_release
    (initialised : bool) (evs : list MeasurementSystem.Event) :
  let w := MeasurementSystem.run evs
             (MeasurementSystem.initial (Some (registered_controls initialised))) in
  (exists c,
      MeasurementSystem.inspector3D_controls w = Some c
      /\ camera_input_is c (negb (MeasurementSystem.isEditing (MeasurementSystem.this w)))
         = true)
  /\ (forall e,
        let w' := MeasurementSystem.step w (MeasurementSystem.mousedown e) in
        MeasurementSystem.isEditing (MeasurementSystem.this w') = true ->
        exists c,
          MeasurementSystem.inspector3D_controls w' = Some c
          /\ camera_input_is c false = true)
  /\ (forall e,
        let w' := MeasurementSystem.step w (MeasurementSystem.mouseup e) in
        MeasurementSystem.isEditing (MeasurementSystem.this w') = false
        /\ exists c,
             MeasurementSystem.inspector3D_controls w' = Some c
             /\ camera_input_is c true = true).
Proof.
  cbv zeta.
  set (w := MeasurementSystem.run evs _).
  assert (Inv : editing_invariant (editing_frame w))
    by apply run_invariant, initial_invariant.
  split; [exact (proj2 Inv)|]. split.
  - intros e Hed.
    destruct (step_invariant w (MeasurementSystem.mousedown e) Inv) as (_ & c & Hc & Hcam).
    cbn [editing_frame] in Hc, Hcam. rewrite Hed in Hcam. exists c. split; assumption.
  - intros e.
    destruct (step_invariant w (MeasurementSystem.mouseup e) Inv) as (_ & c & Hc & Hcam).
    cbn [editing_frame] in Hc, Hcam.
    assert (Hidle : MeasurementSystem.isEditing
                      (MeasurementSystem.this
                         (MeasurementSystem.step w (MeasurementSystem.mouseup e))) = false).
    { cbn [MeasurementSystem.step].
      destruct (MeasurementSystem.isEditing (MeasurementSystem.this w)) eqn:Hed.
      - destruct Inv as (Hact & _). cbn in Hact. rewrite (Hact Hed). cbn [andb].
        unfold MeasurementSystem.handleMouseUp. rewrite Hed.
        destruct w as [s [c0|] out]; reflexivity.
      - rewrite andb_false_r. exact Hed. }
    split; [exact Hidle|]. rewrite Hidle in Hcam. exists c. split; assumption.
Qed.

Lemma editing_disables_camera_until_release_witness :
  let drawn_segment :=
    [MeasurementSystem.call_activate; plain_click (pt 0 0 0); plain_click (pt 3 0 4)] in
  let press := MeasurementSystem.mkMouseEvent true false (Some (pt 3 0 4)) 0 in
  let up := MeasurementSystem.mkMouseEvent false false None 0 in
  let w0 := MeasurementSystem.run drawn_segment
              (MeasurementSystem.initial (Some (registered_controls true))) in
  let w := MeasurementSystem.step w0 (MeasurementSystem.mousedown press) in
  let w1 := MeasurementSystem.run (drawn_segment ++ [MeasurementSystem.mousedown press])
              (MeasurementSystem.initial (Some (registered_controls true))) in
  let w' := MeasurementSystem.step w1 (MeasurementSystem.mouseup up) in
  MeasurementSystem.isEditing (MeasurementSystem.this w) = true
  /\ (exists c,
        MeasurementSystem.inspector3D_controls w = Some c
        /\ camera_input_is c false = true)
  /\ MeasurementSystem.isEditing (MeasurementSystem.this w') = false
  /\ (exists c,
        MeasurementSystem.inspector3D_controls w' = Some c
        /\ camera_input_is c true = true).
Proof.
  intros drawn_segment press up w0 w w1 w'.
  assert (Hed : MeasurementSystem.isEditing (MeasurementSystem.this w) = true)
    by (vm_compute; reflexivity).
  split; [exact Hed|]. split.
  - exact (proj1 (proj2 (editing_disables_camera_until_release true drawn_segment))
             press Hed).
  - exact (proj2 (proj2 (editing_disables_camera_until_release true
                           (drawn_segment ++ [MeasurementSystem.mousedown press])))
             up).
Defined.

(** ** Projection to the screen *)

(** C5, as the program has it: [projectToScreen] maps the point to
    normalized device coordinates with the camera and scales them to the
    renderer's size (the window's when no renderer is given); the object it
    returns has the two properties x and y and no others, so its [visible]
    reads undefined.  The visibility test, depth below 1 and distance to
    the camera below 100, is computed by the label updates of the reference
    and HIMP systems, which do not call [projectToScreen]. *)
Theorem projectToScreen_gives_pixel_coordinates
    (window : Window) (point : Vector3) (camera : THREE.Camera)
    (renderer : option Renderer) :
  let ndc := THREE.project point camera in
  let width := match renderer with Some r => clientWidth r | None => innerWidth window end in
  let height := match renderer with Some r => clientHeight r | None => innerHeight window end in
  let screen := Utils.projectToScreen window point camera renderer in
  get_property screen "x" = JsNumber ((THREE.x ndc * 0.5 + 0.5) * width)%float
  /\ get_property screen "y" = JsNumber ((- THREE.y ndc * 0.5 + 0.5) * height)%float
  /\ map fst screen = ["x"; "y"]%string
  /\ get_property screen "visible" = JsUndefined
  /\ style_display_block (ReferenceSystem.updateLabelPosition window camera point)
     = visible_spec camera point
  /\ style_display_block (HIMPSystem.updateLabelPosition window camera point)
     = visible_spec camera point.
Proof. cbv zeta. repeat split. Qed.

(** C5 as stated fails: for the identity camera at the origin and the
    point (0, 0, 0.5), depth is 0.5 and the distance to the camera 0.5, so
    the flag would be true; the object returned has no [visible] at all. *)
Lemma projectToScreen_has_no_visible_flag :
  visible_spec identity_camera (pt 0 0 0.5) = true
  /\ Utils.projectToScreen window_800_600 (pt 0 0 0.5) identity_camera None
     = [("x"%string, JsNumber 400); ("y"%string, JsNumber 300)]
  /\ get_property (Utils.projectToScreen window_800_600 (pt 0 0 0.5) identity_camera None)
       "visible"
     <> JsBoolean (visible_spec identity_camera (pt 0 0 0.5)).
Proof. vm_compute. repeat split. discriminate. Qed.

(** ** Linking *)

Lemma distancePointToLine_is_not_a_member :
  Utils.has_member "distancePointToLine" = false
  /\ Utils.distancePointToLine = None.
Proof. split; reflexivity. Qed.

Lemma fold_left_thrown {S : Type} (body : nat -> S -> Completion S)
    (l : list nat) (e : JsError) :
  fold_left (fun acc i => let! a := acc in body i a) l (Throw e) = Throw e.
Proof. induction l as [|i l IH]; [reflexivity | exact IH]. Qed.

(** Without the helper, the distance to the lines of any measurement of
    two or more points is an exception: the first segment already calls
    what is not a function. *)
Lemma getDistanceToMeasurementLines_throws (point : Vector3) (m : Measurement) :
  (2 <= List.length (points m))%nat ->
  AnnotationSystem.getDistanceToMeasurementLines point m
  = Throw (TypeError "Utils.distancePointToLine is not a function").
Proof.
  intros H.
  unfold AnnotationSystem.getDistanceToMeasurementLines,
    AnnotationSystem.getDistanceToMeasurementLines_with.
  destruct (Nat.ltb_spec (List.length (points m)) 2) as [?|_]; [lia|].
  unfold for_loop_throwing.
  destruct (List.length (points m)) as [|[|n]]; [lia | lia |].
  replace (Datatypes.S (Datatypes.S n) - 1)%nat with (Datatypes.S n) by lia.
  cbn [seq fold_left bind AnnotationSystem.call_distancePointToLine
       Utils.distancePointToLine].
  rewrite fold_left_thrown. reflexivity.
Qed.

(** So the linker throws as soon as it meets such a measurement that is
    not an inside match. *)
Lemma findEnclosingMeasurement_throws (point : Vector3) (m : Measurement)
    (rest : list Measurement) :
  (2 <= List.length (points m))%nat ->
  inside_match point m = false ->
  AnnotationSystem.findEnclosingMeasurement (Some (m :: rest)) point
  = Throw (TypeError "Utils.distancePointToLine is not a function").
Proof.
  intros Hlen Hout.
  unfold AnnotationSystem.findEnclosingMeasurement,
    AnnotationSystem.findEnclosingMeasurement_with.
  cbn [AnnotationSystem.findEnclosing_loop].
  unfold inside_match in Hout. rewrite Hout.
  change (AnnotationSystem.getDistanceToMeasurementLines_with Utils.distancePointToLine point m)
    with (AnnotationSystem.getDistanceToMeasurementLines point m).
  rewrite getDistanceToMeasurementLines_throws by exact Hlen. reflexivity.
Qed.

(** With a helper in place the distance is always a value. *)
Lemma for_loop_throwing_normal {S : Type} (lo hi : nat)
    (body : nat -> S -> Completion S) (s : S) :
  (forall i a, exists a', body i a = Normal a') ->
  exists s', for_loop_throwing lo hi body s = Normal s'.
Proof.
  intros Hbody. unfold for_loop_throwing.
  generalize (seq lo (hi - lo)) as l. intros l. revert s.
  induction l as [|i l IH]; intros s; [eexists; reflexivity|].
  cbn [fold_left bind]. destruct (Hbody i s) as [a' ->]. apply IH.
Qed.

Lemma getDistanceToMeasurementLines_with_helper
    (d : Vector3 -> Vector3 -> Vector3 -> float) (point : Vector3) (m : Measurement) :
  exists v, AnnotationSystem.getDistanceToMeasurementLines_with (Some d) point m = Normal v.
Proof.
  unfold AnnotationSystem.getDistanceToMeasurementLines_with.
  destruct (List.length (points m) <? 2)%nat; [eexists; reflexivity|].
  match goal with
  | |- context [for_loop_throwing ?lo ?hi ?body ?s] =>
      destruct (for_loop_throwing_normal lo hi body s) as [v ->];
        [intros i a; eexists; reflexivity|]
  end.
  cbn [bind]. destruct (isClosed m && (3 <=? List.length (points m))%nat);
    eexists; reflexivity.
Qed.

(** With a helper in place, the first inside match in iteration order is
    the answer, whatever near-line candidates come before or after it. *)
Lemma findEnclosing_loop_inside_wins
    (d : Vector3 -> Vector3 -> Vector3 -> float) (point : Vector3)
    (ms : list Measurement) (k : nat) (m : Measurement) :
  ms !! k = Some m ->
  inside_match point m = true ->
  (forall j m', (j < k)%nat -> ms !! j = Some m' -> inside_match point m' = false) ->
  forall (i : nat) (bestMatch : option AnnotationSystem.Link) (bestDistance : float),
    AnnotationSystem.findEnclosing_loop (Some d) point ms i bestMatch bestDistance
    = Normal (Some (AnnotationSystem.mkLink (i + k) AnnotationSystem.inside 0)).
Proof.
  revert k. induction ms as [|m0 rest IH]; intros k Hk Hin Hbefore i bestMatch bestDistance.
  { discriminate. }
  destruct k as [|k].
  - injection Hk as ->. cbn [AnnotationSystem.findEnclosing_loop].
    unfold inside_match in Hin. rewrite Hin. rewrite Nat.add_0_r. reflexivity.
  - cbn [AnnotationSystem.findEnclosing_loop].
    assert (Hout : inside_match point m0 = false)
      by (apply (Hbefore 0%nat); [lia | reflexivity]).
    unfold inside_match in Hout. rewrite Hout.
    destruct (getDistanceToMeasurementLines_with_helper d point m0) as [v ->].
    assert (Hrest : forall b bd,
              AnnotationSystem.findEnclosing_loop (Some d) point rest (Datatypes.S i) b bd
              = Normal (Some (AnnotationSystem.mkLink (i + Datatypes.S k)
                                AnnotationSystem.inside 0))).
    { intros b bd. rewrite (IH k Hk Hin); [f_equal; f_equal; f_equal; lia|].
      intros j m' Hj Hm'. apply (Hbefore (Datatypes.S j)); [lia | exact Hm']. }
    destruct ((v <? 0.5)%float && (v <? bestDistance)%float); apply Hrest.
Qed.

(** C1 at the failing input: one open segment from (0, 0, 0.25) to
    (1, 0, 0.25) and the query point (0.5, 0, 0.5), a quarter unit from
    it.  No measurement is an inside match; the linker does not return a
    near-line link but throws, because [Utils] has no member
    [distancePointToLine]. *)
Theorem findEnclosingMeasurement_throws_near_a_segment :
  Utils.has_member "distancePointToLine" = false
  /\ inside_match (pt 0.5 0 0.5) near_segment = false
  /\ AnnotationSystem.getDistanceToMeasurementLines (pt 0.5 0 0.5) near_segment
     = Throw (TypeError "Utils.distancePointToLine is not a function")
  /\ AnnotationSystem.findEnclosingMeasurement (Some [near_segment]) (pt 0.5 0 0.5)
     = Throw (TypeError "Utils.distancePointToLine is not a function").
Proof. vm_compute. repeat split. Qed.

(** C6 at the failing input: the query point (0.5, 0, 0.5) lies inside the
    closed unit square, and an open segment a quarter unit away comes
    first in the array.  The linker throws at the segment and never
    reaches the square.  With the square first it answers inside, and so
    it does when two closed squares overlap: the first one wins. *)
Theorem findEnclosingMeasurement_throws_before_inside_match :
  inside_match (pt 0.5 0 0.5) closed_square = true
  /\ AnnotationSystem.findEnclosingMeasurement
       (Some [near_segment; closed_square]) (pt 0.5 0 0.5)
     = Throw (TypeError "Utils.distancePointToLine is not a function")
  /\ AnnotationSystem.findEnclosingMeasurement
       (Some [closed_square; near_segment]) (pt 0.5 0 0.5)
     = Normal (Some (AnnotationSystem.mkLink 0 AnnotationSystem.inside 0))
  /\ AnnotationSystem.findEnclosingMeasurement
       (Some [closed_big_square; closed_square]) (pt 0.5 0 0.5)
     = Normal (Some (AnnotationSystem.mkLink 0 AnnotationSystem.inside 0)).
Proof. vm_compute. repeat split. Qed.

(** * Further properties of the code *)

(** ** Colour packing *)

Lemma ToInt32_small (n : Z) : (- 2 ^ 31 <= n < 2 ^ 31)%Z -> ToInt32 n = n.
Proof.
  intros H. unfold ToInt32. rewrite Z.mod_small by lia. lia.
Qed.

Lemma testbit_above (x k n : Z) :
  (0 <= x < 2 ^ k)%Z -> (0 <= k <= n)%Z -> Z.testbit x n = false.
Proof.
  intros Hx Hk. rewrite <- (Z.mod_small x (2 ^ k)) by lia.
  apply Z.mod_pow2_bits_high. lia.
Qed.

Lemma land_255 (x : Z) : Z.land x 255 = (x mod 256)%Z.
Proof. change 255%Z with (Z.ones 8). rewrite Z.land_ones by lia. reflexivity. Qed.

Lemma testbit_255 (n : Z) : (0 <= n)%Z -> Z.testbit 255 n = (n <? 8)%Z.
Proof.
  intros Hn. change 255%Z with (Z.ones 8).
  destruct (Z.ltb_spec n 8).
  - apply Z.ones_spec_low. lia.
  - apply Z.ones_spec_high. lia.
Qed.

(** The packed value of three bytes, before any wrap-around. *)
Lemma packed_range (r g b : Z) :
  (0 <= r < 256)%Z -> (0 <= g < 256)%Z -> (0 <= b < 256)%Z ->
  (0 <= Z.lor (Z.lor (Z.shiftl r 16) (Z.shiftl g 8)) b < 2 ^ 24)%Z.
Proof.
  intros Hr Hg Hb.
  assert (Hbits : forall n, (24 <= n)%Z ->
            Z.testbit (Z.lor (Z.lor (Z.shiftl r 16) (Z.shiftl g 8)) b) n = false).
  { intros n Hn. rewrite !Z.lor_spec, !Z.shiftl_spec by lia.
    rewrite (testbit_above r 8 (n - 16)), (testbit_above g 8 (n - 8)),
      (testbit_above b 8 n) by lia.
    reflexivity. }
  assert (Hnonneg : (0 <= Z.lor (Z.lor (Z.shiftl r 16) (Z.shiftl g 8)) b)%Z).
  { apply Z.lor_nonneg. split; [|lia]. apply Z.lor_nonneg.
    split; apply Z.shiftl_nonneg; lia. }
  split; [exact Hnonneg|].
  set (v := Z.lor (Z.lor (Z.shiftl r 16) (Z.shiftl g 8)) b) in *.
  destruct (Z.eq_dec v 0%Z) as [Hz|Hne]; [rewrite Hz; lia|].
  apply Z.log2_lt_pow2; [lia|].
  destruct (Z.lt_ge_cases (Z.log2 v) 24) as [Hlt|Hge]; [exact Hlt|].
  assert (Htop : Z.testbit v (Z.log2 v) = true) by (apply Z.bit_log2; lia).
  rewrite Hbits in Htop by exact Hge. discriminate.
Qed.

(** X1: [hexToRgb] yields three bytes for every integer; on a colour
    0xRRGGBB, [rgbToHex] puts them back together; and [hexToRgb] takes
    apart what [rgbToHex] packed from three bytes. *)
Theorem colour_round_trip :
  (forall hex : Z,
     (0 <= Utils.r (Utils.hexToRgb hex) < 256)%Z
     /\ (0 <= Utils.g (Utils.hexToRgb hex) < 256)%Z
     /\ (0 <= Utils.b (Utils.hexToRgb hex) < 256)%Z)
  /\ (forall hex : Z,
        (0 <= hex < 2 ^ 24)%Z ->
        Utils.rgbToHex (Utils.r (Utils.hexToRgb hex)) (Utils.g (Utils.hexToRgb hex))
          (Utils.b (Utils.hexToRgb hex)) = hex)
  /\ (forall r g b : Z,
        (0 <= r < 256)%Z -> (0 <= g < 256)%Z -> (0 <= b < 256)%Z ->
        Utils.hexToRgb (Utils.rgbToHex r g b) = Utils.mkRGB r g b).
Proof.
  assert (H255 : ToInt32 255 = 255%Z) by reflexivity.
  split; [|split].
  - intros hex. unfold Utils.hexToRgb, js_and. cbn [Utils.r Utils.g Utils.b].
    rewrite H255, !land_255.
    repeat split; apply Z.mod_pos_bound; lia.
  - intros hex Hhex.
    assert (Hsmall : ToInt32 hex = hex) by (apply ToInt32_small; lia).
    unfold Utils.rgbToHex, Utils.hexToRgb, js_or, js_shl, js_and, js_shr.
    cbn [Utils.r Utils.g Utils.b].
    change (16 mod 32)%Z with 16%Z. change (8 mod 32)%Z with 8%Z.
    rewrite H255, Hsmall, !land_255.
    assert (Hr : (0 <= Z.shiftr hex 16 < 256)%Z).
    { rewrite Z.shiftr_div_pow2 by lia. split.
      - apply Z.div_pos; lia.
      - apply Z.div_lt_upper_bound; lia. }
    rewrite (ToInt32_small (Z.shiftr hex 16)) by lia.
    rewrite (ToInt32_small (Z.shiftr hex 8)).
    2:{ rewrite Z.shiftr_div_pow2 by lia. split.
        - transitivity 0%Z; [lia | apply Z.div_pos; lia].
        - apply Z.div_lt_upper_bound; lia. }
    set (r := (Z.shiftr hex 16 mod 256)%Z).
    set (g := (Z.shiftr hex 8 mod 256)%Z).
    set (b := (hex mod 256)%Z).
    assert (Hrr : (0 <= r < 256)%Z) by (apply Z.mod_pos_bound; lia).
    assert (Hgr : (0 <= g < 256)%Z) by (apply Z.mod_pos_bound; lia).
    assert (Hbr : (0 <= b < 256)%Z) by (apply Z.mod_pos_bound; lia).
    rewrite (ToInt32_small r), (ToInt32_small g), (ToInt32_small b) by lia.
    assert (Hsr : (0 <= Z.shiftl r 16 < 2 ^ 24)%Z).
    { rewrite Z.shiftl_mul_pow2 by lia. lia. }
    assert (Hsg : (0 <= Z.shiftl g 8 < 2 ^ 16)%Z).
    { rewrite Z.shiftl_mul_pow2 by lia. lia. }
    rewrite !(ToInt32_small (Z.shiftl r 16)), !(ToInt32_small (Z.shiftl g 8)) by lia.
    assert (Hrg : (0 <= Z.lor (Z.shiftl r 16) (Z.shiftl g 8) < 2 ^ 24)%Z).
    { pose proof (packed_range r g 0 Hrr Hgr ltac:(lia)) as H0.
      rewrite Z.lor_0_r in H0. exact H0. }
    rewrite (ToInt32_small (Z.lor (Z.shiftl r 16) (Z.shiftl g 8))) by lia.
    apply Z.bits_inj'. intros n Hn.
    rewrite !Z.lor_spec, !Z.shiftl_spec by lia.
    subst r g b.
    change 256%Z with (2 ^ 8)%Z.
    destruct (Z.ltb_spec n 8) as [H8|H8].
    + rewrite (Z.testbit_neg_r _ (n - 16)), (Z.testbit_neg_r _ (n - 8)) by lia.
      rewrite Z.mod_pow2_bits_low by lia. reflexivity.
    + rewrite (Z.mod_pow2_bits_high hex 8 n) by lia. rewrite orb_false_r.
      destruct (Z.ltb_spec n 16) as [H16|H16].
      * rewrite (Z.testbit_neg_r _ (n - 16)) by lia.
        rewrite Z.mod_pow2_bits_low, Z.shiftr_spec by lia.
        cbn [orb]. f_equal. lia.
      * rewrite (Z.mod_pow2_bits_high _ 8 (n - 8)) by lia. rewrite orb_false_r.
        destruct (Z.ltb_spec n 24) as [H24|H24].
        -- rewrite Z.mod_pow2_bits_low, Z.shiftr_spec by lia. f_equal. lia.
        -- rewrite Z.mod_pow2_bits_high by lia.
           symmetry. apply (testbit_above hex 24 n); lia.
  - intros r g b Hr Hg Hb.
    unfold Utils.rgbToHex, Utils.hexToRgb, js_or, js_shl, js_and, js_shr.
    change (16 mod 32)%Z with 16%Z. change (8 mod 32)%Z with 8%Z.
    rewrite H255.
    rewrite (ToInt32_small r), (ToInt32_small g), (ToInt32_small b) by lia.
    assert (Hsr : (0 <= Z.shiftl r 16 < 2 ^ 24)%Z).
    { rewrite Z.shiftl_mul_pow2 by lia. lia. }
    assert (Hsg : (0 <= Z.shiftl g 8 < 2 ^ 16)%Z).
    { rewrite Z.shiftl_mul_pow2 by lia. lia. }
    rewrite !(ToInt32_small (Z.shiftl r 16)), !(ToInt32_small (Z.shiftl g 8)) by lia.
    assert (Hrg : (0 <= Z.lor (Z.shiftl r 16) (Z.shiftl g 8) < 2 ^ 24)%Z).
    { pose proof (packed_range r g 0 Hr Hg ltac:(lia)) as H0.
      rewrite Z.lor_0_r in H0. exact H0. }
    rewrite (ToInt32_small (Z.lor (Z.shiftl r 16) (Z.shiftl g 8))) by lia.
    pose proof (packed_range r g b Hr Hg Hb) as Hv.
    set (v := Z.lor (Z.lor (Z.shiftl r 16) (Z.shiftl g 8)) b) in *.
    rewrite (ToInt32_small v) by lia.
    assert (H16 : (0 <= Z.shiftr v 16 < 256)%Z).
    { rewrite Z.shiftr_div_pow2 by lia. split.
      - apply Z.div_pos; lia.
      - apply Z.div_lt_upper_bound; lia. }
    assert (H8 : (0 <= Z.shiftr v 8 < 2 ^ 16)%Z).
    { rewrite Z.shiftr_div_pow2 by lia. split.
      - apply Z.div_pos; lia.
      - apply Z.div_lt_upper_bound; lia. }
    rewrite (ToInt32_small (Z.shiftr v 16)), (ToInt32_small (Z.shiftr v 8)) by lia.
    assert (Hbit : forall n, (0 <= n)%Z ->
              Z.testbit v n
              = Z.testbit r (n - 16) || Z.testbit g (n - 8) || Z.testbit b n).
    { intros n Hn. subst v. rewrite !Z.lor_spec, !Z.shiftl_spec by lia. reflexivity. }
    f_equal; apply Z.bits_inj'; intros n Hn;
      rewrite Z.land_spec, testbit_255 by lia;
      try rewrite Z.shiftr_spec by lia; rewrite Hbit by lia;
      destruct (Z.ltb_spec n 8) as [Hlow|Hhigh].
    + replace (n + 16 - 16)%Z with n by lia.
      rewrite (testbit_above g 8 (n + 16 - 8)), (testbit_above b 8 (n + 16)) by lia.
      rewrite !orb_false_r, andb_true_r. reflexivity.
    + rewrite andb_false_r. symmetry. apply (testbit_above r 8 n); lia.
    + replace (n + 8 - 8)%Z with n by lia.
      rewrite (Z.testbit_neg_r r (n + 8 - 16)), (testbit_above b 8 (n + 8)) by lia.
      rewrite orb_false_r, andb_true_r. reflexivity.
    + rewrite andb_false_r. symmetry. apply (testbit_above g 8 n); lia.
    + rewrite (Z.testbit_neg_r r (n - 16)), (Z.testbit_neg_r g (n - 8)) by lia.
      rewrite andb_true_r. reflexivity.
    + rewrite andb_false_r. symmetry. apply (testbit_above b 8 n); lia.
Qed.

Lemma colour_round_trip_witness :
  ((0 <= 0xff8844 < 2 ^ 24)%Z
   /\ Utils.rgbToHex (Utils.r (Utils.hexToRgb 0xff8844)) (Utils.g (Utils.hexToRgb 0xff8844))
        (Utils.b (Utils.hexToRgb 0xff8844)) = 0xff8844%Z)
  /\ (((0 <= 255 < 256)%Z /\ (0 <= 136 < 256)%Z /\ (0 <= 68 < 256)%Z)
      /\ Utils.hexToRgb (Utils.rgbToHex 255 136 68) = Utils.mkRGB 255 136 68).
Proof.
  destruct colour_round_trip as (_ & Hpack & Hunpack).
  assert (H0 : (0 <= 0xff8844 < 2 ^ 24)%Z) by lia.
  assert (H1 : (0 <= 255 < 256)%Z) by lia.
  assert (H2 : (0 <= 136 < 256)%Z) by lia.
  assert (H3 : (0 <= 68 < 256)%Z) by lia.
  split; [split; [exact H0 | exact (Hpack _ H0)]|].
  split; [auto | exact (Hunpack _ _ _ H1 H2 H3)].
Defined.

(** ** Point in polygon as a parity of edge crossings *)

Lemma isPointInPolygon_loop (point : Vector3) (poly suffix : list Vector3)
    (k j : nat) (inside : bool) :
  drop k poly = suffix ->
  fst (fold_left
         (fun acc i =>
            (fun '(inside, j) =>
               (if xorb (THREE.z point <? THREE.z (poly !!! i))%float
                        (THREE.z point <? THREE.z (poly !!! j))%float
                   && (THREE.x point
                       <? (THREE.x (poly !!! j) - THREE.x (poly !!! i))
                          * (THREE.z point - THREE.z (poly !!! i))
                          / (THREE.z (poly !!! j) - THREE.z (poly !!! i))
                          + THREE.x (poly !!! i))%float
                then negb inside else inside, i)) acc)
         (seq k (List.length suffix)) (inside, j))
  = fold_left xorb
      (map (fun e => edge_crossed point (fst e) (snd e))
           (combine suffix (poly !!! j :: suffix)))
      inside.
Proof.
  revert k j inside. induction suffix as [|a s IH]; intros k j inside Hdrop.
  { reflexivity. }
  assert (Hk : poly !! k = Some a).
  { rewrite <- (Nat.add_0_r k), <- lookup_drop, Hdrop. reflexivity. }
  assert (Hka : poly !!! k = a) by (apply list_lookup_total_correct, Hk).
  assert (Hs : drop (Datatypes.S k) poly = s).
  { pose proof (drop_S poly a k Hk) as HS. rewrite Hdrop in HS.
    injection HS as HS. symmetry. exact HS. }
  cbn [List.length seq fold_left combine map fst snd].
  rewrite (IH (Datatypes.S k) k _ Hs). rewrite Hka.
  f_equal. unfold edge_crossed.
  destruct (xorb _ _ && _); destruct inside; reflexivity.
Qed.

(** [isPointInPolygon] is the parity of the crossings of the cyclic edges. *)
Lemma isPointInPolygon_parity (point : Vector3) (poly : list Vector3) :
  Utils.isPointInPolygon point poly
  = if (List.length poly <? 3)%nat then false
    else parity (map (fun e => edge_crossed point (fst e) (snd e)) (cyclic_edges poly)).
Proof.
  unfold Utils.isPointInPolygon. destruct (List.length poly <? 3)%nat; [reflexivity|].
  unfold for_loop, parity, cyclic_edges. rewrite Nat.sub_0_r.
  rewrite <- lookup_total_last.
  apply (isPointInPolygon_loop point poly poly 0). reflexivity.
Qed.

Lemma fold_xorb_step (flags : list bool) (a c : bool) :
  fold_left xorb flags (xorb a c) = xorb (fold_left xorb flags a) c.
Proof.
  revert a. induction flags as [|f flags IH]; intros a; [reflexivity|].
  cbn [fold_left]. rewrite <- IH. f_equal. destruct a, c, f; reflexivity.
Qed.

Lemma combine_snoc (t : list Vector3) (x y : Vector3) :
  combine (t ++ [y]) (x :: t ++ [y])
  = combine t (x :: t) ++ [(y, List.last (x :: t) THREE.origin)].
Proof.
  revert x. induction t as [|b t IH]; intros x; [reflexivity|].
  cbn [app combine]. rewrite IH. reflexivity.
Qed.

Lemma parity_odd_count {A : Type} (flag : A -> bool) (l : list A) :
  parity (map flag l) = Nat.odd (List.length (List.filter flag l)).
Proof.
  unfold parity. induction l as [|a l IH]; [reflexivity|].
  cbn [map fold_left List.filter].
  rewrite (fold_xorb_step _ false), IH.
  destruct (flag a); cbn [List.length].
  - rewrite Nat.odd_succ, <- Nat.negb_odd.
    destruct (Nat.odd _); reflexivity.
  - destruct (Nat.odd _); reflexivity.
Qed.

Lemma last_map {A B : Type} (f : A -> B) (l : list A) (d : A) :
  List.last (map f l) (f d) = f (List.last l d).
Proof.
  induction l as [|a l IH]; [reflexivity|].
  destruct l as [|b l]; [reflexivity|]. exact IH.
Qed.

Lemma combine_map_both {A B : Type} (f : A -> B) (l l' : list A) :
  combine (map f l) (map f l') = map (fun e => (f (fst e), f (snd e))) (combine l l').
Proof.
  revert l'. induction l as [|a l IH]; intros [|b l']; try reflexivity.
  cbn [map combine fst snd]. rewrite IH. reflexivity.
Qed.

Lemma filter_map_length {A B : Type} (g : A -> B) (flag : B -> bool) (l : list A) :
  List.length (List.filter flag (map g l))
  = List.length (List.filter (fun a => flag (g a)) l).
Proof.
  induction l as [|a l IH]; [reflexivity|].
  cbn [map List.filter]. destruct (flag (g a)); cbn [List.length]; rewrite IH; reflexivity.
Qed.

(** The edges of the projected polygon are the projected edges. *)
Lemma polygon_edges_project (poly : list Vector3) :
  polygon_edges (map project_xz poly)
  = map (fun e => (project_xz (fst e), project_xz (snd e))) (cyclic_edges poly).
Proof.
  unfold polygon_edges, cyclic_edges.
  change (0%float, 0%float) with (project_xz THREE.origin).
  rewrite last_map. apply (combine_map_both project_xz poly (_ :: poly)).
Qed.

Lemma edge_crossed_ray (point pi pj : Vector3) :
  edge_crossed point pi pj
  = ray_crosses_edge (project_xz point) (project_xz pi) (project_xz pj).
Proof.
  unfold edge_crossed, ray_crosses_edge, project_xz. cbn [fst snd].
  destruct (_ <? THREE.z pi)%float; destruct (_ <? THREE.z pj)%float; reflexivity.
Qed.

Lemma isPointInPolygon_is_ray_casting (point : Vector3) (poly : list Vector3) :
  Utils.isPointInPolygon point poly
  = ray_casting_parity_spec (project_xz point) (map project_xz poly).
Proof.
  rewrite isPointInPolygon_parity. unfold ray_casting_parity_spec, crossings.
  rewrite length_map.
  destruct (Nat.ltb_spec (List.length poly) 3) as [Hlt|Hge].
  - destruct (Nat.leb_spec 3 (List.length poly)); [lia | reflexivity].
  - destruct (Nat.leb_spec 3 (List.length poly)); [|lia].
    cbn [andb]. rewrite polygon_edges_project, filter_map_length. cbn [fst snd].
    rewrite <- parity_odd_count. f_equal.
    apply map_ext. intros e. apply edge_crossed_ray.
Qed.

(** C8: [isPointInPolygon] is a ray-casting parity test on the (x, z)
    projection only.  For every point and polygon its answer is that of
    the test of the specification on their projections: the polygon has
    three or more vertices and the ray from the projected point crosses
    an odd number of the projected edges.  So two points that agree in x
    and z and differ in y get the same answer for every polygon, and the
    heights of the vertices do not matter either; the answer is false for
    every polygon of fewer than three points; and for the unit square of
    the (x, z) plane, at any heights, (0.5, y, 0.5) is inside and
    (1.5, y, 0.5) is outside for every y. *)
Theorem isPointInPolygon_ray_casting_parity :
  (forall (point : Vector3) (poly : list Vector3),
     Utils.isPointInPolygon point poly
     = ray_casting_parity_spec (project_xz point) (map project_xz poly))
  /\ (forall (poly : list Vector3) (px pz y1 y2 : float),
        Utils.isPointInPolygon (pt px y1 pz) poly
        = Utils.isPointInPolygon (pt px y2 pz) poly)
  /\ (forall (p q : Vector3) (poly poly' : list Vector3),
        project_xz p = project_xz q ->
        map project_xz poly = map project_xz poly' ->
        Utils.isPointInPolygon p poly = Utils.isPointInPolygon q poly')
  /\ (forall (p : Vector3) (poly : list Vector3),
        (List.length poly < 3)%nat -> Utils.isPointInPolygon p poly = false)
  /\ (forall y y0 y1 y2 y3 : float,
        Utils.isPointInPolygon (pt 0.5 y 0.5) (unit_square y0 y1 y2 y3) = true
        /\ Utils.isPointInPolygon (pt 1.5 y 0.5) (unit_square y0 y1 y2 y3) = false).
Proof.
  split; [|split; [|split; [|split]]].
  - apply isPointInPolygon_is_ray_casting.
  - intros poly px pz y1 y2. apply isPointInPolygon_xz; reflexivity.
  - intros p q poly poly' Hp Hpoly.
    rewrite !isPointInPolygon_is_ray_casting, Hp, Hpoly. reflexivity.
  - intros p poly. apply isPointInPolygon_short.
  - intros y y0 y1 y2 y3. split; vm_compute; reflexivity.
Qed.

Lemma isPointInPolygon_ray_casting_parity_witness :
  ((List.length [pt 0 0 0; pt 1 0 1] < 3)%nat
   /\ Utils.isPointInPolygon (pt 0.5 0 0.5) [pt 0 0 0; pt 1 0 1] = false)
  /\ (project_xz (pt 0.5 7 0.5) = project_xz (pt 0.5 0 0.5)
      /\ map project_xz (unit_square 0 1 2 3) = map project_xz (unit_square 0 0 0 0)
      /\ Utils.isPointInPolygon (pt 0.5 7 0.5) (unit_square 0 1 2 3)
         = Utils.isPointInPolygon (pt 0.5 0 0.5) (unit_square 0 0 0 0)).
Proof.
  assert (H : (List.length [pt 0 0 0; pt 1 0 1] < 3)%nat) by (vm_compute; lia).
  assert (Hp : project_xz (pt 0.5 7 0.5) = project_xz (pt 0.5 0 0.5)) by reflexivity.
  assert (Hpoly : map project_xz (unit_square 0 1 2 3)
                  = map project_xz (unit_square 0 0 0 0)) by reflexivity.
  split.
  - split; [exact H|].
    exact (proj1 (proj2 (proj2 (proj2 isPointInPolygon_ray_casting_parity)))
             (pt 0.5 0 0.5) [pt 0 0 0; pt 1 0 1] H).
  - split; [exact Hp|]. split; [exact Hpoly|].
    exact (proj1 (proj2 (proj2 isPointInPolygon_ray_casting_parity))
             (pt 0.5 7 0.5) (pt 0.5 0 0.5) (unit_square 0 1 2 3) (unit_square 0 0 0 0)
             Hp Hpoly).
Defined.

(** Starting the polygon one vertex later does not change the answer. *)
Lemma isPointInPolygon_rotate_one (point a : Vector3) (t : list Vector3) :
  Utils.isPointInPolygon point (t ++ [a]) = Utils.isPointInPolygon point (a :: t).
Proof.
  rewrite !isPointInPolygon_parity.
  replace (List.length (t ++ [a])) with (List.length (a :: t))
    by (rewrite length_app; cbn [List.length]; lia).
  destruct (List.length (a :: t) <? 3)%nat; [reflexivity|].
  unfold cyclic_edges, parity.
  rewrite last_last, combine_snoc. cbn [combine].
  rewrite map_app, fold_left_app. cbn [map fold_left fst snd].
  rewrite (fold_xorb_step _ false). reflexivity.
Qed.

(** X2: the answer of [isPointInPolygon] does not depend on the vertex the
    polygon is listed from: for every point, polygon and [k], the polygon
    read from its [k]-th vertex on and round gives the same answer. *)
Theorem isPointInPolygon_any_start (point : Vector3) (poly : list Vector3) (k : nat) :
  Utils.isPointInPolygon point (drop k poly ++ take k poly)
  = Utils.isPointInPolygon point poly.
Proof.
  induction k as [|k IH].
  { rewrite drop_0, take_0, app_nil_r. reflexivity. }
  destruct (poly !! k) as [x|] eqn:Hk.
  - rewrite (take_S_r poly k x Hk), app_assoc, isPointInPolygon_rotate_one.
    rewrite <- IH, (drop_S poly x k Hk). reflexivity.
  - apply lookup_ge_None in Hk.
    rewrite drop_ge, take_ge by lia. reflexivity.
Qed.

(** ** What the linker answers *)

Lemma short_not_inside (point : Vector3) (m : Measurement) :
  (List.length (points m) < 2)%nat -> inside_match point m = false.
Proof.
  intros H. unfold inside_match.
  destruct (Nat.leb_spec 3 (List.length (points m))) as [?|_]; [lia|].
  rewrite andb_false_r. reflexivity.
Qed.

Lemma getDistanceToMeasurementLines_short
    (helper : option (Vector3 -> Vector3 -> Vector3 -> float))
    (point : Vector3) (m : Measurement) :
  (List.length (points m) < 2)%nat ->
  AnnotationSystem.getDistanceToMeasurementLines_with helper point m = Normal infinity.
Proof.
  intros H. unfold AnnotationSystem.getDistanceToMeasurementLines_with.
  destruct (Nat.ltb_spec (List.length (points m)) 2) as [_|?]; [reflexivity | lia].
Qed.

(** The loop of the program as it is: it runs through the measurements of
    fewer than two points without effect, and ends at the first other one,
    with an inside link or with the exception. *)
Lemma findEnclosing_loop_without_helper (point : Vector3) (ms : list Measurement) :
  forall (i : nat) (bestMatch : option AnnotationSystem.Link) (bestDistance : float),
    (Forall (fun m => (List.length (points m) < 2)%nat) ms
     /\ AnnotationSystem.findEnclosing_loop Utils.distancePointToLine point ms i
          bestMatch bestDistance = Normal bestMatch)
    \/ (exists k m,
          ms !! k = Some m
          /\ (2 <= List.length (points m))%nat
          /\ (forall j m', (j < k)%nat -> ms !! j = Some m' ->
                (List.length (points m') < 2)%nat)
          /\ AnnotationSystem.findEnclosing_loop Utils.distancePointToLine point ms i
               bestMatch bestDistance
             = if inside_match point m
               then Normal (Some (AnnotationSystem.mkLink (i + k) AnnotationSystem.inside 0))
               else Throw (TypeError "Utils.distancePointToLine is not a function")).
Proof.
  induction ms as [|m rest IH]; intros i bestMatch bestDistance.
  { left. split; [constructor | reflexivity]. }
  destruct (Nat.ltb_spec (List.length (points m)) 2) as [Hshort|Hlong].
  - cbn [AnnotationSystem.findEnclosing_loop].
    pose proof (short_not_inside point m Hshort) as Hout.
    unfold inside_match in Hout. rewrite Hout.
    rewrite getDistanceToMeasurementLines_short by exact Hshort.
    change ((infinity <? 0.5)%float && (infinity <? bestDistance)%float) with false.
    cbv iota.
    destruct (IH (Datatypes.S i) bestMatch bestDistance)
      as [[Hall Hres] | (k & m' & Hk & Hlen & Hbefore & Hres)].
    + left. split; [constructor; assumption | exact Hres].
    + right. exists (Datatypes.S k), m'. split; [exact Hk|]. split; [exact Hlen|].
      split.
      * intros [|j] mj Hj Hmj.
        -- injection Hmj as <-. exact Hshort.
        -- apply (Hbefore j); [lia | exact Hmj].
      * rewrite Hres. replace (Datatypes.S i + k)%nat with (i + Datatypes.S k)%nat by lia.
        reflexivity.
  - right. exists 0%nat, m. split; [reflexivity|]. split; [exact Hlong|].
    split; [intros j m' Hj; lia|].
    cbn [AnnotationSystem.findEnclosing_loop]. rewrite Nat.add_0_r.
    destruct (inside_match point m) eqn:Hin; unfold inside_match in Hin; rewrite Hin;
      [reflexivity|].
    change (AnnotationSystem.getDistanceToMeasurementLines_with
              Utils.distancePointToLine point m)
      with (AnnotationSystem.getDistanceToMeasurementLines point m).
    rewrite getDistanceToMeasurementLines_throws by exact Hlong. reflexivity.
Qed.

(** X3: what [findEnclosingMeasurement] answers as the program is.  It
    returns null exactly when every measurement has fewer than two points;
    a link it returns is always an inside link with distance 0, to an
    inside match before which only measurements of fewer than two points
    come; it never returns a near-line link; and it throws exactly when
    the first measurement of two or more points is not an inside match. *)
Theorem findEnclosingMeasurement_without_helper (ms : list Measurement) (point : Vector3) :
  let result := AnnotationSystem.findEnclosingMeasurement (Some ms) point in
  (result = Normal None <-> Forall (fun m => (List.length (points m) < 2)%nat) ms)
  /\ (forall link,
        result = Normal (Some link) ->
        AnnotationSystem.relationship link = AnnotationSystem.inside
        /\ AnnotationSystem.distance link = 0%float
        /\ exists m,
             ms !! AnnotationSystem.measurement link = Some m
             /\ inside_match point m = true
             /\ forall j m', (j < AnnotationSystem.measurement link)%nat ->
                  ms !! j = Some m' -> (List.length (points m') < 2)%nat)
  /\ (forall e,
        result = Throw e ->
        exists k m,
          ms !! k = Some m
          /\ (2 <= List.length (points m))%nat
          /\ inside_match point m = false
          /\ forall j m', (j < k)%nat -> ms !! j = Some m' ->
               (List.length (points m') < 2)%nat).
Proof.
  cbv zeta.
  unfold AnnotationSystem.findEnclosingMeasurement,
    AnnotationSystem.findEnclosingMeasurement_with.
  destruct (findEnclosing_loop_without_helper point ms 0 None infinity)
    as [[Hall Hres] | (k & m & Hk & Hlen & Hbefore & Hres)]; rewrite Hres.
  - split; [split; [intros _; exact Hall | reflexivity]|].
    split; intros ? H; discriminate H.
  - split; [|split].
    + split.
      * intros H. destruct (inside_match point m); discriminate H.
      * intros Hall. rewrite Forall_lookup in Hall. specialize (Hall k m Hk).
        cbn beta in Hall. lia.
    + intros link H. destruct (inside_match point m) eqn:Hin; [|discriminate H].
      injection H as <-. cbn [AnnotationSystem.relationship AnnotationSystem.distance
                               AnnotationSystem.measurement Nat.add].
      split; [reflexivity|]. split; [reflexivity|].
      exists m. split; [exact Hk|]. split; [exact Hin | exact Hbefore].
    + intros e H. destruct (inside_match point m) eqn:Hin; [discriminate H|].
      exists k, m. repeat split; assumption.
Qed.

Lemma findEnclosingMeasurement_without_helper_witness :
  (Forall (fun m => (List.length (points m) < 2)%nat)
     [bare_measurement [pt 0 0 0] false false]
   /\ AnnotationSystem.findEnclosingMeasurement
        (Some [bare_measurement [pt 0 0 0] false false]) (pt 0.5 0 0.5) = Normal None)
  /\ (AnnotationSystem.findEnclosingMeasurement
        (Some [bare_measurement [pt 0 0 0] false false; closed_square; near_segment])
        (pt 0.5 0 0.5)
      = Normal (Some (AnnotationSystem.mkLink 1 AnnotationSystem.inside 0))
      /\ exists m,
           [bare_measurement [pt 0 0 0] false false; closed_square; near_segment] !! 1%nat
           = Some m
           /\ inside_match (pt 0.5 0 0.5) m = true).
Proof.
  split.
  - assert (H : Forall (fun m => (List.length (points m) < 2)%nat)
                  [bare_measurement [pt 0 0 0] false false])
      by (repeat constructor).
    split; [exact H|].
    exact (proj2 (proj1 (findEnclosingMeasurement_without_helper
                           [bare_measurement [pt 0 0 0] false false] (pt 0.5 0 0.5))) H).
  - assert (H : AnnotationSystem.findEnclosingMeasurement
                  (Some [bare_measurement [pt 0 0 0] false false; closed_square; near_segment])
                  (pt 0.5 0 0.5)
                = Normal (Some (AnnotationSystem.mkLink 1 AnnotationSystem.inside 0)))
      by (vm_compute; reflexivity).
    split; [exact H|].
    destruct (proj1 (proj2 (findEnclosingMeasurement_without_helper
                              [bare_measurement [pt 0 0 0] false false; closed_square;
                               near_segment] (pt 0.5 0 0.5))) _ H)
      as (_ & _ & m & Hm & Hin & _).
    exists m. split; assumption.
Defined.

(** The loop with a helper in place, started after the measurements [pre]
    with a best match found among them. *)
Lemma findEnclosing_loop_sound
    (d : Vector3 -> Vector3 -> Vector3 -> float) (point : Vector3)
    (ms : list Measurement) :
  forall (pre : list Measurement) (bestMatch : option AnnotationSystem.Link)
         (bestDistance : float) (link : AnnotationSystem.Link),
    Forall (fun m' => inside_match point m' = false) pre ->
    (forall l, bestMatch = Some l ->
       AnnotationSystem.relationship l = AnnotationSystem.near_line
       /\ exists m,
            pre !! AnnotationSystem.measurement l = Some m
            /\ AnnotationSystem.getDistanceToMeasurementLines_with (Some d) point m
               = Normal (AnnotationSystem.distance l)
            /\ (AnnotationSystem.distance l <? 0.5)%float = true
            /\ (2 <= List.length (points m))%nat) ->
    AnnotationSystem.findEnclosing_loop (Some d) point ms (List.length pre)
      bestMatch bestDistance = Normal (Some link) ->
    link_sound d point (pre ++ ms) link.
Proof.
  induction ms as [|m rest IH]; intros pre bestMatch bestDistance link Hpre Hbest Hres.
  - cbn [AnnotationSystem.findEnclosing_loop] in Hres. injection Hres as Hres.
    destruct (Hbest link Hres) as (Hrel & m & Hm & Hd & Hlt & Hlen).
    rewrite app_nil_r. exists m. split; [exact Hm|]. rewrite Hrel.
    repeat split; assumption.
  - cbn [AnnotationSystem.findEnclosing_loop] in Hres.
    destruct (inside_match point m) eqn:Hin.
    + unfold inside_match in Hin. rewrite Hin in Hres. injection Hres as <-.
      exists m. cbn [AnnotationSystem.relationship AnnotationSystem.distance
                     AnnotationSystem.measurement].
      split; [apply list_lookup_middle; reflexivity|].
      split; [reflexivity|]. split; [exact Hin|].
      intros j m' Hj Hm'. rewrite lookup_app_l in Hm' by exact Hj.
      rewrite Forall_lookup in Hpre. exact (Hpre j m' Hm').
    + assert (Hpre' : Forall (fun m' => inside_match point m' = false) (pre ++ [m])).
      { apply Forall_app. split; [exact Hpre|]. constructor; [exact Hin | constructor]. }
      pose proof Hin as Hin'. unfold inside_match in Hin'. rewrite Hin' in Hres.
      destruct (getDistanceToMeasurementLines_with_helper d point m) as [v Hv].
      rewrite Hv in Hres.
      replace (Datatypes.S (List.length pre)) with (List.length (pre ++ [m])) in Hres
        by (rewrite length_app; cbn [List.length]; lia).
      rewrite (app_assoc pre [m] rest : pre ++ m :: rest = (pre ++ [m]) ++ rest).
      destruct ((v <? 0.5)%float && (v <? bestDistance)%float) eqn:Htest.
      * apply (IH (pre ++ [m]) _ _ link Hpre') in Hres; [exact Hres|].
        intros l Hl. injection Hl as <-.
        cbn [AnnotationSystem.relationship AnnotationSystem.distance
             AnnotationSystem.measurement].
        split; [reflexivity|]. exists m.
        apply andb_true_iff in Htest as [Hlt _].
        split; [apply list_lookup_middle; reflexivity|].
        split; [exact Hv|]. split; [exact Hlt|].
        destruct (Nat.ltb_spec (List.length (points m)) 2) as [Hshort|Hlong]; [|exact Hlong].
        rewrite getDistanceToMeasurementLines_short in Hv by exact Hshort.
        injection Hv as <-. discriminate Hlt.
      * apply (IH (pre ++ [m]) _ _ link Hpre') in Hres; [exact Hres|].
        intros l Hl. destruct (Hbest l Hl) as (Hrel & m0 & Hm0 & Hd & Hlt & Hlen).
        split; [exact Hrel|]. exists m0.
        split; [apply lookup_app_l_Some; exact Hm0|].
        repeat split; assumption.
Qed.

(** X4: with a point-to-segment helper [d] in place of the missing one,
    every link [findEnclosingMeasurement] returns is sound: an inside link
    names the first inside match and has distance 0; a near-line link is
    returned only when no measurement is an inside match, names a
    measurement of two or more points, and carries its line distance,
    which is below 0.5. *)
Theorem findEnclosingMeasurement_link_sound
    (d : Vector3 -> Vector3 -> Vector3 -> float) (ms : list Measurement)
    (point : Vector3) (link : AnnotationSystem.Link) :
  AnnotationSystem.findEnclosingMeasurement_with (Some d) (Some ms) point
  = Normal (Some link) ->
  link_sound d point ms link.
Proof.
  intros H. unfold AnnotationSystem.findEnclosingMeasurement_with in H.
  apply (findEnclosing_loop_sound d point ms [] None infinity link);
    [constructor | intros l Hl; discriminate Hl | exact H].
Qed.

Lemma findEnclosingMeasurement_link_sound_witness :
  AnnotationSystem.findEnclosingMeasurement_with (Some distancePointToSegment)
    (Some [near_segment]) (pt 0.5 0 0.5)
  = Normal (Some (AnnotationSystem.mkLink 0 AnnotationSystem.near_line 0.25))
  /\ link_sound distancePointToSegment (pt 0.5 0 0.5) [near_segment]
       (AnnotationSystem.mkLink 0 AnnotationSystem.near_line 0.25).
Proof.
  assert (H : AnnotationSystem.findEnclosingMeasurement_with (Some distancePointToSegment)
                (Some [near_segment]) (pt 0.5 0 0.5)
              = Normal (Some (AnnotationSystem.mkLink 0 AnnotationSystem.near_line 0.25)))
    by (vm_compute; reflexivity).
  split; [exact H|].
  exact (findEnclosingMeasurement_link_sound distancePointToSegment [near_segment]
           (pt 0.5 0 0.5) _ H).
Defined.

(** ** The visuals built by [updateMeasurementVisuals] *)

Lemma draw_lines_fold (l : list nat) (m : Measurement) :
  fold_left (fun m' i => MeasurementSystem.createMeasurementLine m' (i - 1) i false) l m
  = set_labels
      (set_lines m (lines m ++ map (fun i => mkLine (i - 1) i false) l))
      (labels m ++ map (distance_label_of (points m)) l).
Proof.
  revert m. induction l as [|i l IH]; intros m.
  { cbn [fold_left map]. rewrite !app_nil_r. destruct m; reflexivity. }
  cbn [fold_left map]. rewrite IH.
  unfold MeasurementSystem.createMeasurementLine, MeasurementSystem.createDistanceLabel,
    set_labels, set_lines, distance_label_of, THREE.clone.
  cbn [negb measurementId points spheres lines labels color isClosed isLocked createdAt
       totalDistance area].
  rewrite <- !app_assoc. reflexivity.
Qed.

Ltac measurement_fields :=
  unfold set_points, set_spheres, set_lines, set_labels, set_isClosed,
    set_totalDistance, set_area;
  cbn [measurementId points spheres lines labels color isClosed isLocked createdAt
       totalDistance area].

Lemma createAreaLabel_visuals (m : Measurement) :
  lines (MeasurementSystem.createAreaLabel m) = lines m
  /\ labels (MeasurementSystem.createAreaLabel m)
     = labels m ++ (if negb (area m <=? 0)%float
                    then [AreaLabel (Utils.calculatePolygonCenter (points m)) (area m)]
                    else []).
Proof.
  unfold MeasurementSystem.createAreaLabel.
  destruct (area m <=? 0)%float; cbn [negb]; rewrite ?app_nil_r; split; reflexivity.
Qed.

(** The lines and labels after the drawing loop and the closing branch. *)
Lemma updateMeasurementVisuals_lines_labels (m : Measurement) :
  (2 <= List.length (points m))%nat ->
  lines (MeasurementSystem.updateMeasurementVisuals m)
  = expected_lines (List.length (points m)) (effectively_closed m)
  /\ labels (MeasurementSystem.updateMeasurementVisuals m)
     = expected_labels (points m) (effectively_closed m)
         (if effectively_closed m then Utils.calculatePolygonArea (points m) else area m).
Proof.
  intros Hlong. destruct m as [mid pts sph lns lbs col cl lk cr td ar].
  cbn [points] in Hlong.
  unfold MeasurementSystem.updateMeasurementVisuals, effectively_closed.
  cbn [MeasurementSystem.clearMeasurementLabels MeasurementSystem.clearMeasurementLines
       set_lines set_labels measurementId points spheres lines labels color isClosed
       isLocked createdAt totalDistance area].
  destruct (Nat.ltb_spec (List.length pts) 2) as [?|_]; [lia|].
  unfold for_loop. rewrite draw_lines_fold.
  unfold MeasurementSystem.clearMeasurementLabels, MeasurementSystem.clearMeasurementLines.
  cbn [set_lines set_labels measurementId points spheres lines labels color isClosed
       isLocked createdAt totalDistance area app].
  unfold expected_lines, expected_labels.
  destruct (cl && (3 <=? List.length pts)%nat).
  - unfold MeasurementSystem.updateMeasurementDistance.
    cbn [set_totalDistance lines labels].
    match goal with
    | |- context [MeasurementSystem.createAreaLabel ?m3] =>
        destruct (createAreaLabel_visuals m3) as [Hl Hb]
    end.
    rewrite Hl, Hb. split; reflexivity.
  - cbn [andb]. rewrite !app_nil_r. split; reflexivity.
Qed.

(** Whatever the measurement held before, after [updateMeasurementVisuals]
    its lines and labels are the expected ones. *)
Lemma updateMeasurementVisuals_visuals (m : Measurement) :
  visuals_ok (MeasurementSystem.updateMeasurementVisuals m).
Proof.
  destruct (updateMeasurementVisuals_keeps m) as (Hp & Hc & _).
  assert (Heff : effectively_closed (MeasurementSystem.updateMeasurementVisuals m)
                 = effectively_closed m)
    by (unfold effectively_closed; rewrite Hp, Hc; reflexivity).
  unfold visuals_ok. rewrite Heff, Hp.
  destruct (Nat.ltb_spec (List.length (points m)) 2) as [Hshort|Hlong].
  - rewrite updateMeasurementVisuals_short by exact Hshort.
    rewrite short_not_effectively_closed by lia.
    unfold expected_lines, expected_labels.
    replace (List.length (points m) - 1)%nat with 0%nat by lia.
    split; reflexivity.
  - destruct (updateMeasurementVisuals_lines_labels m Hlong) as [Hl Hb].
    split; [exact Hl|]. rewrite Hb.
    destruct (effectively_closed m) eqn:E.
    + rewrite updateMeasurementVisuals_area by exact E. reflexivity.
    + rewrite updateMeasurementVisuals_area_kept by exact E. reflexivity.
Qed.

Lemma updateMeasurementVisuals_metrics (m : Measurement) :
  metrics_ok (MeasurementSystem.updateMeasurementVisuals m).
Proof.
  destruct (updateMeasurementVisuals_keeps m) as (Hp & Hc & _).
  assert (Heff : effectively_closed (MeasurementSystem.updateMeasurementVisuals m)
                 = effectively_closed m)
    by (unfold effectively_closed; rewrite Hp, Hc; reflexivity).
  unfold metrics_ok. rewrite Heff, Hp. split.
  - apply updateMeasurementVisuals_totalDistance.
  - apply updateMeasurementVisuals_area.
Qed.

Lemma updateMeasurementVisuals_spheres (m : Measurement) :
  spheres (MeasurementSystem.updateMeasurementVisuals m) = spheres m
  /\ measurementId (MeasurementSystem.updateMeasurementVisuals m) = measurementId m.
Proof.
  pose proof (updateMeasurementVisuals_data m) as D.
  destruct (List.length (points m) <? 2)%nat.
  - apply measurement_data_fields in D. destruct D as (Hid & _ & Hs & _). auto.
  - split.
    + apply (f_equal (fun t => snd (fst (fst (fst (fst (fst (fst t)))))))) in D. exact D.
    + apply (f_equal (fun t => fst (fst (fst (fst (fst (fst (fst (fst t))))))))) in D.
      exact D.
Qed.

(** So it puts any measurement whose spheres match its points, and that is
    not locked, in order. *)
Lemma updateMeasurementVisuals_ok (m : Measurement) :
  List.length (spheres m) = List.length (points m) ->
  isLocked m = false ->
  measurement_ok (MeasurementSystem.updateMeasurementVisuals m).
Proof.
  intros Hs Hl.
  destruct (updateMeasurementVisuals_keeps m) as (Hp & _ & Hlk).
  destruct (updateMeasurementVisuals_spheres m) as (Hsp & _).
  split; [rewrite Hsp, Hp; exact Hs|]. split; [rewrite Hlk; exact Hl|].
  split; [apply updateMeasurementVisuals_metrics | apply updateMeasurementVisuals_visuals].
Qed.

(** ** What the measurement system keeps between events *)

Lemma map_insert_same {A B : Type} (f : A -> B) (l : list A) (i : nat) (x y : A) :
  l !! i = Some y -> f x = f y -> map f (<[i := x]> l) = map f l.
Proof.
  revert i. induction l as [|a l IH]; intros i Hi Hf; [discriminate|].
  destruct i as [|i].
  - injection Hi as ->. cbn [map]. change (<[0%nat := x]> (y :: l)) with (x :: l).
    cbn [map]. rewrite Hf. reflexivity.
  - change (<[Datatypes.S i := x]> (a :: l)) with (a :: <[i := x]> l).
    cbn [map]. f_equal. apply IH; assumption.
Qed.

Lemma StronglySorted_delete {A : Type} (R : A -> A -> Prop) (l : list A) (i : nat) :
  StronglySorted R l -> StronglySorted R (delete i l).
Proof.
  revert i. induction l as [|a l IH]; intros i H; [exact H|].
  apply StronglySorted_inv in H as [Hl Ha].
  destruct i as [|i]; [exact Hl|].
  cbn. constructor; [apply IH, Hl | apply Forall_delete, Ha].
Qed.

Lemma StronglySorted_snoc (l : list Z) (c : Z) :
  StronglySorted Z.lt l -> Forall (fun v => (v < c)%Z) l -> StronglySorted Z.lt (l ++ [c]).
Proof.
  induction l as [|a l IH]; intros Hs Hlt; cbn.
  - constructor; constructor.
  - apply StronglySorted_inv in Hs as [Hl Ha].
    apply Forall_cons in Hlt as [Hac Hlt].
    constructor; [apply IH; assumption|].
    apply Forall_app. split; [exact Ha|]. constructor; [exact Hac | constructor].
Qed.

Lemma on_measurement_this (w : MeasurementSystem.World) (mi : nat)
    (method : Measurement -> Measurement * list ConsoleEntry) :
  MeasurementSystem.this (MeasurementSystem.on_measurement w mi method)
  = match MeasurementSystem.measurements (MeasurementSystem.this w) !! mi with
    | Some m =>
        MeasurementSystem.set_measurements (MeasurementSystem.this w)
          (<[mi := fst (method m)]> (MeasurementSystem.measurements (MeasurementSystem.this w)))
    | None => MeasurementSystem.this w
    end.
Proof.
  unfold MeasurementSystem.on_measurement.
  destruct (MeasurementSystem.measurements (MeasurementSystem.this w) !! mi); [|reflexivity].
  destruct (method m). reflexivity.
Qed.

(** Two calls in a row on the same measurement object act as one. *)
Lemma on_measurement_twice (w : MeasurementSystem.World) (mi : nat)
    (f g : Measurement -> Measurement * list ConsoleEntry) :
  MeasurementSystem.this
    (MeasurementSystem.on_measurement (MeasurementSystem.on_measurement w mi f) mi g)
  = MeasurementSystem.this
      (MeasurementSystem.on_measurement w mi (fun m => (fst (g (fst (f m))), []))).
Proof.
  rewrite !on_measurement_this.
  destruct (MeasurementSystem.measurements (MeasurementSystem.this w) !! mi) as [m|] eqn:Hm;
    [|rewrite Hm; reflexivity].
  cbn [MeasurementSystem.measurements MeasurementSystem.set_measurements fst].
  rewrite list_lookup_insert_eq by (eapply lookup_lt_Some, Hm).
  cbn [MeasurementSystem.measurements MeasurementSystem.set_measurements].
  rewrite list_insert_insert_eq. reflexivity.
Qed.

Lemma store_ok_on_measurement (w : MeasurementSystem.World) (mi : nat)
    (method : Measurement -> Measurement * list ConsoleEntry) :
  store_ok (MeasurementSystem.this w) ->
  (forall m, measurement_ok m ->
     measurementId (fst (method m)) = measurementId m
     /\ measurement_ok (fst (method m))) ->
  store_ok (MeasurementSystem.this (MeasurementSystem.on_measurement w mi method)).
Proof.
  intros Hstore Hmethod.
  rewrite on_measurement_this.
  destruct (MeasurementSystem.measurements (MeasurementSystem.this w) !! mi) as [m|] eqn:Hm;
    [|exact Hstore].
  destruct Hstore as (Hidx & Hcnt & Hsorted & Hids & Hok & Hidle).
  destruct (Hmethod m (Forall_lookup_1 _ _ _ _ Hok Hm)) as [Hid Hm'].
  unfold store_ok.
  cbn [MeasurementSystem.measurements MeasurementSystem.set_measurements
       MeasurementSystem.currentMeasurementIndex MeasurementSystem.measurementIdCounter
       MeasurementSystem.isEditing MeasurementSystem.editingPointIndex
       MeasurementSystem.editingMeasurementIndex].
  rewrite length_insert, (map_insert_same measurementId _ mi _ m Hm Hid).
  split; [exact Hidx|]. split; [exact Hcnt|]. split; [exact Hsorted|].
  split; [|split; [apply Forall_insert; assumption | exact Hidle]].
  apply Forall_insert; [exact Hids|]. rewrite Hid.
  exact (Forall_lookup_1 _ _ _ _ Hids Hm).
Qed.

(** The four ways a handler changes a measurement keep it in order. *)
Lemma add_then_update_ok (p : Vector3) (m : Measurement) :
  measurement_ok m ->
  measurementId (MeasurementSystem.updateMeasurementVisuals
                   (fst (MeasurementSystem.addPointToMeasurement m p))) = measurementId m
  /\ measurement_ok (MeasurementSystem.updateMeasurementVisuals
                       (fst (MeasurementSystem.addPointToMeasurement m p))).
Proof.
  intros (Hs & Hl & _). unfold MeasurementSystem.addPointToMeasurement. rewrite Hl.
  cbn [fst].
  match goal with |- context [MeasurementSystem.updateMeasurementVisuals ?x] =>
    set (m1 := x) end.
  split.
  - rewrite (proj2 (updateMeasurementVisuals_spheres m1)). reflexivity.
  - apply updateMeasurementVisuals_ok; [|exact Hl].
    subst m1. cbn [spheres points set_spheres set_points].
    rewrite !length_app, Hs. reflexivity.
Qed.

Lemma delete_ok (pointIndex : Z) (m : Measurement) :
  measurement_ok m ->
  measurementId (fst (MeasurementSystem.deletePointFromMeasurement m pointIndex))
  = measurementId m
  /\ measurement_ok (fst (MeasurementSystem.deletePointFromMeasurement m pointIndex)).
Proof.
  intros Hok. pose proof Hok as (Hs & Hl & _).
  unfold MeasurementSystem.deletePointFromMeasurement. rewrite Hl.
  destruct ((pointIndex <? 0)%Z
            || (pointIndex >=? Z.of_nat (List.length (points m)))%Z) eqn:Hrange.
  { split; [reflexivity | exact Hok]. }
  apply orb_false_iff in Hrange as [Hlo Hhi].
  apply Z.ltb_ge in Hlo. rewrite Z.geb_leb in Hhi. apply Z.leb_gt in Hhi.
  cbn [fst].
  match goal with |- context [MeasurementSystem.updateMeasurementVisuals ?x] =>
    set (m1 := x) end.
  assert (Hm1 : List.length (spheres m1) = List.length (points m1)
                /\ isLocked m1 = false /\ measurementId m1 = measurementId m).
  { subst m1. cbn [spheres points set_points].
    destruct (spheres m !! Z.to_nat pointIndex) as [sp|] eqn:Hsp.
    - cbn [spheres points set_spheres set_points isLocked measurementId].
      rewrite !length_delete, Hs; [auto | | ].
      + apply lookup_lt_is_Some_2. lia.
      + eexists. exact Hsp.
    - apply lookup_ge_None in Hsp. lia. }
  destruct Hm1 as (Hs1 & Hl1 & Hid1).
  split.
  - rewrite (proj2 (updateMeasurementVisuals_spheres m1)). exact Hid1.
  - apply updateMeasurementVisuals_ok; assumption.
Qed.

Lemma move_ok (pointIndex : nat) (p : Vector3) (m : Measurement) :
  measurement_ok m ->
  measurementId (MeasurementSystem.updateMeasurementVisuals
                   (set_points m (<[pointIndex := p]> (points m)))) = measurementId m
  /\ measurement_ok (MeasurementSystem.updateMeasurementVisuals
                       (set_points m (<[pointIndex := p]> (points m)))).
Proof.
  intros (Hs & Hl & _). split.
  - rewrite (proj2 (updateMeasurementVisuals_spheres _)). reflexivity.
  - apply updateMeasurementVisuals_ok; [|exact Hl].
    cbn [spheres points set_points]. rewrite length_insert. exact Hs.
Qed.

Lemma close_ok (m : Measurement) :
  measurement_ok m ->
  measurementId (MeasurementSystem.updateMeasurementVisuals (set_isClosed m true))
  = measurementId m
  /\ measurement_ok (MeasurementSystem.updateMeasurementVisuals (set_isClosed m true)).
Proof.
  intros (Hs & Hl & _). split.
  - rewrite (proj2 (updateMeasurementVisuals_spheres _)). reflexivity.
  - apply updateMeasurementVisuals_ok; [exact Hs | exact Hl].
Qed.

Lemma getCurrentMeasurement_Some (s : MeasurementSystem.State) (mi : nat) (m : Measurement) :
  MeasurementSystem.getCurrentMeasurement s = Some (mi, m) ->
  MeasurementSystem.measurements s !! mi = Some m
  /\ MeasurementSystem.currentMeasurementIndex s = Z.of_nat mi.
Proof.
  unfold MeasurementSystem.getCurrentMeasurement.
  destruct (Z.leb_spec 0 (MeasurementSystem.currentMeasurementIndex s)) as [Hlo|?];
    [|discriminate].
  destruct (_ <? _)%Z; [|discriminate]. cbn [andb].
  destruct (MeasurementSystem.measurements s
              !! Z.to_nat (MeasurementSystem.currentMeasurementIndex s)) as [m0|] eqn:Hm;
    [|discriminate].
  intros H. injection H as <- <-. split; [exact Hm | lia].
Qed.

Lemma empty_measurement_ok (mid col now : Z) :
  measurement_ok (mkMeasurement mid [] [] [] [] col false false now 0 0).
Proof.
  split; [reflexivity|]. split; [reflexivity|]. split.
  - split; [cbn; lia | intros H; discriminate H].
  - split; reflexivity.
Qed.

Lemma createNewMeasurement_store_ok (w : MeasurementSystem.World) (now : Z) :
  store_ok (MeasurementSystem.this w) ->
  store_ok (MeasurementSystem.this (fst (MeasurementSystem.createNewMeasurement w now))).
Proof.
  intros (Hidx & Hcnt & Hsorted & Hids & Hok & Hidle).
  unfold MeasurementSystem.createNewMeasurement, store_ok.
  cbn [fst MeasurementSystem.this MeasurementSystem.print MeasurementSystem.set_this
       MeasurementSystem.measurements MeasurementSystem.set_measurements
       MeasurementSystem.set_measurementIdCounter
       MeasurementSystem.set_currentMeasurementIndex
       MeasurementSystem.currentMeasurementIndex MeasurementSystem.measurementIdCounter
       MeasurementSystem.isEditing MeasurementSystem.editingPointIndex
       MeasurementSystem.editingMeasurementIndex].
  rewrite length_app, map_app. cbn [List.length map measurementId].
  split; [lia|]. split; [lia|]. split.
  { apply StronglySorted_snoc; [exact Hsorted|].
    apply Forall_map. eapply Forall_impl; [exact Hids|]. cbn beta. intros m Hm. lia. }
  split.
  { apply Forall_app. split.
    - eapply Forall_impl; [exact Hids|]. cbn beta. intros m Hm. lia.
    - constructor; [cbn [measurementId]; lia | constructor]. }
  split; [|exact Hidle].
  apply Forall_app. split; [exact Hok|].
  constructor; [apply empty_measurement_ok | constructor].
Qed.

Lemma createNewMeasurement_frame_state (w : MeasurementSystem.World) (now : Z) :
  MeasurementSystem.isEditing
    (MeasurementSystem.this (fst (MeasurementSystem.createNewMeasurement w now)))
  = MeasurementSystem.isEditing (MeasurementSystem.this w).
Proof. reflexivity. Qed.

Lemma clearCurrent_store_ok (w : MeasurementSystem.World) :
  store_ok (MeasurementSystem.this w) ->
  store_ok (MeasurementSystem.this (MeasurementSystem.clearCurrent w)).
Proof.
  intros Hstore. unfold MeasurementSystem.clearCurrent.
  destruct (MeasurementSystem.getCurrentMeasurement (MeasurementSystem.this w))
    as [[mi m]|] eqn:Hcur; [|exact Hstore].
  destruct (isLocked m); [exact Hstore|]. cbn [negb].
  unfold MeasurementSystem.clearMeasurement.
  destruct (isLocked m); [exact Hstore|].
  apply getCurrentMeasurement_Some in Hcur as [Hm Hidx'].
  destruct Hstore as (Hidx & Hcnt & Hsorted & Hids & Hok & Hidle).
  pose proof (lookup_lt_Some _ _ _ Hm) as Hlt.
  cbn [MeasurementSystem.this MeasurementSystem.print MeasurementSystem.set_this
       MeasurementSystem.measurements MeasurementSystem.set_measurements
       MeasurementSystem.currentMeasurementIndex].
  destruct (Z.geb_spec (MeasurementSystem.currentMeasurementIndex (MeasurementSystem.this w))
              (Z.of_nat mi)) as [_|?]; [|lia].
  unfold store_ok.
  cbn [MeasurementSystem.measurements MeasurementSystem.set_measurements
       MeasurementSystem.set_currentMeasurementIndex
       MeasurementSystem.currentMeasurementIndex MeasurementSystem.measurementIdCounter
       MeasurementSystem.isEditing MeasurementSystem.editingPointIndex
       MeasurementSystem.editingMeasurementIndex].
  rewrite length_delete by (eexists; exact Hm).
  split; [lia|]. split; [exact Hcnt|]. split.
  { replace (map measurementId (delete mi _))
      with (delete mi (map measurementId
                         (MeasurementSystem.measurements (MeasurementSystem.this w)))).
    - apply StronglySorted_delete, Hsorted.
    - clear. revert mi.
      induction (MeasurementSystem.measurements (MeasurementSystem.this w)) as [|a l IH];
        intros [|mi]; try reflexivity.
      cbn [map]. change (delete (Datatypes.S mi) (measurementId a :: map measurementId l))
        with (measurementId a :: delete mi (map measurementId l)).
      change (delete (Datatypes.S mi) (a :: l)) with (a :: delete mi l).
      cbn [map]. f_equal. apply IH. }
  split; [apply Forall_delete, Hids|]. split; [apply Forall_delete, Hok | exact Hidle].
Qed.

Lemma handleClick_store_ok (w : MeasurementSystem.World) (e : MeasurementSystem.MouseEvent) :
  store_ok (MeasurementSystem.this w) ->
  store_ok (MeasurementSystem.this (MeasurementSystem.handleClick w e)).
Proof.
  intros Hstore. unfold MeasurementSystem.handleClick.
  destruct (MeasurementSystem.isEditing (MeasurementSystem.this w)); [exact Hstore|].
  destruct (MeasurementSystem.shiftKey e).
  { unfold MeasurementSystem.handleDeletePoint.
    repeat case_match; try exact Hstore.
    apply store_ok_on_measurement; [exact Hstore|]. intros m0. apply delete_ok. }
  destruct (MeasurementSystem.getIntersectionPoint e) as [p|]; [|exact Hstore].
  destruct (MeasurementSystem.getCurrentMeasurement (MeasurementSystem.this w))
    as [[mi m]|].
  - rewrite on_measurement_twice.
    apply store_ok_on_measurement; [exact Hstore|]. intros m0. apply add_then_update_ok.
  - pose proof (createNewMeasurement_store_ok w (MeasurementSystem.timeStamp e) Hstore)
      as Hnew.
    destruct (MeasurementSystem.createNewMeasurement w (MeasurementSystem.timeStamp e))
      as [w1 mi].
    rewrite on_measurement_twice.
    apply store_ok_on_measurement; [exact Hnew|]. intros m0. apply add_then_update_ok.
Qed.

Lemma editing_change_store_ok (s : MeasurementSystem.State) (editing : bool) (pi mi : Z) :
  store_ok s ->
  (editing = false -> pi = (-1)%Z /\ mi = (-1)%Z) ->
  store_ok (MeasurementSystem.set_editing s editing pi mi).
Proof.
  intros (Hidx & Hcnt & Hsorted & Hids & Hok & _) Hidle.
  repeat split; try assumption; try (apply Hidx); apply Hidle; assumption.
Qed.

Lemma startEditing_this (w : MeasurementSystem.World) (mi : nat) (pointIndex : Z) :
  MeasurementSystem.this (MeasurementSystem.startEditing w mi pointIndex)
  = MeasurementSystem.set_editing (MeasurementSystem.this w) true pointIndex (Z.of_nat mi).
Proof.
  unfold MeasurementSystem.startEditing, MeasurementSystem.controls_setEnabled.
  destruct w as [s [c|] out]; reflexivity.
Qed.

Lemma stopEditing_this (w : MeasurementSystem.World) :
  MeasurementSystem.this (MeasurementSystem.stopEditing w)
  = MeasurementSystem.set_editing (MeasurementSystem.this w) false (-1) (-1).
Proof.
  unfold MeasurementSystem.stopEditing, MeasurementSystem.controls_setEnabled.
  destruct w as [s [c|] out]; reflexivity.
Qed.

(** Every listener and every call keeps the store in order. *)
Lemma step_store_ok (w : MeasurementSystem.World) (ev : MeasurementSystem.Event) :
  store_ok (MeasurementSystem.this w) ->
  store_ok (MeasurementSystem.this (MeasurementSystem.step w ev)).
Proof.
  intros Hstore.
  destruct ev as [e|e|e|e| | | |now|index| |]; cbn [MeasurementSystem.step].
  - destruct (MeasurementSystem.active (MeasurementSystem.this w)); [|exact Hstore].
    apply handleClick_store_ok, Hstore.
  - destruct (MeasurementSystem.active (MeasurementSystem.this w)
              && MeasurementSystem.ctrlKey e); [|exact Hstore].
    unfold MeasurementSystem.handleMouseDown.
    repeat case_match; try exact Hstore.
    rewrite startEditing_this.
    apply editing_change_store_ok; [exact Hstore | discriminate].
  - destruct (MeasurementSystem.active (MeasurementSystem.this w)
              && MeasurementSystem.isEditing (MeasurementSystem.this w)); [|exact Hstore].
    destruct (MeasurementSystem.handleMouseMove w e) as [w'|err] eqn:Hmove;
      [|exact Hstore].
    unfold MeasurementSystem.handleMouseMove in Hmove.
    repeat case_match; try discriminate; injection Hmove as <-; try exact Hstore.
    apply store_ok_on_measurement; [exact Hstore|]. intros m0. apply move_ok.
  - destruct (MeasurementSystem.active (MeasurementSystem.this w)
              && MeasurementSystem.isEditing (MeasurementSystem.this w)); [|exact Hstore].
    unfold MeasurementSystem.handleMouseUp.
    destruct (MeasurementSystem.isEditing (MeasurementSystem.this w)); [|exact Hstore].
    rewrite stopEditing_this. apply editing_change_store_ok; [exact Hstore | auto].
  - exact Hstore.
  - unfold MeasurementSystem.deactivate.
    cbn [MeasurementSystem.this MeasurementSystem.print].
    rewrite stopEditing_this. apply editing_change_store_ok; [exact Hstore | auto].
  - unfold MeasurementSystem.closeMeasurement.
    repeat case_match; try exact Hstore.
    apply store_ok_on_measurement; [exact Hstore|]. intros m0. apply close_ok.
  - apply createNewMeasurement_store_ok, Hstore.
  - unfold MeasurementSystem.switchToMeasurement.
    destruct (Z.leb_spec 0 index) as [Hlo|?]; [|exact Hstore].
    destruct (Z.ltb_spec index
                (Z.of_nat (List.length
                             (MeasurementSystem.measurements (MeasurementSystem.this w)))))
      as [Hhi|?]; [|exact Hstore].
    destruct Hstore as (Hidx & Hrest).
    split; [cbn; lia | exact Hrest].
  - exact Hstore.
  - apply clearCurrent_store_ok, Hstore.
Qed.

Lemma run_store_ok (evs : list MeasurementSystem.Event) (w : MeasurementSystem.World) :
  store_ok (MeasurementSystem.this w) ->
  store_ok (MeasurementSystem.this (MeasurementSystem.run evs w)).
Proof.
  unfold MeasurementSystem.run. revert w.
  induction evs as [|ev evs IH]; intros w Hstore; [exact Hstore|].
  cbn [fold_left]. apply IH, step_store_ok, Hstore.
Qed.

Lemma initial_store_ok (c : option ControlsManager.t) :
  store_ok (MeasurementSystem.this (MeasurementSystem.initial c)).
Proof.
  split; [cbn; lia|]. split; [cbn; lia|]. split; [constructor|].
  split; [constructor|]. split; [constructor|]. intros _. split; reflexivity.
Qed.

Lemma sorted_ids_lookup (l : list Measurement) (i j : nat) (a b : Measurement) :
  StronglySorted Z.lt (map measurementId l) ->
  (i < j)%nat -> l !! i = Some a -> l !! j = Some b ->
  (measurementId a < measurementId b)%Z.
Proof.
  revert i j. induction l as [|x l IH]; intros i j Hs Hij Ha Hb; [discriminate|].
  cbn [map] in Hs. apply StronglySorted_inv in Hs as [Hl Hx].
  destruct j as [|j]; [lia|]. cbn in Hb.
  destruct i as [|i].
  - injection Ha as <-. rewrite Forall_map in Hx.
    exact (Forall_lookup_1 _ _ _ _ Hx Hb).
  - cbn in Ha. apply (IH i j Hl); [lia | exact Ha | exact Hb].
Qed.

(** X5: whatever events arrive after start-up, [currentMeasurementIndex]
    is -1 or a position of [measurements]; [getCurrentMeasurement] returns
    null exactly when it is -1, and otherwise the measurement at that
    position. *)
Theorem current_measurement_index_valid
    (c : option ControlsManager.t) (evs : list MeasurementSystem.Event) :
  let s := MeasurementSystem.this (MeasurementSystem.run evs (MeasurementSystem.initial c)) in
  (-1 <= MeasurementSystem.currentMeasurementIndex s
   < Z.of_nat (List.length (MeasurementSystem.measurements s)))%Z
  /\ (MeasurementSystem.getCurrentMeasurement s = None
      <-> MeasurementSystem.currentMeasurementIndex s = (-1)%Z)
  /\ (MeasurementSystem.currentMeasurementIndex s <> (-1)%Z ->
      exists m,
        MeasurementSystem.measurements s
          !! Z.to_nat (MeasurementSystem.currentMeasurementIndex s) = Some m
        /\ MeasurementSystem.getCurrentMeasurement s
           = Some (Z.to_nat (MeasurementSystem.currentMeasurementIndex s), m)).
Proof.
  cbv zeta. set (s := MeasurementSystem.this _).
  assert (Hstore : store_ok s) by apply run_store_ok, initial_store_ok.
  destruct Hstore as (Hidx & _).
  assert (Hget : MeasurementSystem.currentMeasurementIndex s <> (-1)%Z ->
            exists m,
              MeasurementSystem.measurements s
                !! Z.to_nat (MeasurementSystem.currentMeasurementIndex s) = Some m
              /\ MeasurementSystem.getCurrentMeasurement s
                 = Some (Z.to_nat (MeasurementSystem.currentMeasurementIndex s), m)).
  { intros Hne. unfold MeasurementSystem.getCurrentMeasurement.
    destruct (Z.leb_spec 0 (MeasurementSystem.currentMeasurementIndex s)); [|lia].
    destruct (Z.ltb_spec (MeasurementSystem.currentMeasurementIndex s)
                (Z.of_nat (List.length (MeasurementSystem.measurements s)))); [|lia].
    destruct (lookup_lt_is_Some_2 (MeasurementSystem.measurements s)
                (Z.to_nat (MeasurementSystem.currentMeasurementIndex s))) as [m Hm]; [lia|].
    exists m. rewrite Hm. split; reflexivity. }
  split; [exact Hidx|]. split; [|exact Hget].
  split.
  - intros Hnone.
    destruct (Z.eq_dec (MeasurementSystem.currentMeasurementIndex s) (-1)%Z) as [E|Hne];
      [exact E|].
    destruct (Hget Hne) as (m & _ & Hsome). rewrite Hsome in Hnone. discriminate.
  - intros E. unfold MeasurementSystem.getCurrentMeasurement. rewrite E. reflexivity.
Qed.

Lemma current_measurement_index_valid_witness :
  let s := MeasurementSystem.this
             (MeasurementSystem.run triangle_events
                (MeasurementSystem.initial (Some (registered_controls true)))) in
  MeasurementSystem.currentMeasurementIndex s <> (-1)%Z
  /\ exists m,
       MeasurementSystem.measurements s
         !! Z.to_nat (MeasurementSystem.currentMeasurementIndex s) = Some m
       /\ MeasurementSystem.getCurrentMeasurement s
          = Some (Z.to_nat (MeasurementSystem.currentMeasurementIndex s), m).
Proof.
  intros s.
  assert (H : MeasurementSystem.currentMeasurementIndex s <> (-1)%Z)
    by (vm_compute; discriminate).
  split; [exact H|].
  exact (proj2 (proj2 (current_measurement_index_valid
                         (Some (registered_controls true)) triangle_events)) H).
Defined.

(** X6: measurement ids are assigned once and in order: whatever events
    arrive after start-up, the ids along [measurements] are positive,
    strictly increasing (so no two measurements share one) and below
    [measurementIdCounter]. *)
Theorem measurement_ids_increase
    (c : option ControlsManager.t) (evs : list MeasurementSystem.Event) :
  let s := MeasurementSystem.this (MeasurementSystem.run evs (MeasurementSystem.initial c)) in
  (forall i j a b,
     (i < j)%nat ->
     MeasurementSystem.measurements s !! i = Some a ->
     MeasurementSystem.measurements s !! j = Some b ->
     (measurementId a < measurementId b)%Z)
  /\ Forall (fun m => (0 < measurementId m < MeasurementSystem.measurementIdCounter s)%Z)
       (MeasurementSystem.measurements s).
Proof.
  cbv zeta. set (s := MeasurementSystem.this _).
  assert (Hstore : store_ok s) by apply run_store_ok, initial_store_ok.
  destruct Hstore as (_ & _ & Hsorted & Hids & _).
  split; [|exact Hids].
  intros i j a b Hij Ha Hb. exact (sorted_ids_lookup _ i j a b Hsorted Hij Ha Hb).
Qed.

(** X7: nothing locks a measurement: whatever events arrive after
    start-up, [isLocked] is false on every measurement. *)
Theorem measurements_never_locked
    (c : option ControlsManager.t) (evs : list MeasurementSystem.Event) :
  Forall (fun m => isLocked m = false)
    (MeasurementSystem.measurements
       (MeasurementSystem.this (MeasurementSystem.run evs (MeasurementSystem.initial c)))).
Proof.
  set (s := MeasurementSystem.this _).
  assert (Hstore : store_ok s) by apply run_store_ok, initial_store_ok.
  destruct Hstore as (_ & _ & _ & _ & Hok & _).
  eapply Forall_impl; [exact Hok|]. intros m (_ & Hl & _). exact Hl.
Qed.



(** X8: between events the stored metrics of every measurement of two or
    more points are those of its current points: [totalDistance] is the
    sum of the segment lengths, with the closing segment when the
    measurement is closed and has three or more points, and then [area] is
    the polygon area of the points. *)
Theorem stored_metrics_current
    (c : option ControlsManager.t) (evs : list MeasurementSystem.Event) :
  Forall
    (fun m =>
       ((2 <= List.length (points m))%nat ->
        totalDistance m = perimeter_spec (points m) (effectively_closed m))
       /\ (effectively_closed m = true ->
           area m = Utils.calculatePolygonArea (points m)))
    (MeasurementSystem.measurements
       (MeasurementSystem.this (MeasurementSystem.run evs (MeasurementSystem.initial c)))).
Proof.
  set (s := MeasurementSystem.this _).
  assert (Hstore : store_ok s) by apply run_store_ok, initial_store_ok.
  destruct Hstore as (_ & _ & _ & _ & Hok & _).
  eapply Forall_impl; [exact Hok|]. intros m (_ & _ & Hmetrics & _). exact Hmetrics.
Qed.

(** X9: between events the visuals of every measurement match its points:
    as many spheres as points, one line per pair of neighbouring points
    plus the closing line of a closed polygon, one distance label per open
    segment at its midpoint, and the area label of a closed polygon whose
    area is not 0 or below. *)
Theorem visuals_match_points
    (c : option ControlsManager.t) (evs : list MeasurementSystem.Event) :
  Forall
    (fun m =>
       List.length (spheres m) = List.length (points m)
       /\ lines m = expected_lines (List.length (points m)) (effectively_closed m)
       /\ labels m = expected_labels (points m) (effectively_closed m) (area m))
    (MeasurementSystem.measurements
       (MeasurementSystem.this (MeasurementSystem.run evs (MeasurementSystem.initial c)))).
Proof.
  set (s := MeasurementSystem.this _).
  assert (Hstore : store_ok s) by apply run_store_ok, initial_store_ok.
  destruct Hstore as (_ & _ & _ & _ & Hok & _).
  eapply Forall_impl; [exact Hok|]. intros m (Hs & _ & _ & Hl & Hb). auto.
Qed.

Lemma measurement_ids_increase_witness :
  let s := MeasurementSystem.this
             (MeasurementSystem.run two_measurements_events
                (MeasurementSystem.initial (Some (registered_controls true)))) in
  exists a b,
    MeasurementSystem.measurements s !! 0%nat = Some a
    /\ MeasurementSystem.measurements s !! 1%nat = Some b
    /\ points a = [pt 0 0 0] /\ points b = [pt 1 0 0]
    /\ (measurementId a < measurementId b)%Z.
Proof.
  intros s.
  destruct (MeasurementSystem.measurements s !! 0%nat) as [a|] eqn:Ha;
    [|vm_compute in Ha; discriminate Ha].
  destruct (MeasurementSystem.measurements s !! 1%nat) as [b|] eqn:Hb;
    [|vm_compute in Hb; discriminate Hb].
  exists a, b. split; [reflexivity|]. split; [reflexivity|].
  split; [vm_compute in Ha; injection Ha as <-; reflexivity|].
  split; [vm_compute in Hb; injection Hb as <-; reflexivity|].
  exact (proj1 (measurement_ids_increase (Some (registered_controls true))
                  two_measurements_events) 0%nat 1%nat a b (Nat.lt_0_1) Ha Hb).
Defined.

Lemma stored_metrics_current_witness :
  let s := MeasurementSystem.this
             (MeasurementSystem.run triangle_events
                (MeasurementSystem.initial (Some (registered_controls true)))) in
  exists m,
    MeasurementSystem.measurements s !! 0%nat = Some m
    /\ points m = right_triangle
    /\ (2 <= List.length (points m))%nat
    /\ effectively_closed m = true
    /\ totalDistance m = perimeter_spec (points m) (effectively_closed m)
    /\ area m = Utils.calculatePolygonArea (points m).
Proof.
  intros s.
  destruct (MeasurementSystem.measurements s !! 0%nat) as [m|] eqn:Hm;
    [|vm_compute in Hm; discriminate Hm].
  pose proof (Forall_lookup_1 _ _ _ _
                (stored_metrics_current (Some (registered_controls true)) triangle_events)
                Hm) as [Hperimeter Harea].
  assert (Hpts : points m = right_triangle)
    by (vm_compute in Hm; injection Hm as <-; reflexivity).
  assert (Hlen : (2 <= List.length (points m))%nat) by (rewrite Hpts; cbn; lia).
  assert (Heff : effectively_closed m = true)
    by (vm_compute in Hm; injection Hm as <-; reflexivity).
  exists m. split; [reflexivity|]. split; [exact Hpts|]. split; [exact Hlen|].
  split; [exact Heff|]. split; [exact (Hperimeter Hlen) | exact (Harea Heff)].
Defined.

(** ** Finding and dragging a point *)

Lemma for_loop_invariant_range {S : Type} (P : S -> Prop) (lo hi : nat)
    (body : nat -> S -> S) (s : S) :
  (forall i s', (lo <= i < hi)%nat -> P s' -> P (body i s')) ->
  P s -> P (for_loop lo hi body s).
Proof.
  intros Hbody. unfold for_loop.
  assert (Hin : forall i, In i (seq lo (hi - lo)) -> (lo <= i < hi)%nat)
    by (intros i Hi; apply in_seq in Hi; lia).
  revert s Hin. generalize (seq lo (hi - lo)) as l.
  induction l as [|i l IH]; intros s Hin Hs; [exact Hs|].
  cbn [fold_left]. apply IH.
  - intros j Hj. apply Hin. right. exact Hj.
  - apply Hbody; [apply Hin; left; reflexivity | exact Hs].
Qed.

(** The two nested loops of [findClosestPoint] keep the candidate well
    formed. *)
Lemma findClosestPoint_wf (s : MeasurementSystem.State) (position : Vector3)
    (maxDistance : float) :
  closest_wf s position maxDistance
    (MeasurementSystem.findClosestPoint s position maxDistance).
Proof.
  unfold MeasurementSystem.findClosestPoint.
  apply (for_loop_invariant_range (closest_wf s position maxDistance)).
  - intros i acc Hi Hacc.
    destruct (MeasurementSystem.measurements s !! i) as [m|] eqn:Hm; [|exact Hacc].
    apply (for_loop_invariant_range (closest_wf s position maxDistance)); [|exact Hacc].
    intros j acc' Hj Hacc'.
    destruct (THREE.distanceTo position (points m !!! j)
              <? MeasurementSystem.closest_distance acc')%float; [|exact Hacc'].
    right. exists i, m, j, (points m !!! j).
    cbn [MeasurementSystem.closest_measurement MeasurementSystem.closest_pointIndex
         MeasurementSystem.closest_distance].
    repeat split; try assumption.
    apply list_lookup_lookup_total_lt. lia.
  - left. repeat split.
Qed.

(** X10: [findClosestPoint] never returns a measurement without a point
    index or the other way round: either it found nothing (measurement
    null, index -1, distance [maxDistance]), or the index is a position of
    the points of the measurement returned and the distance is the
    distance to that point. *)
Theorem findClosestPoint_well_formed (s : MeasurementSystem.State) (position : Vector3)
    (maxDistance : float) :
  closest_wf s position maxDistance
    (MeasurementSystem.findClosestPoint s position maxDistance).
Proof.
  apply findClosestPoint_wf.
Qed.

(** A Ctrl-press enters editing only through [startEditing], on a point
    that [findClosestPoint] found. *)
Lemma mousedown_enters_editing (w : MeasurementSystem.World)
    (e : MeasurementSystem.MouseEvent) :
  MeasurementSystem.isEditing (MeasurementSystem.this w) = false ->
  MeasurementSystem.isEditing
    (MeasurementSystem.this (MeasurementSystem.step w (MeasurementSystem.mousedown e)))
  = true ->
  exists mi pj m p0,
    MeasurementSystem.active (MeasurementSystem.this w) = true
    /\ MeasurementSystem.step w (MeasurementSystem.mousedown e)
       = MeasurementSystem.startEditing w mi (Z.of_nat pj)
    /\ MeasurementSystem.measurements (MeasurementSystem.this w) !! mi = Some m
    /\ points m !! pj = Some p0.
Proof.
  intros Hidle. cbn [MeasurementSystem.step].
  destruct (MeasurementSystem.active (MeasurementSystem.this w)) eqn:Hact;
    [|cbn [andb]; intros Hed; congruence].
  destruct (MeasurementSystem.ctrlKey e) eqn:Hctrl;
    [|cbn [andb]; intros Hed; congruence].
  cbn [andb]. unfold MeasurementSystem.handleMouseDown. rewrite Hctrl. cbn [negb].
  destruct (MeasurementSystem.getIntersectionPoint e) as [q|]; [|intros Hed; congruence].
  pose proof (findClosestPoint_wf (MeasurementSystem.this w) q
                MeasurementSystem.default_maxDistance) as Hwf.
  destruct (MeasurementSystem.findClosestPoint (MeasurementSystem.this w) q
              MeasurementSystem.default_maxDistance) as [found idx dist].
  cbn [MeasurementSystem.closest_measurement MeasurementSystem.closest_pointIndex].
  destruct Hwf as [(Hnone & _) | (mi & m & pj & p0 & Hsome & Hm & Hidx & Hp0 & _)];
    cbn [MeasurementSystem.closest_measurement MeasurementSystem.closest_pointIndex] in *.
  { subst found. intros Hed; congruence. }
  subst found idx.
  destruct (Z.eqb_spec (Z.of_nat pj) (-1)) as [?|_]; [lia|]. cbn [negb].
  intros _. exists mi, pj, m, p0. repeat split; assumption.
Qed.

(** X11: a Ctrl-press that enters editing has picked an existing point of
    an existing measurement, and the next mouse move over a surface point
    puts exactly that point there and leaves the other points alone;
    editing goes on. *)
Theorem press_then_move (w : MeasurementSystem.World)
    (e e' : MeasurementSystem.MouseEvent) (p : Vector3) :
  MeasurementSystem.isEditing (MeasurementSystem.this w) = false ->
  let w1 := MeasurementSystem.step w (MeasurementSystem.mousedown e) in
  let w2 := MeasurementSystem.step w1 (MeasurementSystem.mousemove e') in
  MeasurementSystem.isEditing (MeasurementSystem.this w1) = true ->
  MeasurementSystem.intersection e' = Some p ->
  exists mi pj m m',
    MeasurementSystem.editingMeasurementIndex (MeasurementSystem.this w1) = Z.of_nat mi
    /\ MeasurementSystem.editingPointIndex (MeasurementSystem.this w1) = Z.of_nat pj
    /\ MeasurementSystem.measurements (MeasurementSystem.this w) !! mi = Some m
    /\ (pj < List.length (points m))%nat
    /\ MeasurementSystem.measurements (MeasurementSystem.this w2) !! mi = Some m'
    /\ points m' = <[pj := p]> (points m)
    /\ MeasurementSystem.isEditing (MeasurementSystem.this w2) = true.
Proof.
  intros Hidle w1 w2 Hed Hp. subst w2.
  destruct (mousedown_enters_editing w e Hidle Hed) as (mi & pj & m & p0 & Hact & Hw1 & Hm & Hp0).
  subst w1. rewrite Hw1 in *.
  set (w1 := MeasurementSystem.startEditing w mi (Z.of_nat pj)) in *.
  assert (Hthis : MeasurementSystem.this w1
                  = MeasurementSystem.set_editing (MeasurementSystem.this w) true
                      (Z.of_nat pj) (Z.of_nat mi)) by apply startEditing_this.
  assert (Hact1 : MeasurementSystem.active (MeasurementSystem.this w1) = true)
    by (rewrite Hthis; exact Hact).
  assert (Hmi : MeasurementSystem.editingMeasurementIndex (MeasurementSystem.this w1)
                = Z.of_nat mi) by (rewrite Hthis; reflexivity).
  assert (Hpj : MeasurementSystem.editingPointIndex (MeasurementSystem.this w1)
                = Z.of_nat pj) by (rewrite Hthis; reflexivity).
  assert (Hms : MeasurementSystem.measurements (MeasurementSystem.this w1)
                = MeasurementSystem.measurements (MeasurementSystem.this w))
    by (rewrite Hthis; reflexivity).
  assert (Hget : forall (A : Type) (l : list A) (n : nat),
            MeasurementSystem.array_get l (Z.of_nat n) = l !! n).
  { intros A l n. unfold MeasurementSystem.array_get.
    destruct (Z.ltb_spec (Z.of_nat n) 0); [lia|]. rewrite Nat2Z.id. reflexivity. }
  destruct (handleMouseMove_writes_point w1 e' p p0 m Hed Hp)
    as (w' & m' & Hmove & Hm' & Hpts & _).
  { rewrite Hmi, Hms, Hget. exact Hm. }
  { rewrite Hpj, Hget. exact Hp0. }
  rewrite Hmi, Hget in Hm'. rewrite Hpj, Nat2Z.id in Hpts.
  cbn [MeasurementSystem.step]. rewrite Hact1, Hed, Hmove. cbn [andb].
  exists mi, pj, m, m'.
  split; [exact Hmi|]. split; [exact Hpj|]. split; [exact Hm|].
  split; [eapply lookup_lt_Some, Hp0|]. split; [exact Hm'|]. split; [exact Hpts|].
  pose proof (handleMouseMove_frame w1 w' e' Hmove) as Hframe.
  apply (f_equal (fun t => snd (fst t))) in Hframe. cbn in Hframe.
  rewrite Hframe. exact Hed.
Qed.

Lemma press_then_move_witness :
  let press := MeasurementSystem.mkMouseEvent true false (Some (pt 3 0 4)) 0 in
  let move := MeasurementSystem.mkMouseEvent true false (Some (pt 9 9 9)) 0 in
  let w1 := MeasurementSystem.step segment_drawn (MeasurementSystem.mousedown press) in
  let w2 := MeasurementSystem.step w1 (MeasurementSystem.mousemove move) in
  (MeasurementSystem.isEditing (MeasurementSystem.this segment_drawn) = false
   /\ MeasurementSystem.isEditing (MeasurementSystem.this w1) = true
   /\ MeasurementSystem.intersection move = Some (pt 9 9 9))
  /\ exists mi pj m m',
       MeasurementSystem.editingMeasurementIndex (MeasurementSystem.this w1) = Z.of_nat mi
       /\ MeasurementSystem.editingPointIndex (MeasurementSystem.this w1) = Z.of_nat pj
       /\ MeasurementSystem.measurements (MeasurementSystem.this segment_drawn) !! mi = Some m
       /\ (pj < List.length (points m))%nat
       /\ MeasurementSystem.measurements (MeasurementSystem.this w2) !! mi = Some m'
       /\ points m' = <[pj := pt 9 9 9]> (points m)
       /\ MeasurementSystem.isEditing (MeasurementSystem.this w2) = true.
Proof.
  intros press move w1 w2.
  assert (H0 : MeasurementSystem.isEditing (MeasurementSystem.this segment_drawn) = false)
    by (vm_compute; reflexivity).
  assert (H1 : MeasurementSystem.isEditing (MeasurementSystem.this w1) = true)
    by (vm_compute; reflexivity).
  assert (H2 : MeasurementSystem.intersection move = Some (pt 9 9 9)) by reflexivity.
  split; [auto|].
  exact (press_then_move segment_drawn press move (pt 9 9 9) H0 H1 H2).
Defined.

(** ** Disposing of the measurement system *)

Lemma clearMeasurement_measurements (w : MeasurementSystem.World) (k : nat)
    (m : Measurement) :
  isLocked m = false ->
  MeasurementSystem.measurements
    (MeasurementSystem.this (MeasurementSystem.clearMeasurement w k m))
  = delete k (MeasurementSystem.measurements (MeasurementSystem.this w)).
Proof.
  intros Hl. unfold MeasurementSystem.clearMeasurement. rewrite Hl.
  destruct w as [s c out]. destruct s. cbn.
  destruct (_ >=? _)%Z; reflexivity.
Qed.

(** Past the end of the array [forEach] finds nothing to visit. *)
Lemma dispose_rounds_beyond (rounds k : nat) (w : MeasurementSystem.World) :
  (List.length (MeasurementSystem.measurements (MeasurementSystem.this w)) <= k)%nat ->
  MeasurementSystem.dispose_rounds rounds k w = w.
Proof.
  revert k. induction rounds as [|rounds IH]; intros k Hk; [reflexivity|].
  cbn [MeasurementSystem.dispose_rounds].
  rewrite lookup_ge_None_2 by exact Hk. apply IH. lia.
Qed.

(** Each round removes the element under the cursor, so the next one
    slides under it and is skipped when the cursor moves on. *)
Lemma dispose_rounds_measurements (rounds : nat) :
  forall (rest pre : list Measurement) (w : MeasurementSystem.World),
    MeasurementSystem.measurements (MeasurementSystem.this w) = pre ++ rest ->
    Forall (fun m => isLocked m = false) rest ->
    (List.length rest <= rounds)%nat ->
    MeasurementSystem.measurements
      (MeasurementSystem.this
         (MeasurementSystem.dispose_rounds rounds (List.length pre) w))
    = pre ++ odd_positions rest.
Proof.
  induction rounds as [|rounds IH]; intros rest pre w Hms Hun Hlen.
  - destruct rest; [|cbn in Hlen; lia]. exact Hms.
  - cbn [MeasurementSystem.dispose_rounds]. rewrite Hms.
    destruct rest as [|a [|b rest]].
    + rewrite lookup_ge_None_2 by (rewrite length_app; cbn; lia).
      rewrite dispose_rounds_beyond by (rewrite Hms, length_app; cbn; lia).
      exact Hms.
    + rewrite list_lookup_middle by reflexivity.
      apply Forall_cons in Hun as [Ha _].
      assert (Hafter := clearMeasurement_measurements w (List.length pre) a Ha).
      rewrite Hms, delete_middle in Hafter.
      rewrite dispose_rounds_beyond by (rewrite Hafter, length_app; cbn; lia).
      exact Hafter.
    + rewrite list_lookup_middle by reflexivity.
      apply Forall_cons in Hun as [Ha Hun]. apply Forall_cons in Hun as [_ Hun].
      assert (Hafter := clearMeasurement_measurements w (List.length pre) a Ha).
      rewrite Hms, delete_middle in Hafter.
      replace (Datatypes.S (List.length pre)) with (List.length (pre ++ [b]))
        by (rewrite length_app; cbn; lia).
      cbn [odd_positions].
      replace (pre ++ b :: odd_positions rest) with ((pre ++ [b]) ++ odd_positions rest)
        by (rewrite <- app_assoc; reflexivity).
      apply IH; [|exact Hun|cbn in Hlen; lia].
      rewrite Hafter, <- app_assoc. reflexivity.
Qed.

Lemma dispose_measurements (w : MeasurementSystem.World) :
  Forall (fun m => isLocked m = false)
    (MeasurementSystem.measurements (MeasurementSystem.this w)) ->
  MeasurementSystem.measurements (MeasurementSystem.this (MeasurementSystem.dispose w))
  = odd_positions (MeasurementSystem.measurements (MeasurementSystem.this w)).
Proof.
  intros Hun. unfold MeasurementSystem.dispose.
  set (w0 := MeasurementSystem.print w _).
  assert (Hthis : MeasurementSystem.this w0 = MeasurementSystem.this w)
    by (destruct w; reflexivity).
  rewrite Hthis.
  set (w1 := MeasurementSystem.dispose_rounds _ _ _).
  transitivity (MeasurementSystem.measurements (MeasurementSystem.this w1));
    [destruct w1; reflexivity|].
  subst w1.
  apply (dispose_rounds_measurements _
           (MeasurementSystem.measurements (MeasurementSystem.this w)) [] w0).
  - rewrite Hthis. reflexivity.
  - exact Hun.
  - lia.
Qed.

(** X12: [dispose] does not empty the measurement array.  Whatever events
    arrived after start-up, the measurements that were at positions
    1, 3, 5, ... are still in [this.measurements] afterwards, in order:
    [forEach] walks the array [clearMeasurement] is splicing. *)
Theorem dispose_leaves_every_other_measurement
    (c : option ControlsManager.t) (evs : list MeasurementSystem.Event) :
  let w := MeasurementSystem.run evs (MeasurementSystem.initial c) in
  MeasurementSystem.measurements (MeasurementSystem.this (MeasurementSystem.dispose w))
  = odd_positions (MeasurementSystem.measurements (MeasurementSystem.this w)).
Proof.
  intros w. apply dispose_measurements.
  assert (Hstore : store_ok (MeasurementSystem.this w))
    by apply run_store_ok, initial_store_ok.
  destruct Hstore as (_ & _ & _ & _ & Hok & _).
  eapply Forall_impl; [exact Hok|]. intros m (_ & Hl & _). exact Hl.
Qed.

(** With two measurements drawn, the second one survives [dispose]. *)
Example dispose_keeps_second_measurement :
  let w := MeasurementSystem.run two_measurements_events
             (MeasurementSystem.initial (Some (registered_controls true))) in
  map points (MeasurementSystem.measurements (MeasurementSystem.this w))
  = [[pt 0 0 0]; [pt 1 0 0]]
  /\ map points
       (MeasurementSystem.measurements
          (MeasurementSystem.this (MeasurementSystem.dispose w)))
     = [[pt 1 0 0]].
Proof.
  split; vm_compute; reflexivity.
Qed.

(** ** The tool modes of the application *)

Lemma step_active (w : MeasurementSystem.World) (ev : MeasurementSystem.Event) :
  MeasurementSystem.active (MeasurementSystem.this (MeasurementSystem.step w ev))
  = match ev with
    | MeasurementSystem.call_activate => true
    | MeasurementSystem.call_deactivate => false
    | _ => MeasurementSystem.active (MeasurementSystem.this w)
    end.
Proof.
  change (fst (fst (editing_frame (MeasurementSystem.step w ev)))
          = match ev with
            | MeasurementSystem.call_activate => true
            | MeasurementSystem.call_deactivate => false
            | _ => fst (fst (editing_frame w))
            end).
  destruct ev as [e|e|e|e| | | |now|index| |]; cbn [MeasurementSystem.step].
  - destruct (MeasurementSystem.active (MeasurementSystem.this w)); [|reflexivity].
    rewrite handleClick_frame. reflexivity.
  - destruct (MeasurementSystem.active (MeasurementSystem.this w)
              && MeasurementSystem.ctrlKey e); [|reflexivity].
    unfold MeasurementSystem.handleMouseDown.
    repeat case_match; try reflexivity.
    rewrite startEditing_frame. reflexivity.
  - destruct (MeasurementSystem.active (MeasurementSystem.this w)
              && MeasurementSystem.isEditing (MeasurementSystem.this w)); [|reflexivity].
    destruct (MeasurementSystem.handleMouseMove w e) as [w'|err] eqn:Hmove; [|reflexivity].
    rewrite (handleMouseMove_frame w w' e Hmove). reflexivity.
  - destruct (MeasurementSystem.active (MeasurementSystem.this w)
              && MeasurementSystem.isEditing (MeasurementSystem.this w)); [|reflexivity].
    unfold MeasurementSystem.handleMouseUp.
    destruct (MeasurementSystem.isEditing (MeasurementSystem.this w)); [|reflexivity].
    rewrite stopEditing_frame. reflexivity.
  - reflexivity.
  - unfold MeasurementSystem.deactivate. rewrite print_frame, stopEditing_frame.
    reflexivity.
  - rewrite closeMeasurement_frame. reflexivity.
  - rewrite createNewMeasurement_frame. reflexivity.
  - rewrite switchToMeasurement_frame. reflexivity.
  - reflexivity.
  - rewrite clearCurrent_frame. reflexivity.
Qed.

(** Every event of the application reaches the measurement system as one
    of its own listeners or calls, or not at all; only the four buttons
    activate or deactivate it. *)
Lemma app_step_cases (app : Inspector3D.App) (ev : Inspector3D.Event) :
  (Inspector3D.step app ev = app
   \/ exists ev',
        keeps_tool_flag ev' = true
        /\ Inspector3D.step app ev
           = Inspector3D.set_measurement app
               (MeasurementSystem.step (Inspector3D.measurement app) ev'))
  \/ (ev = Inspector3D.measureBtn \/ ev = Inspector3D.annotateBtn
      \/ ev = Inspector3D.referenceBtn \/ ev = Inspector3D.himpBtn).
Proof.
  destruct ev as [ | | | |e|e|e|e|e]; try (right; tauto); left;
    cbn [Inspector3D.step].
  - unfold Inspector3D.handleKeydown, Inspector3D.handleEscape,
      Inspector3D.in_measure_mode.
    repeat case_match; try (left; reflexivity); right.
    + exists MeasurementSystem.call_toggleLabels. split; reflexivity.
    + exists MeasurementSystem.call_closeMeasurement. split; reflexivity.
    + exists (MeasurementSystem.call_createNewMeasurement (Inspector3D.key_now e)).
      split; reflexivity.
    + exists MeasurementSystem.call_clearCurrent. split; reflexivity.
    + eexists (MeasurementSystem.call_switchToMeasurement _). split; reflexivity.
  - right. exists (MeasurementSystem.click e). split; reflexivity.
  - right. exists (MeasurementSystem.mousedown e). split; reflexivity.
  - right. exists (MeasurementSystem.mousemove e). split; reflexivity.
  - right. exists (MeasurementSystem.mouseup e). split; reflexivity.
Qed.

Lemma deactivate_active (w : MeasurementSystem.World) :
  MeasurementSystem.active (MeasurementSystem.this (MeasurementSystem.deactivate w))
  = false.
Proof. exact (step_active w MeasurementSystem.call_deactivate). Qed.

Ltac unfold_toggles :=
  cbn [Inspector3D.step];
  unfold Inspector3D.toggleMeasurementMode, Inspector3D.toggleAnnotationMode,
    Inspector3D.toggleReferenceMode, Inspector3D.toggleHimpMode;
  cbn [Inspector3D.currentMode Inspector3D.measurement Inspector3D.annotation_active
       Inspector3D.reference_active Inspector3D.himp_active Inspector3D.ui].

Lemma step_tools_follow_mode (app : Inspector3D.App) (ev : Inspector3D.Event) :
  tools_follow_mode app -> tools_follow_mode (Inspector3D.step app ev).
Proof.
  intros Hok.
  destruct (app_step_cases app ev)
    as [[Hsame | (ev' & Hquiet & Hstep)] | Hbutton].
  - rewrite Hsame. exact Hok.
  - rewrite Hstep. destruct Hok as (Hm & Hrest). split; [|exact Hrest].
    cbn [Inspector3D.set_measurement Inspector3D.measurement Inspector3D.currentMode].
    rewrite step_active. destruct ev'; try discriminate; exact Hm.
  - destruct Hok as (Hm & Ha & Hr & Hh).
    destruct app as [mode w a r h buttons].
    cbn [Inspector3D.currentMode Inspector3D.measurement Inspector3D.annotation_active
         Inspector3D.reference_active Inspector3D.himp_active] in *.
    destruct Hbutton as [-> | [-> | [-> | ->]]]; unfold_toggles;
      destruct mode; cbn [Inspector3D.Mode_eqb] in *; unfold tools_follow_mode;
      cbn [Inspector3D.currentMode Inspector3D.measurement Inspector3D.annotation_active
           Inspector3D.reference_active Inspector3D.himp_active Inspector3D.Mode_eqb];
      rewrite ?deactivate_active; repeat split; assumption || reflexivity.
Qed.

Lemma run_tools_follow_mode (evs : list Inspector3D.Event) (app : Inspector3D.App) :
  tools_follow_mode app -> tools_follow_mode (Inspector3D.run evs app).
Proof.
  unfold Inspector3D.run. revert app.
  induction evs as [|ev evs IH]; intros app Hok; [exact Hok|].
  cbn [fold_left]. apply IH, step_tools_follow_mode, Hok.
Qed.

Lemma step_buttons_follow_mode (app : Inspector3D.App) (ev : Inspector3D.Event) :
  buttons_follow_mode app -> buttons_follow_mode (Inspector3D.step app ev).
Proof.
  intros Hok.
  destruct (app_step_cases app ev)
    as [[Hsame | (ev' & _ & Hstep)] | Hbutton].
  - rewrite Hsame. exact Hok.
  - rewrite Hstep. exact Hok.
  - destruct Hok as (Hm & Ha & Hr & Hh).
    destruct app as [mode w a r h [buttons]].
    cbn [Inspector3D.currentMode Inspector3D.ui UIManager.selected] in *.
    destruct Hbutton as [-> | [-> | [-> | ->]]]; unfold_toggles;
      destruct mode; cbn [Inspector3D.Mode_eqb] in *; unfold buttons_follow_mode;
      cbn [Inspector3D.currentMode Inspector3D.ui Inspector3D.Mode_eqb
           Inspector3D.select_only UIManager.setButtonActive UIManager.selected];
      repeat split; assumption || reflexivity.
Qed.

Lemma run_buttons_follow_mode (evs : list Inspector3D.Event) (app : Inspector3D.App) :
  buttons_follow_mode app -> buttons_follow_mode (Inspector3D.run evs app).
Proof.
  unfold Inspector3D.run. revert app.
  induction evs as [|ev evs IH]; intros app Hok; [exact Hok|].
  cbn [fold_left]. apply IH, step_buttons_follow_mode, Hok.
Qed.

(** The application drives the measurement system through its listeners
    and calls only. *)
Lemma app_measurement_trace (evs : list Inspector3D.Event) (app : Inspector3D.App) :
  exists evs',
    Inspector3D.measurement (Inspector3D.run evs app)
    = MeasurementSystem.run evs' (Inspector3D.measurement app).
Proof.
  unfold Inspector3D.run. revert app.
  induction evs as [|ev evs IH]; intros app; [exists []; reflexivity|].
  cbn [fold_left]. destruct (IH (Inspector3D.step app ev)) as [evs' Hevs'].
  rewrite Hevs'.
  destruct (app_step_cases app ev)
    as [[Hsame | (ev' & _ & Hstep)] | Hbutton].
  - rewrite Hsame. exists evs'. reflexivity.
  - rewrite Hstep. exists (ev' :: evs'). reflexivity.
  - destruct Hbutton as [-> | [-> | [-> | ->]]]; cbn [Inspector3D.step];
      unfold Inspector3D.toggleMeasurementMode, Inspector3D.toggleAnnotationMode,
        Inspector3D.toggleReferenceMode, Inspector3D.toggleHimpMode;
      destruct (Inspector3D.Mode_eqb _ _);
      cbn [Inspector3D.measurement];
      first [ exists evs'; reflexivity
            | exists (MeasurementSystem.call_deactivate :: evs'); reflexivity
            | exists (MeasurementSystem.call_activate :: evs'); reflexivity ].
Qed.

(** X13: at most one tool is active, and it is the one [currentMode]
    names and the toolbar shows.  Whatever buttons, keys and pointer
    events arrive after start-up, the measurement system is active exactly
    in 'measure' mode, the annotation system exactly in 'annotate' mode,
    the reference system exactly in 'reference' mode and the HIMP system
    exactly in 'himp' mode; and each of the four tool buttons is selected
    exactly in its mode. *)
Theorem one_tool_active_at_a_time
    (c : option ControlsManager.t) (evs : list Inspector3D.Event) :
  let app := Inspector3D.run evs (Inspector3D.initial c) in
  (MeasurementSystem.active (MeasurementSystem.this (Inspector3D.measurement app))
   = Inspector3D.Mode_eqb (Inspector3D.currentMode app) Inspector3D.measure
   /\ Inspector3D.annotation_active app
      = Inspector3D.Mode_eqb (Inspector3D.currentMode app) Inspector3D.annotate
   /\ Inspector3D.reference_active app
      = Inspector3D.Mode_eqb (Inspector3D.currentMode app) Inspector3D.reference
   /\ Inspector3D.himp_active app
      = Inspector3D.Mode_eqb (Inspector3D.currentMode app) Inspector3D.himp)
  /\ (UIManager.selected (Inspector3D.ui app) "measureBtn"
      = Inspector3D.Mode_eqb (Inspector3D.currentMode app) Inspector3D.measure
      /\ UIManager.selected (Inspector3D.ui app) "annotateBtn"
         = Inspector3D.Mode_eqb (Inspector3D.currentMode app) Inspector3D.annotate
      /\ UIManager.selected (Inspector3D.ui app) "referenceBtn"
         = Inspector3D.Mode_eqb (Inspector3D.currentMode app) Inspector3D.reference
      /\ UIManager.selected (Inspector3D.ui app) "himpBtn"
         = Inspector3D.Mode_eqb (Inspector3D.currentMode app) Inspector3D.himp).
Proof.
  split.
  - apply (run_tools_follow_mode evs (Inspector3D.initial c)). repeat split.
  - apply (run_buttons_follow_mode evs (Inspector3D.initial c)). repeat split.
Qed.

(** X14: leaving measure mode ends a drag.  Whatever buttons, keys and
    pointer events arrive after start-up, whenever the mode is not
    'measure' no point is being edited and camera input is on, also when
    the tool was switched between the Ctrl-press and the release. *)
Theorem camera_free_outside_measure_mode
    (initialised : bool) (evs : list Inspector3D.Event) :
  let app := Inspector3D.run evs
               (Inspector3D.initial (Some (registered_controls initialised))) in
  Inspector3D.currentMode app <> Inspector3D.measure ->
  MeasurementSystem.isEditing (MeasurementSystem.this (Inspector3D.measurement app))
  = false
  /\ exists c,
       MeasurementSystem.inspector3D_controls (Inspector3D.measurement app) = Some c
       /\ camera_input_is c true = true.
Proof.
  intros app Hmode.
  assert (Hflags : tools_follow_mode app).
  { apply run_tools_follow_mode. repeat split. }
  destruct Hflags as (Hactive & _).
  assert (Hoff : MeasurementSystem.active
                   (MeasurementSystem.this (Inspector3D.measurement app)) = false).
  { rewrite Hactive. destruct (Inspector3D.currentMode app); try reflexivity.
    contradiction Hmode. reflexivity. }
  destruct (app_measurement_trace evs
              (Inspector3D.initial (Some (registered_controls initialised))))
    as [evs' Hevs'].
  fold app in Hevs'.
  assert (Inv : editing_invariant (editing_frame (Inspector3D.measurement app))).
  { rewrite Hevs'. apply run_invariant, initial_invariant. }
  destruct Inv as (Hed & c & Hc & Hcam). cbn [editing_frame] in *.
  assert (Hidle : MeasurementSystem.isEditing
                    (MeasurementSystem.this (Inspector3D.measurement app)) = false).
  { destruct (MeasurementSystem.isEditing _); [|reflexivity].
    specialize (Hed eq_refl). congruence. }
  split; [exact Hidle|]. exists c. split; [exact Hc|].
  rewrite Hidle in Hcam. exact Hcam.
Qed.

Lemma camera_free_outside_measure_mode_witness :
  let app := Inspector3D.run interrupted_drag
               (Inspector3D.initial (Some (registered_controls true))) in
  Inspector3D.currentMode app <> Inspector3D.measure
  /\ MeasurementSystem.isEditing (MeasurementSystem.this (Inspector3D.measurement app))
     = false
  /\ exists c,
       MeasurementSystem.inspector3D_controls (Inspector3D.measurement app) = Some c
       /\ camera_input_is c true = true.
Proof.
  intros app.
  assert (Hmode : Inspector3D.currentMode app <> Inspector3D.measure)
    by (vm_compute; discriminate).
  split; [exact Hmode|].
  exact (camera_free_outside_measure_mode true interrupted_drag Hmode).
Defined.

(** ** The order of doubles *)

(** The comparisons of [SpecFloat], which the primitive ones are specified
    by, order the doubles other than NaN. *)
Ltac sf_order :=
  repeat match goal with
  | s : bool |- _ => destruct s
  end;
  cbn in *; try discriminate; try reflexivity; try congruence;
  repeat match goal with
  | H : context [(?x ?= ?y)%Z] |- _ =>
      let E := fresh "E" in destruct (Z.compare_spec x y) as [E|E|E]; try subst
  | |- context [(?x ?= ?y)%Z] =>
      let E := fresh "E" in destruct (Z.compare_spec x y) as [E|E|E]; try subst
  end;
  cbn in *; try discriminate; try reflexivity; try lia;
  repeat match goal with
  | H : context [Pos.compare_cont Eq ?x ?y] |- _ =>
      change (Pos.compare_cont Eq x y) with (Pos.compare x y) in *;
      let E := fresh "E" in destruct (Pos.compare_spec x y) as [E|E|E]; try subst
  | |- context [Pos.compare_cont Eq ?x ?y] =>
      change (Pos.compare_cont Eq x y) with (Pos.compare x y) in *;
      let E := fresh "E" in destruct (Pos.compare_spec x y) as [E|E|E]; try subst
  end;
  cbn in *; try discriminate; try reflexivity; try lia.

Lemma SFleb_ltb_trans (a b c : spec_float) :
  SFleb a b = true -> SFltb b c = true -> SFltb a c = true.
Proof. unfold SFleb, SFltb. destruct a, b, c; sf_order. Qed.

Lemma SFltb_trans (a b c : spec_float) :
  SFltb a b = true -> SFltb b c = true -> SFltb a c = true.
Proof. unfold SFltb. destruct a, b, c; sf_order. Qed.

Lemma SFleb_trans (a b c : spec_float) :
  SFleb a b = true -> SFleb b c = true -> SFleb a c = true.
Proof. unfold SFleb. destruct a, b, c; sf_order. Qed.

Lemma SFltb_leb (a b : spec_float) : SFltb a b = true -> SFleb a b = true.
Proof. unfold SFleb, SFltb. destruct (SFcompare a b) as [[]|]; congruence. Qed.

Lemma SFltb_false_leb (a b : spec_float) :
  a <> S754_nan -> b <> S754_nan -> SFltb a b = false -> SFleb b a = true.
Proof. unfold SFleb, SFltb. destruct a, b; try congruence; sf_order. Qed.

Lemma SFleb_zero (t a b : spec_float) (sa sb : bool) :
  a = S754_zero sa -> b = S754_zero sb ->
  SFleb t a = SFleb t b /\ forall c, SFltb a c = SFltb b c.
Proof. intros -> ->. split; [destruct t | intros c; destruct c]; reflexivity. Qed.

Lemma is_nan_spec (a : float) :
  PrimFloat.is_nan a = false <-> Prim2SF a <> S754_nan.
Proof.
  unfold PrimFloat.is_nan. rewrite FloatAxioms.eqb_spec.
  destruct (Prim2SF a) as [s|s| |s m e]; unfold SFeqb; cbn.
  - split; [discriminate | reflexivity].
  - destruct s; (split; [discriminate | reflexivity]).
  - split; [discriminate | congruence].
  - destruct s; rewrite Z.compare_refl;
      change (Pos.compare_cont Eq m m) with (Pos.compare m m);
      rewrite Pos.compare_refl; cbn; (split; [discriminate | reflexivity]).
Qed.

Lemma ltb_trans (a b c : float) :
  (a <? b)%float = true -> (b <? c)%float = true -> (a <? c)%float = true.
Proof. rewrite !FloatAxioms.ltb_spec. apply SFltb_trans. Qed.

Lemma leb_ltb_trans (a b c : float) :
  (a <=? b)%float = true -> (b <? c)%float = true -> (a <? c)%float = true.
Proof. rewrite !FloatAxioms.ltb_spec, FloatAxioms.leb_spec. apply SFleb_ltb_trans. Qed.

Lemma leb_trans (a b c : float) :
  (a <=? b)%float = true -> (b <=? c)%float = true -> (a <=? c)%float = true.
Proof. rewrite !FloatAxioms.leb_spec. apply SFleb_trans. Qed.

Lemma ltb_leb (a b : float) : (a <? b)%float = true -> (a <=? b)%float = true.
Proof. rewrite FloatAxioms.ltb_spec, FloatAxioms.leb_spec. apply SFltb_leb. Qed.

Lemma ltb_false_leb (a b : float) :
  PrimFloat.is_nan a = false -> PrimFloat.is_nan b = false ->
  (a <? b)%float = false -> (b <=? a)%float = true.
Proof.
  rewrite !is_nan_spec, FloatAxioms.ltb_spec, FloatAxioms.leb_spec.
  apply SFltb_false_leb.
Qed.

Lemma zeros_compare_alike (t a b : float) :
  is_positive_zero a = true -> is_negative_zero b = true ->
  (t <=? a)%float = (t <=? b)%float
  /\ forall c, (a <? c)%float = (b <? c)%float.
Proof.
  unfold is_positive_zero, is_negative_zero.
  rewrite !FloatAxioms.classify_spec. intros Ha Hb.
  assert (Hza : Prim2SF a = S754_zero false).
  { unfold SF64classify, SFclassify in Ha.
    destruct (Prim2SF a) as [[]|[]| |[] m e]; try discriminate; try reflexivity;
      destruct (Z.eqb _ _); discriminate. }
  assert (Hzb : Prim2SF b = S754_zero true).
  { unfold SF64classify, SFclassify in Hb.
    destruct (Prim2SF b) as [[]|[]| |[] m e]; try discriminate; try reflexivity;
      destruct (Z.eqb _ _); discriminate. }
  destruct (SFleb_zero (Prim2SF t) _ _ _ _ Hza Hzb) as [Hle Hlt].
  split; [rewrite !FloatAxioms.leb_spec; exact Hle|].
  intros c. rewrite !FloatAxioms.ltb_spec. apply Hlt.
Qed.

(** ** The HIMP scores *)

(** [Math.max] passes a threshold exactly when the highest value so far or
    one of the arguments does, as long as no argument is NaN. *)
Lemma Math_max_from_threshold (t : float) (values : list float) :
  forall highest,
    PrimFloat.is_nan highest = false ->
    existsb PrimFloat.is_nan values = false ->
    (t <=? Math_max_from highest values)%float
    = (t <=? highest)%float || existsb (fun score => (t <=? score)%float) values.
Proof.
  induction values as [|number rest IH]; intros highest Hh Hnan.
  - cbn. rewrite orb_false_r. reflexivity.
  - cbn [existsb] in Hnan. apply orb_false_elim in Hnan as [Hn Hrest].
    cbn [Math_max_from existsb]. rewrite Hn.
    set (h1 := if is_positive_zero number && is_negative_zero highest
               then number else highest).
    assert (H1 : PrimFloat.is_nan h1 = false /\ (t <=? h1)%float = (t <=? highest)%float).
    { subst h1.
      destruct (is_positive_zero number && is_negative_zero highest) eqn:Hz;
        [|split; [exact Hh | reflexivity]].
      apply andb_prop in Hz as [Hzn Hzh].
      split; [exact Hn | apply (zeros_compare_alike t number highest Hzn Hzh)]. }
    destruct H1 as [Hh1 Hle1].
    set (h2 := if (h1 <? number)%float then number else h1).
    assert (H2 : PrimFloat.is_nan h2 = false
                 /\ (t <=? h2)%float = (t <=? highest)%float || (t <=? number)%float).
    { subst h2. rewrite <- Hle1.
      destruct (h1 <? number)%float eqn:Hlt.
      - split; [exact Hn|].
        destruct (t <=? h1)%float eqn:Hth; [|reflexivity].
        cbn [orb]. apply ltb_leb, (leb_ltb_trans t h1 number Hth Hlt).
      - split; [exact Hh1|].
        destruct (t <=? number)%float eqn:Htn; [|rewrite orb_false_r; reflexivity].
        rewrite orb_true_r.
        apply (leb_trans t number h1 Htn), ltb_false_leb; assumption. }
    destruct H2 as [Hh2 Hle2].
    rewrite (IH h2 Hh2 Hrest), Hle2, orb_assoc. reflexivity.
Qed.

(** ** The point [findClosestPoint] picks *)

Lemma SFltb_irrefl (a : spec_float) : SFltb a a = false.
Proof. unfold SFltb. destruct a; sf_order. Qed.

Lemma ltb_irrefl (a : float) : (a <? a)%float = false.
Proof. rewrite FloatAxioms.ltb_spec. apply SFltb_irrefl. Qed.

(** A candidate that no distance is below stays so when a smaller
    candidate replaces it. *)
Lemma not_below_smaller (d best best' : float) :
  (d <? best)%float = false -> (best' <? best)%float = true ->
  (d <? best')%float = false.
Proof.
  intros Hd Hsmaller. destruct (d <? best')%float eqn:Hlt; [|reflexivity].
  rewrite (ltb_trans d best' best Hlt Hsmaller) in Hd. discriminate.
Qed.

Lemma fold_seq_invariant_indexed {S : Type} (P : nat -> S -> Prop)
    (body : nat -> S -> S) (n : nat) :
  forall (lo : nat) (s : S),
    (forall i s', (lo <= i < lo + n)%nat -> P i s' -> P (Datatypes.S i) (body i s')) ->
    P lo s -> P (lo + n)%nat (fold_left (fun acc i => body i acc) (seq lo n) s).
Proof.
  induction n as [|n IH]; intros lo s Hbody Hs.
  - cbn. rewrite Nat.add_0_r. exact Hs.
  - cbn [seq fold_left].
    replace (lo + Datatypes.S n)%nat with (Datatypes.S lo + n)%nat by lia.
    apply IH.
    + intros i s' Hi. apply Hbody. lia.
    + apply Hbody; [lia | exact Hs].
Qed.

Lemma for_loop_invariant_indexed {S : Type} (P : nat -> S -> Prop) (lo hi : nat)
    (body : nat -> S -> S) (s : S) :
  (lo <= hi)%nat ->
  (forall i s', (lo <= i < hi)%nat -> P i s' -> P (Datatypes.S i) (body i s')) ->
  P lo s -> P hi (for_loop lo hi body s).
Proof.
  intros Hle Hbody Hs. unfold for_loop.
  pose proof (fold_seq_invariant_indexed P body (hi - lo) lo s) as Hfold.
  replace (lo + (hi - lo))%nat with hi in Hfold by lia.
  apply Hfold; assumption.
Qed.

(** What the two loops of [findClosestPoint] have established once the
    measurements before [i], and the points before [j] of measurement [i],
    have been compared. *)
Lemma findClosestPoint_loops (s : MeasurementSystem.State) (position : Vector3)
    (maxDistance : float) :
  let seen (i j : nat) (acc : MeasurementSystem.ClosestPoint) :=
    match MeasurementSystem.closest_measurement acc with
    | None => MeasurementSystem.closest_distance acc = maxDistance
    | Some _ => (MeasurementSystem.closest_distance acc <? maxDistance)%float = true
    end
    /\ forall mi m pj p,
         MeasurementSystem.measurements s !! mi = Some m ->
         points m !! pj = Some p ->
         (mi < i)%nat \/ (mi = i /\ (pj < j)%nat) ->
         (THREE.distanceTo position p
          <? MeasurementSystem.closest_distance acc)%float = false in
  seen (List.length (MeasurementSystem.measurements s)) 0%nat
    (MeasurementSystem.findClosestPoint s position maxDistance).
Proof.
  intros seen. unfold MeasurementSystem.findClosestPoint.
  apply (for_loop_invariant_indexed (fun i acc => seen i 0%nat acc)); [lia| |].
  - intros i acc Hi Hacc.
    destruct (MeasurementSystem.measurements s !! i) as [m|] eqn:Hm.
    + assert (Hinner : seen i (List.length (points m))
                         (for_loop 0 (List.length (points m))
                            (fun j acc0 =>
                               let distance :=
                                 THREE.distanceTo position (points m !!! j) in
                               if (distance
                                   <? MeasurementSystem.closest_distance acc0)%float
                               then MeasurementSystem.mkClosestPoint (Some i)
                                      (Z.of_nat j) distance
                               else acc0) acc)).
      { apply (for_loop_invariant_indexed (fun j acc0 => seen i j acc0));
          [lia| |exact Hacc].
        intros j acc0 Hj (Hbound & Hseen). cbv zeta.
        assert (Hpj : points m !! j = Some (points m !!! j))
          by (apply list_lookup_lookup_total_lt; lia).
        destruct (THREE.distanceTo position (points m !!! j)
                  <? MeasurementSystem.closest_distance acc0)%float eqn:Hlt.
        - split; cbn [MeasurementSystem.closest_measurement
                        MeasurementSystem.closest_distance].
          + destruct (MeasurementSystem.closest_measurement acc0).
            * exact (ltb_trans _ _ _ Hlt Hbound).
            * rewrite <- Hbound. exact Hlt.
          + intros mi m' pj p Hm' Hp [Hmi | [-> Hpj']].
            * apply (not_below_smaller _ (MeasurementSystem.closest_distance acc0));
                [|exact Hlt].
              apply (Hseen mi m' pj p Hm' Hp). left. exact Hmi.
            * rewrite Hm in Hm'. injection Hm' as <-.
              destruct (decide (pj = j)) as [->|Hne].
              -- rewrite Hpj in Hp. injection Hp as <-. apply ltb_irrefl.
              -- apply (not_below_smaller _ (MeasurementSystem.closest_distance acc0));
                   [|exact Hlt].
                 apply (Hseen i m pj p Hm Hp). right. split; [reflexivity | lia].
        - split; [exact Hbound|].
          intros mi m' pj p Hm' Hp [Hmi | [-> Hpj']].
          + apply (Hseen mi m' pj p Hm' Hp). left. exact Hmi.
          + rewrite Hm in Hm'. injection Hm' as <-.
            destruct (decide (pj = j)) as [->|Hne].
            * rewrite Hpj in Hp. injection Hp as <-. exact Hlt.
            * apply (Hseen i m pj p Hm Hp). right. split; [reflexivity | lia]. }
      destruct Hinner as (Hbound & Hseen). split; [exact Hbound|].
      intros mi m' pj p Hm' Hp [Hmi | [_ Hpj']]; [|lia].
      apply (Hseen mi m' pj p Hm' Hp).
      destruct (decide (mi = i)) as [->|Hne].
      * right. split; [reflexivity|]. rewrite Hm in Hm'. injection Hm' as <-.
        eapply lookup_lt_Some, Hp.
      * left. lia.
    + destruct Hacc as (Hbound & Hseen). split; [exact Hbound|].
      intros mi m' pj p Hm' Hp [Hmi | [_ Hpj']]; [|lia].
      apply (Hseen mi m' pj p Hm' Hp). left.
      destruct (decide (mi = i)) as [->|Hne]; [congruence | lia].
  - split; [reflexivity|]. intros mi m pj p _ _ [Hmi | [_ Hpj]]; lia.
Qed.

(** X15: [findClosestPoint] picks a nearest point.  No point of any
    measurement is strictly nearer to the position than the distance
    returned; and a point is returned exactly when some point is strictly
    nearer than [maxDistance]. *)
Theorem findClosestPoint_nearest (s : MeasurementSystem.State) (position : Vector3)
    (maxDistance : float) :
  let found := MeasurementSystem.findClosestPoint s position maxDistance in
  (forall mi m pj p,
      MeasurementSystem.measurements s !! mi = Some m ->
      points m !! pj = Some p ->
      (THREE.distanceTo position p <? MeasurementSystem.closest_distance found)%float
      = false)
  /\ (MeasurementSystem.closest_measurement found = None
      <-> forall mi m pj p,
            MeasurementSystem.measurements s !! mi = Some m ->
            points m !! pj = Some p ->
            (THREE.distanceTo position p <? maxDistance)%float = false).
Proof.
  intros found.
  destruct (findClosestPoint_loops s position maxDistance) as (Hbound & Hseen).
  fold found in Hbound, Hseen.
  assert (Hall : forall mi m pj p,
             MeasurementSystem.measurements s !! mi = Some m ->
             points m !! pj = Some p ->
             (THREE.distanceTo position p
              <? MeasurementSystem.closest_distance found)%float = false).
  { intros mi m pj p Hm Hp. apply (Hseen mi m pj p Hm Hp). left.
    eapply lookup_lt_Some, Hm. }
  split; [exact Hall|]. split.
  - intros Hnone. rewrite Hnone in Hbound. rewrite <- Hbound. exact Hall.
  - intros Hfar.
    destruct (findClosestPoint_wf s position maxDistance)
      as [(Hnone & _) | (mi & m & pj & p & Hsome & Hm & _ & Hp & Hdist)];
      [exact Hnone|].
    fold found in Hsome, Hdist. rewrite Hsome in Hbound.
    rewrite Hdist, (Hfar mi m pj p Hm Hp) in Hbound. discriminate.
Qed.

Lemma findClosestPoint_nearest_witness :
  let s := MeasurementSystem.this segment_drawn in
  let found :=
    MeasurementSystem.findClosestPoint s (pt 3 0 4) MeasurementSystem.default_maxDistance in
  MeasurementSystem.closest_measurement found = Some 0%nat
  /\ MeasurementSystem.closest_pointIndex found = 1%Z
  /\ (THREE.distanceTo (pt 3 0 4) (pt 0 0 0)
      <? MeasurementSystem.closest_distance found)%float = false.
Proof.
  intros s found.
  split; [vm_compute; reflexivity|]. split; [vm_compute; reflexivity|].
  apply (proj1 (findClosestPoint_nearest s (pt 3 0 4)
                  MeasurementSystem.default_maxDistance) 0%nat (drawn segment_drawn) 0%nat);
    vm_compute; reflexivity.
Defined.

(** ** The HIMP assessments *)

Lemma find_by_id_Some (s : HIMPSystem.State) (himpId : Z) (index : nat)
    (a : HIMPSystem.Assessment) :
  HIMPSystem.find_by_id s himpId = Some (index, a) ->
  HIMPSystem.this_himpScores s !! index = Some a /\ HIMPSystem.id a = himpId.
Proof.
  unfold HIMPSystem.find_by_id. intros Hfind.
  apply list_find_Some in Hfind as (Hlookup & Hid & _). split; assumption.
Qed.

(** Save goes on only when every category has its score. *)
Lemma getCurrentScores_complete (f : HIMPSystem.Form) :
  (0 <? List.length
          (List.filter
             (fun key => negb (HIMPSystem.has_key (HIMPSystem.getCurrentScores f) key))
             HIMPSystem.himpCategories))%nat = false ->
  map fst (HIMPSystem.getCurrentScores f) = HIMPSystem.himpCategories.
Proof.
  unfold HIMPSystem.getCurrentScores, HIMPSystem.himpCategories, HIMPSystem.has_key.
  cbn [omap list_omap].
  destruct (HIMPSystem.form_select f "coating_condition");
    destruct (HIMPSystem.form_select f "general_corrosion");
    destruct (HIMPSystem.form_select f "pitting_grooving");
    destruct (HIMPSystem.form_select f "deformation");
    destruct (HIMPSystem.form_select f "fracture");
    destruct (HIMPSystem.form_select f "cleanliness");
    vm_compute; intros H; (discriminate H || reflexivity).
Qed.

Lemma no_duplicate_elsewhere (l : list HIMPSystem.Assessment) (surfaceId : string)
    (editing : option Z) (b : HIMPSystem.Assessment) :
  existsb (fun himp =>
             String.eqb (HIMPSystem.surfaceId himp) surfaceId
             && HIMPSystem.other_than_edited himp editing) l = false ->
  b ∈ l -> HIMPSystem.surfaceId b = surfaceId ->
  HIMPSystem.other_than_edited b editing = false.
Proof.
  intros Hnone Hb Hsame.
  destruct (HIMPSystem.other_than_edited b editing) eqn:Hother; [|reflexivity].
  assert (Hex : existsb (fun himp =>
                           String.eqb (HIMPSystem.surfaceId himp) surfaceId
                           && HIMPSystem.other_than_edited himp editing) l = true).
  { apply existsb_exists. exists b. split; [apply list_elem_of_In, Hb|].
    rewrite Hother, andb_true_r. apply String.eqb_eq, Hsame. }
  congruence.
Qed.

Lemma NoDup_map_insert {A B : Type} (f : A -> B) (l : list A) (i : nat) (x : A) :
  NoDup (map f l) ->
  (forall j b, l !! j = Some b -> j <> i -> f b <> f x) ->
  NoDup (map f (<[i := x]> l)).
Proof.
  intros Hnodup Hother. apply NoDup_alt. intros j k y Hj Hk.
  change (map f (<[i := x]> l)) with (f <$> <[i := x]> l) in Hj, Hk.
  rewrite list_lookup_fmap in Hj, Hk.
  destruct (<[i := x]> l !! j) as [bj|] eqn:Hbj; [|discriminate].
  destruct (<[i := x]> l !! k) as [bk|] eqn:Hbk; [|discriminate].
  cbn in Hj, Hk. injection Hj as <-. injection Hk as Hk.
  apply list_lookup_insert_Some in Hbj as [(-> & <- & Hlen) | (Hij & Hbj)];
    apply list_lookup_insert_Some in Hbk as [(Hik & <- & Hlen') | (Hik & Hbk)].
  - congruence.
  - exfalso. apply (Hother k bk Hbk); [congruence | exact Hk].
  - exfalso. subst k. apply (Hother j bj Hbj); [congruence | symmetry; exact Hk].
  - apply (proj1 (NoDup_alt (map f l)) Hnodup j k (f bj)).
    + change (map f l) with (f <$> l). rewrite list_lookup_fmap, Hbj. reflexivity.
    + change (map f l) with (f <$> l). rewrite list_lookup_fmap, Hbk. cbn.
      rewrite Hk. reflexivity.
Qed.

Lemma getCurrentScores_values (f : HIMPSystem.Form) (keys : list string) :
  Forall (fun score => exists o, score = HIMPSystem.parseInt_value o)
    (map snd
       (omap (fun key =>
                match HIMPSystem.form_select f key with
                | Some o => Some (key, HIMPSystem.parseInt_value o)
                | None => None
                end) keys)).
Proof.
  induction keys as [|key keys IH]; cbn [omap list_omap map]; [constructor|].
  destruct (HIMPSystem.form_select f key) as [o|]; [|exact IH].
  cbn [map snd]. constructor; [exists o; reflexivity | exact IH].
Qed.

Lemma option_scores_not_nan (values : list float) :
  Forall (fun score => exists o, score = HIMPSystem.parseInt_value o) values ->
  existsb PrimFloat.is_nan values = false.
Proof.
  induction 1 as [|score rest [o ->] _ IH]; [reflexivity|].
  cbn [existsb]. rewrite IH. destruct o; reflexivity.
Qed.

Lemma sort_insert_Permutation {A : Type} (comparefn : A -> A -> float) (x : A)
    (sorted : list A) :
  Permutation (sort_insert comparefn x sorted) (x :: sorted).
Proof.
  induction sorted as [|y rest IH]; cbn [sort_insert]; [reflexivity|].
  destruct (0 <? comparefn x y)%float; [|reflexivity].
  rewrite IH. apply perm_swap.
Qed.

(** The sort moves the elements of the array and keeps each of them. *)
Lemma Array_sort_Permutation {A : Type} (comparefn : A -> A -> float) (array : list A) :
  Permutation (Array_sort comparefn array) array.
Proof.
  unfold Array_sort.
  induction array as [|x rest IH]; cbn [fold_right]; [reflexivity|].
  rewrite sort_insert_Permutation. constructor. exact IH.
Qed.

Lemma himp_store_ok_frame (s s' : HIMPSystem.State) :
  HIMPSystem.this_himpScores s' = HIMPSystem.this_himpScores s ->
  HIMPSystem.himpIdCounter s' = HIMPSystem.himpIdCounter s ->
  himp_store_ok s -> himp_store_ok s'.
Proof. unfold himp_store_ok. intros -> ->. tauto. Qed.

Lemma updateHimpManager_ok (s : HIMPSystem.State) :
  himp_store_ok s -> himp_store_ok (HIMPSystem.updateHimpManager s).
Proof.
  intros Hstore. unfold HIMPSystem.updateHimpManager.
  destruct (List.length (HIMPSystem.this_himpScores s) =? 0)%nat; [exact Hstore|].
  destruct Hstore as (Hpos & Hids & Hsids & Hbound & Hok).
  pose proof (Array_sort_Permutation
                (fun a b => (HIMPSystem.maxScore b - HIMPSystem.maxScore a)%float)
                (HIMPSystem.this_himpScores s)) as Hperm.
  symmetry in Hperm.
  unfold himp_store_ok.
  cbn [HIMPSystem.this_himpScores HIMPSystem.himpIdCounter HIMPSystem.set_himpScores].
  split; [exact Hpos|]. split; [|split; [|split]].
  - rewrite <- (Permutation_map HIMPSystem.id Hperm). exact Hids.
  - rewrite <- (Permutation_map HIMPSystem.surfaceId Hperm). exact Hsids.
  - eapply Permutation_Forall; [exact Hperm | exact Hbound].
  - eapply Permutation_Forall; [exact Hperm | exact Hok].
Qed.

Lemma createHimpAssessment_ok (s : HIMPSystem.State) (surfaceId : string)
    (scores : list (string * float)) (notes : string) (position : Vector3) :
  himp_store_ok s ->
  surfaceId <> ""%string ->
  map fst scores = HIMPSystem.himpCategories ->
  Forall (fun score => exists o, score = HIMPSystem.parseInt_value o)
    (HIMPSystem.Object_values scores) ->
  (forall b, b ∈ HIMPSystem.this_himpScores s -> HIMPSystem.surfaceId b <> surfaceId) ->
  himp_store_ok (HIMPSystem.createHimpAssessment s surfaceId scores notes position).
Proof.
  intros (Hpos & Hids & Hsids & Hbound & Hok) Hname Hkeys Hvalues Hfresh.
  unfold HIMPSystem.createHimpAssessment. cbv zeta. apply updateHimpManager_ok.
  unfold himp_store_ok.
  cbn [HIMPSystem.this_himpScores HIMPSystem.himpIdCounter HIMPSystem.set_himpScores
       HIMPSystem.set_himpIdCounter].
  rewrite !map_app. cbn [map HIMPSystem.id HIMPSystem.surfaceId].
  split; [lia|]. split; [|split; [|split]].
  - apply NoDup_app. split; [exact Hids|]. split; [|apply NoDup_singleton].
    intros n Hn Hin. apply list_elem_of_singleton in Hin. subst n.
    apply list_elem_of_fmap in Hn as (b & Hb & Hin).
    rewrite Forall_forall in Hbound. specialize (Hbound b Hin). lia.
  - apply NoDup_app. split; [exact Hsids|]. split; [|apply NoDup_singleton].
    intros n Hn Hin. apply list_elem_of_singleton in Hin. subst n.
    apply list_elem_of_fmap in Hn as (b & Hb & Hin).
    apply (Hfresh b Hin). symmetry. exact Hb.
  - apply Forall_app. split.
    + eapply Forall_impl; [exact Hbound|]. cbn. intros a Ha. lia.
    + apply Forall_singleton. cbn [HIMPSystem.id]. lia.
  - apply Forall_app. split; [exact Hok|]. apply Forall_singleton.
    repeat split; assumption.
Qed.

Lemma updateHimpAssessment_ok (s : HIMPSystem.State) (himpId : Z) (surfaceId : string)
    (scores : list (string * float)) (notes : string) :
  himp_store_ok s ->
  surfaceId <> ""%string ->
  map fst scores = HIMPSystem.himpCategories ->
  Forall (fun score => exists o, score = HIMPSystem.parseInt_value o)
    (HIMPSystem.Object_values scores) ->
  (forall b, b ∈ HIMPSystem.this_himpScores s -> HIMPSystem.surfaceId b = surfaceId ->
             HIMPSystem.id b = himpId) ->
  himp_store_ok (HIMPSystem.updateHimpAssessment s himpId surfaceId scores notes).
Proof.
  intros Hstore Hname Hkeys Hvalues Hfresh. unfold HIMPSystem.updateHimpAssessment.
  destruct (HIMPSystem.find_by_id s himpId) as [[index a]|] eqn:Hfind; [|exact Hstore].
  apply find_by_id_Some in Hfind as [Hlookup Hid].
  cbv zeta. apply updateHimpManager_ok.
  destruct Hstore as (Hpos & Hids & Hsids & Hbound & Hok).
  unfold himp_store_ok.
  cbn [HIMPSystem.this_himpScores HIMPSystem.himpIdCounter HIMPSystem.set_himpScores
       HIMPSystem.set_editingHimpId].
  split; [exact Hpos|]. split; [|split; [|split]].
  - rewrite (map_insert_same HIMPSystem.id _ index _ a Hlookup) by reflexivity.
    exact Hids.
  - apply NoDup_map_insert; [exact Hsids|].
    intros j b Hb Hne Hsame. cbn [HIMPSystem.surfaceId] in Hsame.
    assert (Hidb : HIMPSystem.id b = himpId)
      by (apply Hfresh; [eapply list_elem_of_lookup_2, Hb | exact Hsame]).
    apply Hne.
    apply (proj1 (NoDup_alt _) Hids j index himpId).
    + change (map HIMPSystem.id ?l) with (HIMPSystem.id <$> l).
      rewrite list_lookup_fmap, Hb. cbn. rewrite Hidb. reflexivity.
    + change (map HIMPSystem.id ?l) with (HIMPSystem.id <$> l).
      rewrite list_lookup_fmap, Hlookup. cbn. rewrite Hid. reflexivity.
  - apply Forall_insert; [exact Hbound|]. cbn [HIMPSystem.id].
    rewrite Forall_forall in Hbound. apply Hbound.
    eapply list_elem_of_lookup_2, Hlookup.
  - apply Forall_insert; [exact Hok|]. repeat split; assumption.
Qed.

Lemma saveHimpAssessment_ok (s : HIMPSystem.State) (f : HIMPSystem.Form) :
  himp_store_ok s -> himp_store_ok (HIMPSystem.saveHimpAssessment s f).
Proof.
  intros Hstore. unfold HIMPSystem.saveHimpAssessment.
  destruct (HIMPSystem.pendingSurfacePoint s) as [position|]; [|exact Hstore].
  cbv zeta.
  destruct (String.eqb_spec (HIMPSystem.form_surfaceId f) "") as [|Hname];
    [exact Hstore|].
  destruct (0 <? List.length _)%nat eqn:Hmissing; [exact Hstore|].
  apply getCurrentScores_complete in Hmissing.
  pose proof (getCurrentScores_values f HIMPSystem.himpCategories) as Hvalues.
  destruct (existsb _ (HIMPSystem.this_himpScores s)) eqn:Hdup; [exact Hstore|].
  apply (himp_store_ok_frame
           (match HIMPSystem.editingHimpId s with
            | Some himpId =>
                HIMPSystem.updateHimpAssessment s himpId (HIMPSystem.form_surfaceId f)
                  (HIMPSystem.getCurrentScores f) (HIMPSystem.form_notes f)
            | None =>
                HIMPSystem.createHimpAssessment s (HIMPSystem.form_surfaceId f)
                  (HIMPSystem.getCurrentScores f) (HIMPSystem.form_notes f) position
            end)); [reflexivity | reflexivity |].
  destruct (HIMPSystem.editingHimpId s) as [himpId|] eqn:Hediting.
  - apply updateHimpAssessment_ok; try assumption.
    intros b Hb Hsame.
    pose proof (no_duplicate_elsewhere _ _ _ b Hdup Hb Hsame) as Hother.
    cbn [HIMPSystem.other_than_edited] in Hother.
    apply negb_false_iff, Z.eqb_eq in Hother. exact Hother.
  - apply createHimpAssessment_ok; try assumption.
    intros b Hb Hsame.
    pose proof (no_duplicate_elsewhere _ _ _ b Hdup Hb Hsame) as Hother.
    discriminate Hother.
Qed.

Lemma deleteHimpAssessment_ok (s : HIMPSystem.State) (confirmed : bool) :
  himp_store_ok s -> himp_store_ok (HIMPSystem.deleteHimpAssessment s confirmed).
Proof.
  intros Hstore. unfold HIMPSystem.deleteHimpAssessment.
  destruct (HIMPSystem.editingHimpId s) as [himpId|]; [|exact Hstore].
  destruct (HIMPSystem.find_by_id s himpId) as [[index a]|]; [|exact Hstore].
  destruct confirmed; [|exact Hstore].
  cbv zeta. apply updateHimpManager_ok.
  destruct Hstore as (Hpos & Hids & Hsids & Hbound & Hok).
  unfold himp_store_ok.
  cbn [HIMPSystem.this_himpScores HIMPSystem.himpIdCounter HIMPSystem.set_himpScores
       HIMPSystem.hideHimpModal HIMPSystem.cancelPendingHimp
       HIMPSystem.set_editingHimpId HIMPSystem.set_pendingSurfacePoint].
  split; [exact Hpos|]. split; [|split; [|split]].
  - apply (sublist_NoDup _ _ Hids).
    change (map HIMPSystem.id ?l) with (HIMPSystem.id <$> l).
    rewrite list_fmap_delete. apply sublist_delete.
  - apply (sublist_NoDup _ _ Hsids).
    change (map HIMPSystem.surfaceId ?l) with (HIMPSystem.surfaceId <$> l).
    rewrite list_fmap_delete. apply sublist_delete.
  - apply Forall_delete, Hbound.
  - apply Forall_delete, Hok.
Qed.

Lemma step_himp_store_ok (s : HIMPSystem.State) (ev : HIMPSystem.Event) :
  himp_store_ok s -> himp_store_ok (HIMPSystem.step s ev).
Proof.
  intros Hstore.
  destruct ev as [shiftKey ctrlKey intersection| |himpId|f|confirmed| |available
                 |confirmed| | |ctrlKey]; cbn [HIMPSystem.step].
  - destruct (HIMPSystem.active s && negb shiftKey && negb ctrlKey); [|exact Hstore].
    destruct intersection; exact Hstore.
  - destruct (HIMPSystem.active s); exact Hstore.
  - unfold HIMPSystem.editHimpAssessment.
    destruct (HIMPSystem.find_by_id s himpId) as [[index a]|]; exact Hstore.
  - apply saveHimpAssessment_ok, Hstore.
  - apply deleteHimpAssessment_ok, Hstore.
  - exact Hstore.
  - unfold HIMPSystem.createDiscrepancyFromHimp.
    destruct (HIMPSystem.editingHimpId s) as [himpId|]; [|exact Hstore].
    destruct (HIMPSystem.find_by_id s himpId); [|exact Hstore].
    destruct available; exact Hstore.
  - unfold HIMPSystem.clearAllHimpAssessments.
    destruct (List.length (HIMPSystem.this_himpScores s) =? 0)%nat; [exact Hstore|].
    destruct confirmed; [|exact Hstore].
    apply updateHimpManager_ok. repeat split; cbn; (lia || constructor).
  - exact Hstore.
  - exact Hstore.
  - destruct (HIMPSystem.active s && ctrlKey); [|exact Hstore].
    apply updateHimpManager_ok, Hstore.
Qed.

Lemma run_himp_store_ok (evs : list HIMPSystem.Event) (s : HIMPSystem.State) :
  himp_store_ok s -> himp_store_ok (HIMPSystem.run evs s).
Proof.
  unfold HIMPSystem.run. revert s.
  induction evs as [|ev evs IH]; intros s Hstore; [exact Hstore|].
  cbn [fold_left]. apply IH, step_himp_store_ok, Hstore.
Qed.

Lemma new_himp_store_ok : himp_store_ok HIMPSystem.new.
Proof. repeat split; cbn; (lia || constructor). Qed.

(** X16: no two HIMP assessments share a surface id or an id, and none
    has an empty surface id, whatever is clicked, typed, saved, edited,
    deleted and confirmed after start-up, and however often the manager
    window sorted the assessments. *)
Theorem himp_surface_ids_unique (evs : list HIMPSystem.Event) :
  let s := HIMPSystem.run evs HIMPSystem.new in
  NoDup (map HIMPSystem.surfaceId (HIMPSystem.this_himpScores s))
  /\ NoDup (map HIMPSystem.id (HIMPSystem.this_himpScores s))
  /\ Forall (fun a => HIMPSystem.surfaceId a <> ""%string) (HIMPSystem.this_himpScores s).
Proof.
  intros s.
  assert (Hstore : himp_store_ok s) by apply run_himp_store_ok, new_himp_store_ok.
  destruct Hstore as (_ & Hids & Hsids & _ & Hok).
  split; [exact Hsids|]. split; [exact Hids|].
  eapply Forall_impl; [exact Hok|]. intros a (Hname & _). exact Hname.
Qed.

Lemma recommendRecoat_maxScore (scores : list (string * float)) :
  existsb PrimFloat.is_nan (HIMPSystem.Object_values scores) = false ->
  HIMPSystem.recommendRecoat_of scores = (2 <=? HIMPSystem.maxScore_of scores)%float.
Proof.
  intros Hnan. unfold HIMPSystem.recommendRecoat_of, HIMPSystem.maxScore_of, Math_max.
  rewrite Math_max_from_threshold by (reflexivity || exact Hnan).
  reflexivity.
Qed.

(** X17: the label and the marker of every stored HIMP assessment agree.
    Whatever events arrived after start-up, an assessment in
    [this.himpScores] has a score for each of the six categories, each the
    number of an option of its select; [recommendRecoat] holds exactly
    when [maxScore] is 2 or more, so the label reads OK exactly when the
    zone marker has the safe colour, and exactly then the severity
    proposed for a discrepancy is 'low'. *)
Theorem himp_label_agrees_with_marker (evs : list HIMPSystem.Event)
    (assessment : HIMPSystem.Assessment) :
  assessment ∈ HIMPSystem.this_himpScores (HIMPSystem.run evs HIMPSystem.new) ->
  map fst (HIMPSystem.himpScores assessment) = HIMPSystem.himpCategories
  /\ Forall (fun score => exists o, score = HIMPSystem.parseInt_value o)
       (HIMPSystem.Object_values (HIMPSystem.himpScores assessment))
  /\ HIMPSystem.recommendRecoat assessment
     = (2 <=? HIMPSystem.maxScore assessment)%float
  /\ (HIMPSystem.createHimpVisuals_color assessment = HIMPSystem.ZONE_COLORS_safe
      <-> HIMPSystem.createHimpLabel_statusText assessment = "OK"%string)
  /\ (HIMPSystem.createDiscrepancyFromHimp_severity assessment = "low"%string
      <-> HIMPSystem.createHimpLabel_statusText assessment = "OK"%string).
Proof.
  intros Hin.
  assert (Hstore : himp_store_ok (HIMPSystem.run evs HIMPSystem.new))
    by apply run_himp_store_ok, new_himp_store_ok.
  destruct Hstore as (_ & _ & _ & _ & Hok).
  rewrite Forall_forall in Hok.
  destruct (Hok assessment Hin) as (_ & Hkeys & Hvalues & Hrecoat & Hmax & _).
  assert (Hrec : HIMPSystem.recommendRecoat assessment
                 = (2 <=? HIMPSystem.maxScore assessment)%float)
    by (rewrite Hrecoat, Hmax;
        apply recommendRecoat_maxScore, option_scores_not_nan, Hvalues).
  split; [exact Hkeys|]. split; [exact Hvalues|]. split; [exact Hrec|].
  unfold HIMPSystem.createHimpVisuals_color, HIMPSystem.createDiscrepancyFromHimp_severity,
    HIMPSystem.createHimpLabel_statusText.
  rewrite Hrec.
  assert (H23 : forall t, (3 <=? t)%float = true -> (2 <=? t)%float = true).
  { intros t. apply leb_trans. reflexivity. }
  assert (H35 : forall t, (5 <=? t)%float = true -> (3 <=? t)%float = true).
  { intros t. apply leb_trans. reflexivity. }
  destruct (5 <=? HIMPSystem.maxScore assessment)%float eqn:H5;
    [rewrite (H35 _ H5), (H23 _ (H35 _ H5)); split; split; discriminate|].
  destruct (3 <=? HIMPSystem.maxScore assessment)%float eqn:H3;
    [rewrite (H23 _ H3); split; split; discriminate|].
  destruct (2 <=? HIMPSystem.maxScore assessment)%float;
    split; split; (discriminate || reflexivity).
Qed.

Lemma himp_label_agrees_with_marker_witness :
  one_assessment
    ∈ HIMPSystem.this_himpScores (HIMPSystem.run one_assessment_events HIMPSystem.new)
  /\ map fst (HIMPSystem.himpScores one_assessment) = HIMPSystem.himpCategories
  /\ Forall (fun score => exists o, score = HIMPSystem.parseInt_value o)
       (HIMPSystem.Object_values (HIMPSystem.himpScores one_assessment))
  /\ HIMPSystem.recommendRecoat one_assessment
     = (2 <=? HIMPSystem.maxScore one_assessment)%float
  /\ (HIMPSystem.createHimpVisuals_color one_assessment = HIMPSystem.ZONE_COLORS_safe
      <-> HIMPSystem.createHimpLabel_statusText one_assessment = "OK"%string)
  /\ (HIMPSystem.createDiscrepancyFromHimp_severity one_assessment = "low"%string
      <-> HIMPSystem.createHimpLabel_statusText one_assessment = "OK"%string).
Proof.
  assert (Hin : one_assessment
                  ∈ HIMPSystem.this_himpScores
                      (HIMPSystem.run one_assessment_events HIMPSystem.new))
    by (apply list_elem_of_In; vm_compute; left; reflexivity).
  split; [exact Hin|].
  exact (himp_label_agrees_with_marker one_assessment_events one_assessment Hin).
Defined.

(** The manager window reorders the array: of two assessments, the one
    made second is first once it has the higher [maxScore]. *)
Example manager_sorts_assessments_in_place :
  let s := HIMPSystem.run two_assessments_events HIMPSystem.new in
  map HIMPSystem.id (HIMPSystem.this_himpScores s) = [2; 1]%Z
  /\ map HIMPSystem.surfaceId (HIMPSystem.this_himpScores s)
     = ["frame 13"; "frame 12"]%string
  /\ map HIMPSystem.maxScore (HIMPSystem.this_himpScores s) = [2; 1]%float.
Proof. repeat split; vm_compute; reflexivity. Qed.

(** ** Clamping *)

Lemma leb_refl (a : float) : PrimFloat.is_nan a = false -> (a <=? a)%float = true.
Proof. intros Ha. apply ltb_false_leb; [exact Ha | exact Ha | apply ltb_irrefl]. Qed.

Lemma Math_max_from_not_nan (values : list float) :
  forall highest,
    PrimFloat.is_nan highest = false ->
    existsb PrimFloat.is_nan values = false ->
    PrimFloat.is_nan (Math_max_from highest values) = false.
Proof.
  induction values as [|number rest IH]; intros highest Hh Hnan; [exact Hh|].
  cbn [existsb] in Hnan. apply orb_false_elim in Hnan as [Hn Hrest].
  cbn [Math_max_from]. rewrite Hn. apply IH; [|exact Hrest].
  destruct (is_positive_zero number && is_negative_zero highest);
    destruct (_ <? number)%float; assumption.
Qed.

(** X18: [clamp] stays within its bounds: when no argument is NaN and
    [min] is not above [max], the result is neither below [min] nor above
    [max]. *)
Theorem clamp_within_bounds (value min max : float) :
  PrimFloat.is_nan value = false ->
  PrimFloat.is_nan min = false ->
  PrimFloat.is_nan max = false ->
  (min <=? max)%float = true ->
  (min <=? Utils.clamp value min max)%float = true
  /\ (Utils.clamp value min max <=? max)%float = true.
Proof.
  intros Hvalue Hmin Hmax Hle. unfold Utils.clamp.
  set (m := Math_max [value; min]).
  assert (Hnan : existsb PrimFloat.is_nan [value; min] = false)
    by (cbn [existsb]; rewrite Hvalue, Hmin; reflexivity).
  assert (Hm : PrimFloat.is_nan m = false)
    by (apply Math_max_from_not_nan; [reflexivity | exact Hnan]).
  assert (Hlow : (min <=? m)%float = true).
  { subst m. unfold Math_max.
    rewrite Math_max_from_threshold by (reflexivity || exact Hnan).
    cbn [existsb]. rewrite (leb_refl min Hmin), !orb_true_r. reflexivity. }
  unfold Math_min. rewrite Hm, Hmax. cbn [orb].
  destruct (m <? max)%float eqn:Hlt.
  - split; [exact Hlow | apply ltb_leb, Hlt].
  - destruct (max <? m)%float eqn:Hgt.
    + split; [exact Hle | apply leb_refl, Hmax].
    + assert (Hhigh : (m <=? max)%float = true)
        by (apply ltb_false_leb; assumption).
      destruct (PrimFloat.get_sign m).
      * split; [exact Hlow | exact Hhigh].
      * split; [exact Hle | apply leb_refl, Hmax].
Qed.

Lemma clamp_within_bounds_witness :
  (PrimFloat.is_nan 7 = false /\ PrimFloat.is_nan 0 = false
   /\ PrimFloat.is_nan 1 = false /\ (0 <=? 1)%float = true)
  /\ (0 <=? Utils.clamp 7 0 1)%float = true
  /\ (Utils.clamp 7 0 1 <=? 1)%float = true.
Proof.
  split; [repeat split|].
  apply (clamp_within_bounds 7 0 1); reflexivity.
Defined.

(** ** The severities in the report *)

Lemma collectModalData_severity (f : AnnotationSystem.Form) :
  In (AnnotationSystem.data_severity (AnnotationSystem.collectModalData f))
    form_severities.
Proof.
  unfold AnnotationSystem.collectModalData. cbn [AnnotationSystem.data_severity].
  destruct (AnnotationSystem.annotation_severity f) as [[]|]; cbn; tauto.
Qed.

Lemma updateMeasurementLinkInfo_annotations (s : AnnotationSystem.State)
    (measurements : option (list Measurement)) :
  AnnotationSystem.annotations (AnnotationSystem.updateMeasurementLinkInfo s measurements)
  = AnnotationSystem.annotations s.
Proof.
  unfold AnnotationSystem.updateMeasurementLinkInfo. cbv zeta.
  repeat case_match; reflexivity.
Qed.

Lemma showAnnotationModal_annotations (s : AnnotationSystem.State)
    (annotation : option AnnotationSystem.Annotation)
    (measurements : option (list Measurement)) :
  AnnotationSystem.annotations
    (AnnotationSystem.showAnnotationModal s annotation measurements)
  = AnnotationSystem.annotations s.
Proof.
  unfold AnnotationSystem.showAnnotationModal.
  rewrite updateMeasurementLinkInfo_annotations. destruct annotation; reflexivity.
Qed.

Lemma step_severities_ok (trim : string -> string) (s : AnnotationSystem.State)
    (ev : AnnotationSystem.Event) :
  severities_ok s -> severities_ok (AnnotationSystem.step trim s ev).
Proof.
  unfold severities_ok. intros Hok.
  destruct ev as [clicked intersection ms|index ms|f| |confirmed|ms| | | |point ms];
    cbn [AnnotationSystem.step].
  - destruct (AnnotationSystem.active s); [|exact Hok].
    unfold AnnotationSystem.handleClick, AnnotationSystem.editAnnotation.
    repeat case_match; rewrite ?showAnnotationModal_annotations; exact Hok.
  - unfold AnnotationSystem.editAnnotation.
    case_match; rewrite ?showAnnotationModal_annotations; exact Hok.
  - unfold AnnotationSystem.saveAnnotation. cbv zeta.
    destruct (negb _); [exact Hok|].
    pose proof (collectModalData_severity f) as Hsev.
    destruct (AnnotationSystem.editing s) as [annotationId|].
    + unfold AnnotationSystem.updateAnnotation.
      destruct (AnnotationSystem.find_by_id s annotationId) as [[index a]|];
        [|exact Hok].
      cbn. apply Forall_insert; [exact Hok | exact Hsev].
    + unfold AnnotationSystem.createAnnotation.
      destruct (AnnotationSystem.pendingAnnotationPoint s); [|exact Hok].
      cbn. apply Forall_app. split; [exact Hok|]. apply Forall_singleton. exact Hsev.
  - exact Hok.
  - unfold AnnotationSystem.deleteAnnotation.
    destruct (AnnotationSystem.editing s) as [annotationId|]; [|exact Hok].
    destruct (negb confirmed); [exact Hok|].
    destruct (AnnotationSystem.find_by_id s annotationId) as [[index a]|];
      [|exact Hok].
    cbn. apply Forall_delete, Hok.
  - unfold AnnotationSystem.removeMeasurementLink.
    rewrite updateMeasurementLinkInfo_annotations. exact Hok.
  - exact Hok.
  - exact Hok.
  - exact Hok.
  - rewrite showAnnotationModal_annotations. exact Hok.
Qed.

Lemma run_severities_ok (trim : string -> string) (evs : list AnnotationSystem.Event)
    (s : AnnotationSystem.State) :
  severities_ok s -> severities_ok (AnnotationSystem.run trim evs s).
Proof.
  unfold AnnotationSystem.run. revert s.
  induction evs as [|ev evs IH]; intros s Hok; [exact Hok|].
  cbn [fold_left]. apply IH, step_severities_ok, Hok.
Qed.

Lemma count_severity_none (level : string) (l : list ExportManager.AnnotationData) :
  Forall (fun a => ExportManager.severity a <> level) l ->
  ExportManager.count_severity level l = 0%nat.
Proof.
  unfold ExportManager.count_severity.
  induction 1 as [|a l Ha _ IH]; [reflexivity|].
  cbn [List.filter]. destruct (String.eqb_spec (ExportManager.severity a) level);
    [contradiction | exact IH].
Qed.

Lemma count_severity_app (level : string) (l l' : list ExportManager.AnnotationData) :
  ExportManager.count_severity level (l ++ l')
  = (ExportManager.count_severity level l + ExportManager.count_severity level l')%nat.
Proof.
  unfold ExportManager.count_severity.
  rewrite List.filter_app, List.length_app. reflexivity.
Qed.

(** X19: the report does not see the severities of the form.  The
    severity select of the page has the values 'low', 'medium', 'high'
    and 'critical', and the report counts 'Critical', 'High' and 'Medium':
    whatever is annotated, edited, saved and deleted after start-up, the
    summary of the report counts no critical and no high-priority issue
    and its risk level is 'Very Low'. *)
Theorem report_ignores_form_severities (trim : string -> string)
    (evs : list AnnotationSystem.Event) :
  let annotations :=
    ExportManager.getAnnotationData
      (Some (AnnotationSystem.run trim evs AnnotationSystem.new)) in
  ExportManager.calculateRiskLevel annotations = "Very Low"%string
  /\ ExportManager.criticalIssues (ExportManager.generateSummaryStatistics annotations)
     = 0%nat
  /\ ExportManager.highPriorityIssues (ExportManager.generateSummaryStatistics annotations)
     = 0%nat.
Proof.
  intros annotations.
  assert (Hok : severities_ok (AnnotationSystem.run trim evs AnnotationSystem.new))
    by (apply run_severities_ok; constructor).
  assert (Hnone : forall level,
             ~ In level form_severities ->
             ExportManager.count_severity level annotations = 0%nat).
  { intros level Hlevel. apply count_severity_none.
    subst annotations. cbn [ExportManager.getAnnotationData].
    apply Forall_map. eapply Forall_impl; [exact Hok|].
    intros a Ha. cbn [ExportManager.severity]. intros Heq. apply Hlevel.
    rewrite <- Heq. exact Ha. }
  assert (Hcritical : ExportManager.count_severity "Critical" annotations = 0%nat)
    by (apply Hnone; cbn; intuition discriminate).
  assert (Hhigh : ExportManager.count_severity "High" annotations = 0%nat)
    by (apply Hnone; cbn; intuition discriminate).
  assert (Hmedium : ExportManager.count_severity "Medium" annotations = 0%nat)
    by (apply Hnone; cbn; intuition discriminate).
  unfold ExportManager.calculateRiskLevel, ExportManager.generateSummaryStatistics.
  cbn [ExportManager.criticalIssues ExportManager.highPriorityIssues].
  rewrite Hcritical, Hhigh, Hmedium. repeat split.
Qed.

(** A discrepancy saved with the severity option 'critical' is in the
    report with that severity, at risk level 'Very Low'. *)
Example critical_discrepancy_at_very_low_risk :
  let annotations :=
    ExportManager.getAnnotationData
      (Some (AnnotationSystem.run (fun text => text) critical_discrepancy_events
               AnnotationSystem.new)) in
  map ExportManager.severity annotations = ["critical"%string]
  /\ ExportManager.calculateRiskLevel annotations = "Very Low"%string.
Proof. split; vm_compute; reflexivity. Qed.

(** X20: the risk level of the report never goes down when annotations
    are added: for all lists of annotations, of any severities, the level
    of the longer list is that of the shorter one or a higher one, in the
    order 'Very Low', 'Low', 'Medium', 'High', 'Critical'. *)
Theorem calculateRiskLevel_monotone (annotations more : list ExportManager.AnnotationData) :
  (risk_rank (ExportManager.calculateRiskLevel annotations)
   <= risk_rank (ExportManager.calculateRiskLevel (annotations ++ more)))%nat.
Proof.
  unfold ExportManager.calculateRiskLevel. rewrite !count_severity_app.
  generalize (ExportManager.count_severity "Critical" annotations) as c.
  generalize (ExportManager.count_severity "High" annotations) as h.
  generalize (ExportManager.count_severity "Medium" annotations) as m.
  generalize (ExportManager.count_severity "Critical" more) as c'.
  generalize (ExportManager.count_severity "High" more) as h'.
  generalize (ExportManager.count_severity "Medium" more) as m'.
  intros m' h' c' m h c.
  destruct (Nat.ltb_spec 0 c), (Nat.ltb_spec 0 (c + c')),
    (Nat.ltb_spec 2 h), (Nat.ltb_spec 2 (h + h')),
    (Nat.ltb_spec 0 h), (Nat.ltb_spec 0 (h + h')),
    (Nat.ltb_spec 5 m), (Nat.ltb_spec 5 (m + m')),
    (Nat.ltb_spec 0 m), (Nat.ltb_spec 0 (m + m'));
    try lia; vm_compute; lia.
Qed.
